(** * ItwaarBazaar: inventory concurrency control and order placement

    A shallow embedding of the server side of the shop:
    - [models/Product.js]: the product document and its three statics
      [updateStockSafe], [lockProduct], [unlockProduct];
    - [models/Order.js]: the order document and [createOrderWithTransaction];
    - [routes/cart.js]: the in-memory [userCarts] map and the routes that
      add to, read, change and empty a cart;
    - [routes/orders.js]: [POST /api/orders], [GET /api/orders/:id],
      [PATCH /api/orders/:id/status], [PATCH /api/orders/:id/cancel];
    - [routes/products.js]: [POST /api/products], [PUT /api/products/:id],
      [DELETE /api/products/:id], [PATCH /api/products/:id/stock].

    Conventions.
    - A MongoDB collection keyed by [_id] is a finite map; ids are strings.
      The order collection is a list in insertion order, an order's [_id]
      being its position (orders are never deleted).
    - A JS [Number] holding a count (stock, version, quantity) is a [Z].
      A JS [Number] holding money (price, total) is an IEEE 754 double,
      the primitive [float]: its products, sums and quotients are the
      rounded ones of [PrimFloat], and a count that enters such a
      computation is converted by [Number_of_Z].
    - A [quantity] of the cart routes is a [value], a number or a string:
      the routes neither convert the field nor test its type, so a string
      of digits is compared, added and stored as a string.
    - Strings are sequences of ASCII characters.
    - [Date.now()] / [new Date()] is a parameter [now : Z] (milliseconds).
    - [throw new Error(msg)] is a value of type [error], one constructor per
      throw site; [message] gives the text of each.
    - Every [await] on the store is one atomic store operation.  Functions
      with suffix [_at] take the store seen by each of their store
      operations separately, so that other requests may run in between. *)

From Stdlib Require Import ZArith Floats Ascii String List Lia.
From stdpp Require Import gmap strings list fin_maps pretty.

Local Open Scope string_scope.
Local Open Scope list_scope.
Local Open Scope Z_scope.

(** ** Errors thrown by the model statics and by the order transaction *)

Inductive error : Type :=
| ProductNotFound
| InsufficientStock
| StockUpdateFailed
| ProductLocked
| NoLongerAvailable (productId : string)
| InsufficientStockFor (productName : string) (available requested : Z)
| DuplicateKey
| ValidationError.

(** The fixed part of each error text ([error.message]). *)
Definition message (e : error) : string :=
  match e with
  | ProductNotFound => "Product not found"
  | InsufficientStock => "Insufficient stock"
  | StockUpdateFailed =>
      "Product stock update failed due to concurrent modification or product is locked"
  | ProductLocked => "Product is currently locked by another operation"
  | NoLongerAvailable pid =>
      String.append "Product " (String.append pid " is no longer available")
  | InsufficientStockFor n _ _ => String.append "Insufficient stock for " n
  | DuplicateKey => "E11000 duplicate key error"
  | ValidationError => "Order validation failed"
  end.

(** ** JavaScript numbers, strings and request-body values *)

(** The double nearest to an integer (the integer itself below 2^53). *)
Definition Number_of_Z (z : Z) : float :=
  SF2Prim (binary_normalize prec emax z 0 false).

(** [Math.round(x)]: the integral double nearest to [x], halves towards
    plus infinity; NaN, the infinities and the zeros are returned as they
    are, and a result of zero keeps the sign of [x].  A finite [x] is
    [m * 2^e] with a sign: for [e >= 0] it is integral already, otherwise the result
    is the floor of [x + 1/2], computed exactly on the integers. *)
Definition Math_round (x : float) : float :=
  match Prim2SF x with
  | S754_finite s m e =>
      if 0 <=? e then x
      else
        let v := if s then Z.neg m else Z.pos m in
        let n := (2 * v + 2 ^ (- e)) / 2 ^ (1 - e) in
        if n =? 0 then (if s then PrimFloat.neg_zero else PrimFloat.zero)
        else Number_of_Z n
  | _ => x
  end.

(** [Math.round(x * 100) / 100] *)
Definition round2 (x : float) : float :=
  PrimFloat.div (Math_round (PrimFloat.mul x 100)) 100.

Definition isDigit (c : ascii) : bool :=
  ((48 <=? Ascii.N_of_ascii c) && (Ascii.N_of_ascii c <=? 57))%N.

(** The white space of [\s] and of [trim]: tab, line feed, vertical tab,
    form feed, carriage return and space. *)
Definition isSpace (c : ascii) : bool :=
  ((9 <=? Ascii.N_of_ascii c) && (Ascii.N_of_ascii c <=? 13)
   || (Ascii.N_of_ascii c =? 32))%N.

Fixpoint ltrim (s : string) : string :=
  match s with
  | EmptyString => EmptyString
  | String c r => if isSpace c then ltrim r else s
  end.

Fixpoint rtrim (s : string) : string :=
  match s with
  | EmptyString => EmptyString
  | String c r =>
      match rtrim r with
      | EmptyString => if isSpace c then EmptyString else String c EmptyString
      | r' => String c r'
      end
  end.

(** [s.trim()] *)
Definition trim (s : string) : string := rtrim (ltrim s).

(** A [quantity] as a request body carries it and as a cart line keeps
    it: a number or a string.  The validator [isInt] tests the text of
    the field and leaves the field as it is, so a string of digits stays
    a string.  The numbers are the integers, the only numbers that pass
    [isInt]. *)
Inductive value : Type :=
| Num (z : Z)
| Str (s : string).

(** A run of decimal digits read after the digits that made [acc];
    nothing if another character occurs. *)
Fixpoint digits (acc : Z) (s : string) : option Z :=
  match s with
  | EmptyString => Some acc
  | String c r =>
      if isDigit c
      then digits (10 * acc + (Z.of_N (Ascii.N_of_ascii c) - 48)) r
      else None
  end.

(** [/^[-+]?[0-9]+$/]: whether the sign is a minus, and the digits' value. *)
Definition signedDigits (s : string) : option (bool * Z) :=
  match s with
  | EmptyString => None
  | String c r =>
      let body := if Ascii.eqb c "+" || Ascii.eqb c "-" then r else s in
      match body with
      | EmptyString => None
      | _ => pair (Ascii.eqb c "-") <$> digits 0 body
      end
  end.

(** [String(v)] *)
Definition ToString (v : value) : string :=
  match v with
  | Num z => pretty z
  | Str s => s
  end.

(** [a + b]: the sum of two numbers; as soon as one side is a string,
    the concatenation of the two texts. *)
Definition js_add (a b : value) : value :=
  match a, b with
  | Num x, Num y => Num (x + y)
  | _, _ => Str (String.append (ToString a) (ToString b))
  end.

(** [Number(v)] as an integer, [None] standing for NaN.  The strings met
    here are texts of [isInt] values and concatenations of those, made
    of digits and signs: such a string is a signed run of digits, or not
    a number; the empty string is zero. *)
Definition toInteger (v : value) : option Z :=
  match v with
  | Num z => Some z
  | Str EmptyString => Some 0
  | Str s =>
      (fun sn : bool * Z => if sn.1 then - sn.2 else sn.2) <$> signedDigits s
  end.

(** [Number(v)] as the double that enters a product: [-0] for a
    negative zero such as ['-0'], NaN for no number. *)
Definition ToNumber (v : value) : float :=
  match v with
  | Num z => Number_of_Z z
  | Str EmptyString => PrimFloat.zero
  | Str s =>
      match signedDigits s with
      | Some (neg, n) =>
          if n =? 0 then (if neg then PrimFloat.neg_zero else PrimFloat.zero)
          else Number_of_Z (if neg then - n else n)
      | None => PrimFloat.nan
      end
  end.

(** [a < v] and [a >= v] for a number [a]: the other side is converted
    to a number, and every comparison with NaN is false. *)
Definition lt_number (a : Z) (v : value) : bool :=
  match toInteger v with
  | Some n => a <? n
  | None => false
  end.

Definition ge_number (a : Z) (v : value) : bool :=
  match toInteger v with
  | Some n => n <=? a
  | None => false
  end.

(** [v === 0] *)
Definition is_zero (v : value) : bool :=
  match v with
  | Num 0 => true
  | _ => false
  end.

(** [isInt({min, max})] of validator.js on the text of [v]: the text is
    a signed run of digits (leading zeroes allowed) and its number lies
    between [min] and [max]. *)
Definition isInt (min max : Z) (v : value) : bool :=
  match v with
  | Num z => (min <=? z) && (z <=? max)
  | Str s =>
      match signedDigits s with
      | Some (neg, n) =>
          (min <=? (if neg then - n else n)) && ((if neg then - n else n) <=? max)
      | None => false
      end
  end.

(** [!!v] *)
Definition truthy (v : value) : bool :=
  match v with
  | Num z => negb (z =? 0)
  | Str s => negb (String.eqb s "")
  end.

(** The value of [c] as a digit in the given radix. *)
Definition digitValue (radix : Z) (c : ascii) : option Z :=
  let n := Z.of_N (Ascii.N_of_ascii c) in
  let d := if (48 <=? n) && (n <=? 57) then Some (n - 48)
           else if (97 <=? n) && (n <=? 122) then Some (n - 87)
           else if (65 <=? n) && (n <=? 90) then Some (n - 55)
           else None in
  match d with
  | Some k => if k <? radix then Some k else None
  | None => None
  end.

(** The longest run of digits at the start of [s], [acc] being the
    digits read so far; [None] if there is none. *)
Fixpoint leadingDigits (radix : Z) (acc : option Z) (s : string) : option Z :=
  match s with
  | EmptyString => acc
  | String c r =>
      match digitValue radix c with
      | Some d => leadingDigits radix (Some (radix * default 0 acc + d)) r
      | None => acc
      end
  end.

(** [parseInt(s)] of a string, [None] standing for NaN: leading white
    space is skipped, then a sign, then [0x] or [0X] selects radix 16,
    and the digits up to the first other character are read. *)
Definition parseInt_string (s : string) : option Z :=
  let s1 := ltrim s in
  let neg := match s1 with String c _ => Ascii.eqb c "-" | _ => false end in
  let s2 := match s1 with
            | String c r => if Ascii.eqb c "-" || Ascii.eqb c "+" then r else s1
            | _ => s1
            end in
  let hex := match s2 with
             | String c (String x _) =>
                 Ascii.eqb c "0" && (Ascii.eqb x "x" || Ascii.eqb x "X")
             | _ => false
             end in
  let s3 := match s2 with
            | String _ (String _ r) => if hex then r else s2
            | _ => s2
            end in
  (fun n => if neg then - n else n)
    <$> leadingDigits (if hex then 16 else 10) None s3.

(** [parseInt(v)]: a number is read back from its text. *)
Definition parseInt (v : value) : option Z :=
  match v with
  | Num z => Some z
  | Str s => parseInt_string s
  end.

(** [new ObjectId(s)] read back as a string: the 24 hexadecimal digits of
    [s] with the letters in lower case.  The product store is keyed by
    these strings. *)
Definition lowerHex (c : ascii) : ascii :=
  if ((65 <=? Ascii.N_of_ascii c) && (Ascii.N_of_ascii c <=? 70))%N
  then Ascii.ascii_of_N (Ascii.N_of_ascii c + 32)
  else c.

Fixpoint castObjectId (s : string) : string :=
  match s with
  | EmptyString => EmptyString
  | String c r => String (lowerHex c) (castObjectId r)
  end.

(** ** models/Product.js *)

Module Product.

Record doc : Type := mk {
  name : string;
  price : float;
  stock : Z;
  version : Z;
  isLocked : bool;
  lockedAt : option Z;
  lockedBy : option string;
  imageUrl : string;
  isActive : bool;
  totalSold : Z
}.

(** [{ $inc: { stock: quantityChange, version: 1 } }] *)
Definition inc_stock_version (quantityChange : Z) (p : doc) : doc :=
  {| name := name p; price := price p;
     stock := stock p + quantityChange;
     version := version p + 1;
     isLocked := isLocked p; lockedAt := lockedAt p; lockedBy := lockedBy p;
     imageUrl := imageUrl p; isActive := isActive p;
     totalSold := totalSold p |}.

(** [{ $inc: { totalSold: n } }] *)
Definition inc_totalSold (n : Z) (p : doc) : doc :=
  {| name := name p; price := price p; stock := stock p;
     version := version p;
     isLocked := isLocked p; lockedAt := lockedAt p; lockedBy := lockedBy p;
     imageUrl := imageUrl p; isActive := isActive p;
     totalSold := totalSold p + n |}.

(** [{ $set: { isLocked, lockedAt, lockedBy } }] *)
Definition set_lock (l : bool) (at_ : option Z) (by_ : option string)
    (p : doc) : doc :=
  {| name := name p; price := price p; stock := stock p;
     version := version p;
     isLocked := l; lockedAt := at_; lockedBy := by_;
     imageUrl := imageUrl p; isActive := isActive p;
     totalSold := totalSold p |}.

(** First store operation of [updateStockSafe]: [findById], then the two
    checks on the document read.  Yields [currentVersion]. *)
Definition readVersion (ps : gmap string doc) (productId : string)
    (quantityChange : Z) : error + Z :=
  match ps !! productId with
  | None => inl ProductNotFound
  | Some product =>
      let currentVersion := version product in
      let newStock := stock product + quantityChange in
      if newStock <? 0 then inl InsufficientStock else inr currentVersion
  end.

(** Second store operation of [updateStockSafe]:
    [findOneAndUpdate({_id, version: currentVersion, isLocked: false},
                      {$inc: {stock, version: 1}}, {new: true})]. *)
Definition casStock (ps : gmap string doc) (productId : string)
    (currentVersion quantityChange : Z) : option (gmap string doc * doc) :=
  match ps !! productId with
  | None => None
  | Some p =>
      if (version p =? currentVersion) && negb (isLocked p)
      then let p' := inc_stock_version quantityChange p in
           Some (<[productId := p']> ps, p')
      else None
  end.

(** [updateStockSafe] with the store as it is at the read ([psRead]) and
    as it is at the conditional write ([psWrite]). *)
Definition updateStockSafe_at (psRead psWrite : gmap string doc)
    (productId : string) (quantityChange : Z)
    : error + (gmap string doc * doc) :=
  match readVersion psRead productId quantityChange with
  | inl e => inl e
  | inr currentVersion =>
      match casStock psWrite productId currentVersion quantityChange with
      | None => inl StockUpdateFailed
      | Some result => inr result
      end
  end.

(** [updateStockSafe] when no other request runs between its read and
    its write. *)
Definition updateStockSafe (ps : gmap string doc) (productId : string)
    (quantityChange : Z) : error + (gmap string doc * doc) :=
  updateStockSafe_at ps ps productId quantityChange.

(** Lock timeout (5 minutes), in milliseconds. *)
Definition lockTimeoutMs : Z := 5 * 60 * 1000.

(** [{ lockedAt: { $lt: lockTimeout } }]: a date field that is [null]
    does not match a date comparison. *)
Definition lockedAt_lt (p : doc) (lockTimeout : Z) : bool :=
  match lockedAt p with
  | Some t => t <? lockTimeout
  | None => false
  end.

Definition lockProduct (ps : gmap string doc) (productId userId : string)
    (now : Z) : error + (gmap string doc * doc) :=
  let lockTimeout := now - lockTimeoutMs in
  match ps !! productId with
  | None => inl ProductLocked
  | Some p =>
      if negb (isLocked p) || lockedAt_lt p lockTimeout
      then let p' := set_lock true (Some now) (Some userId) p in
           inr (<[productId := p']> ps, p')
      else inl ProductLocked
  end.

(** [findOneAndUpdate({_id, lockedBy: userId}, {$set: ...})]; returns the
    updated document or [null]. *)
Definition unlockProduct (ps : gmap string doc) (productId userId : string)
    : gmap string doc * option doc :=
  match ps !! productId with
  | None => (ps, None)
  | Some p =>
      if decide (lockedBy p = Some userId)
      then let p' := set_lock false None None p in
           (<[productId := p']> ps, Some p')
      else (ps, None)
  end.

End Product.

(** ** routes/products.js: the operations that write product documents *)

Module ProductRoutes.
Import Product.

(** Body of [POST /api/products].  [d_price] and [d_stock] are the
    numbers that [parseFloat(req.body.price)] and
    [parseInt(req.body.stock)] give. *)
Record productData : Type := mkData {
  d_name : string;
  d_description : string;
  d_price : float;
  d_category : string;
  d_stock : Z;
  d_imageUrl : option string
}.

Definition defaultImageUrl : string :=
  "https://dummyimage.com/300x300/e0e0e0/ffffff&text=No+Image".

Definition priceInRange (x : float) : bool :=
  PrimFloat.leb 0 x && PrimFloat.leb x 999999.

Definition nameLengthOk (n : string) : bool :=
  (2 <=? Z.of_nat (String.length n)) && (Z.of_nat (String.length n) <=? 100).

(** One character of [[a-zA-Z0-9\s\-_.,!]]. *)
Definition nameChar (c : ascii) : bool :=
  ((97 <=? Ascii.N_of_ascii c) && (Ascii.N_of_ascii c <=? 122)
   || (65 <=? Ascii.N_of_ascii c) && (Ascii.N_of_ascii c <=? 90))%N
  || isDigit c || isSpace c
  || existsb (Ascii.eqb c) (list_ascii_of_string "-_.,!").

(** [matches(/^[a-zA-Z0-9\s\-_.,!]+$/)] *)
Definition namePatternOk (n : string) : bool :=
  negb (String.eqb n "") && forallb nameChar (list_ascii_of_string n).

Definition descriptionLengthOk (d : string) : bool :=
  (10 <=? Z.of_nat (String.length d)) && (Z.of_nat (String.length d) <=? 1000).

Definition categories : list string :=
  ["Electronics"; "Clothing"; "Books"; "Home"; "Sports"; "Other"].

Definition categoryOk (c : string) : bool := existsb (String.eqb c) categories.

Inductive response : Type :=
| BadRequest                      (* 400 *)
| NotFound                        (* 404 *)
| Conflict (e : error)            (* 409 *)
| ServerError (e : error)         (* 500 *)
| Ok (status : Z) (product : doc) (* 200 / 201 *).

Section Create.

(** [isURL] of validator.js, which [productValidation.create] applies to
    an [imageUrl] that is present. *)
Variable isURL : string -> bool.

(** [productValidation.create]; name and description are tested after
    [trim()]. *)
Definition createValid (body : productData) : bool :=
  nameLengthOk (trim (d_name body)) && namePatternOk (trim (d_name body))
  && descriptionLengthOk (trim (d_description body))
  && priceInRange (d_price body)
  && categoryOk (d_category body)
  && (0 <=? d_stock body)
  && from_option isURL true (d_imageUrl body).

(** [new Product(productData); product.save()].  The schema defaults give
    [version = 0]; the pre-save hook sees [stock] modified on a new
    document and adds one.  [newId] is the ObjectId the driver assigns.
    The description and the category are stored as well; no operation
    here reads them, and the product document is kept without them. *)
Definition createProduct (ps : gmap string doc) (newId : string)
    (body : productData) : gmap string doc * response :=
  if negb (createValid body)
  then (ps, BadRequest)
  else
    match ps !! newId with
    | Some _ => (ps, ServerError DuplicateKey)
    | None =>
        let product :=
          {| name := trim (d_name body); price := d_price body;
             stock := d_stock body; version := 0 + 1;
             isLocked := false; lockedAt := None; lockedBy := None;
             imageUrl := default defaultImageUrl (d_imageUrl body);
             isActive := true; totalSold := 0 |} in
        (<[newId := product]> ps, Ok 201 product)
    end.

End Create.

(** Body of [PUT /api/products/:id]; an absent field is [None]. *)
Record updates : Type := mkUpdates {
  u_name : option string;
  u_price : option float;
  u_stock : option Z;
  u_imageUrl : option string;
  u_isActive : option bool
}.

(** [productValidation.update]: every field is optional. *)
Definition updateValid (u : updates) : bool :=
  from_option nameLengthOk true (u_name u)
  && from_option priceInRange true (u_price u)
  && from_option (fun s => 0 <=? s) true (u_stock u).

(** The update document built by the route sets exactly the fields
    present in the body; [version] is never among them. *)
Definition applyUpdates (u : updates) (p : doc) : doc :=
  {| name := default (name p) (u_name u);
     price := default (price p) (u_price u);
     stock := default (stock p) (u_stock u);
     version := version p;
     isLocked := isLocked p; lockedAt := lockedAt p; lockedBy := lockedBy p;
     imageUrl := default (imageUrl p) (u_imageUrl u);
     isActive := default (isActive p) (u_isActive u);
     totalSold := totalSold p |}.

(** [PUT /api/products/:id]:
    [Product.findByIdAndUpdate(id, updates, {new: true, runValidators: true})]. *)
Definition updateProduct (ps : gmap string doc) (id : string) (u : updates)
    : gmap string doc * response :=
  if negb (updateValid u) then (ps, BadRequest)
  else
    match ps !! id with
    | None => (ps, NotFound)
    | Some p =>
        let product := applyUpdates u p in
        (<[id := product]> ps, Ok 200 product)
    end.

(** [DELETE /api/products/:id]: soft delete. *)
Definition deleteProduct (ps : gmap string doc) (id : string)
    : gmap string doc * response :=
  updateProduct ps id
    {| u_name := None; u_price := None; u_stock := None;
       u_imageUrl := None; u_isActive := Some false |}.

(** The [catch] of [PATCH /api/products/:id/stock]: 409 when the message
    includes 'concurrent modification', 'Insufficient stock' or 'locked'. *)
Definition stockErrorResponse (e : error) : response :=
  match e with
  | StockUpdateFailed | InsufficientStock | InsufficientStockFor _ _ _
  | ProductLocked => Conflict e
  | _ => ServerError e
  end.

(** [req.body.quantityChange] as the stock route reads it.  The route
    takes [!quantityChange] and [parseInt(quantityChange)] of it and
    nothing else, so these two say all there is to a body, whatever it
    holds: an integer, a fraction such as 0.4 (truthy, parsed as 0), a
    string, or nothing (falsy).  [None] stands for NaN. *)
Record changeBody : Type := mkChange {
  cb_truthy : bool;
  cb_parseInt : option Z
}.

(** The body that holds an integer or a string. *)
Definition readChange (v : value) : changeBody :=
  {| cb_truthy := truthy v; cb_parseInt := parseInt v |}.

(** [PATCH /api/products/:id/stock]:
    [if (!quantityChange || isNaN(parseInt(quantityChange)))] answers 400,
    and the adjustment is by [parseInt(quantityChange)]. *)
Definition patchStock (ps : gmap string doc) (id : string)
    (quantityChange : changeBody) : gmap string doc * response :=
  match cb_truthy quantityChange, cb_parseInt quantityChange with
  | true, Some d =>
      match updateStockSafe ps id d with
      | inl e => (ps, stockErrorResponse e)
      | inr (ps', updatedProduct) => (ps', Ok 200 updatedProduct)
      end
  | _, _ => (ps, BadRequest)
  end.

End ProductRoutes.

(** ** routes/cart.js *)

(** [l.findIndex(f)], [None] standing for [-1]. *)
Fixpoint findIndex {A : Type} (f : A -> bool) (l : list A) : option nat :=
  match l with
  | [] => None
  | x :: l' => if f x then Some 0%nat else S <$> findIndex f l'
  end.

Module Cart.

Record item : Type := mkItem {
  productId : string;
  productName : string;
  price : float;
  quantity : value;
  total : float;
  imageUrl : string
}.

Record cart : Type := mkCart {
  items : list item;
  updatedAt : Z
}.

(** [userCarts.get(userId) || { items: [], updatedAt: new Date() }] *)
Definition getCartForUser (userCarts : gmap string cart) (userId : string)
    (now : Z) : cart :=
  default {| items := []; updatedAt := now |} (userCarts !! userId).

Definition clearCartForUser (userCarts : gmap string cart) (userId : string)
    (now : Z) : gmap string cart :=
  <[userId := {| items := []; updatedAt := now |}]> userCarts.

(** [cart.items.reduce((sum, item) => sum + item.total, 0)] *)
Definition cartTotal (l : list item) : float :=
  fold_left (fun sum it => PrimFloat.add sum (total it)) l 0%float.

(** [cart.items.reduce((sum, item) => sum + item.quantity, 0)] *)
Definition itemCount (l : list item) : value :=
  fold_left (fun sum it => js_add sum (quantity it)) l (Num 0).

Inductive response : Type :=
| ValidationFailed                               (* 400 *)
| NotFound                                       (* 404 *)
| Insufficient (available : Z)                   (* 400 *)
| InsufficientInCart (available : Z) (inCart : value) (* 400 *)
| ServerError                                    (* 500 *)
| Added (cartItem : option item) (count : value) (cartTotal : float)
                                                 (* 200 *).

Definition http_status (r : response) : Z :=
  match r with
  | ValidationFailed | Insufficient _ | InsufficientInCart _ _ => 400
  | NotFound => 404
  | ServerError => 500
  | Added _ _ _ => 200
  end.

Definition setQuantityTotal (newQuantity : value) (newTotal : float)
    (it : item)
    : item :=
  {| productId := productId it; productName := productName it;
     price := price it; quantity := newQuantity; total := newTotal;
     imageUrl := imageUrl it |}.

(** [POST /api/cart/add].  The product is found by [_id], to which the
    query casts [productId]; the cart line is found by, and keeps, the
    [productId] string of the body. *)
Definition add (ps : gmap string Product.doc) (userCarts : gmap string cart)
    (userId productId_ : string) (quantity_ : value) (now : Z)
    : gmap string cart * response :=
  if negb (isInt 1 50 quantity_)
  then (userCarts, ValidationFailed)
  else
    match ps !! castObjectId productId_ with
    | None => (userCarts, NotFound)
    | Some product =>
        if negb (Product.isActive product) then (userCarts, NotFound)
        else if lt_number (Product.stock product) quantity_
        then (userCarts, Insufficient (Product.stock product))
        else
          let cart_ := getCartForUser userCarts userId now in
          let sameProduct := fun it => String.eqb (productId it) productId_ in
          let existingItemIndex := findIndex sameProduct (items cart_) in
          let finish := fun newItems =>
            (<[userId := {| items := newItems; updatedAt := now |}]> userCarts,
             Added (find sameProduct newItems) (itemCount newItems)
                   (round2 (cartTotal newItems))) in
          match existingItemIndex with
          | Some i =>
              match items cart_ !! i with
              | Some existing =>
                  let newQuantity := js_add (quantity existing) quantity_ in
                  if lt_number (Product.stock product) newQuantity
                  then (userCarts,
                        InsufficientInCart (Product.stock product)
                                           (quantity existing))
                  else
                    finish
                      (<[i := setQuantityTotal newQuantity
                               (PrimFloat.mul (ToNumber newQuantity)
                                              (Product.price product))
                               existing]> (items cart_))
              | None => (userCarts, ServerError)
              end
          | None =>
              finish
                (items cart_ ++
                 [{| productId := productId_;
                     productName := Product.name product;
                     price := Product.price product;
                     quantity := quantity_;
                     total := PrimFloat.mul (ToNumber quantity_)
                                            (Product.price product);
                     imageUrl := Product.imageUrl product |}])
          end
    end.

End Cart.

(** ** models/Order.js *)

(** [s.slice(-n)]: the last [n] characters, the whole string if shorter. *)
Definition slice_last (n : nat) (s : string) : string :=
  String.substring (String.length s - n) n s.

(** [/^\d{5}(-\d{4})?$/] *)
Definition zipCodeOk (z : string) : bool :=
  match list_ascii_of_string z with
  | [a; b; c; d; e] => forallb isDigit [a; b; c; d; e]
  | [a; b; c; d; e; dash; f; g; h; i] =>
      forallb isDigit [a; b; c; d; e; f; g; h; i]
      && Ascii.eqb dash "-"%char
  | _ => false
  end.

Module Order.

Inductive status : Type :=
| pending | processing | shipped | delivered | cancelled.

Inductive paymentMethod : Type :=
| credit_card | debit_card | paypal | cash_on_delivery.

Inductive paymentStatus : Type :=
| pay_pending | pay_completed | pay_failed | pay_refunded.

#[global] Instance status_eq_dec : EqDecision status.
Proof. solve_decision. Defined.

#[global] Instance paymentMethod_eq_dec : EqDecision paymentMethod.
Proof. solve_decision. Defined.

Record address : Type := mkAddress {
  street : string;
  city : string;
  state : string;
  zipCode : string;
  country : string
}.

Record item : Type := mkItem {
  productId : string;
  productName : string;
  quantity : Z;
  price : float;
  total : float
}.

(** [orderNumber] is [`ORD-${Date.now()}-${pad4(count + 1)}`] and
    [transactionId] is [`TXN-${Date.now()}-${userId.slice(-6)}`]; each
    is kept as the pair of its two variable parts. *)
Record doc : Type := mk {
  _id : nat;
  userId : string;
  orderNumber : Z * Z;
  items : list item;
  totalAmount : float;
  status_ : status;
  shippingAddress : address;
  paymentMethod_ : paymentMethod;
  paymentStatus_ : paymentStatus;
  transactionId : Z * string
}.

Definition set_status (st : status) (o : doc) : doc :=
  {| _id := _id o; userId := userId o; orderNumber := orderNumber o;
     items := items o; totalAmount := totalAmount o;
     status_ := st;
     shippingAddress := shippingAddress o;
     paymentMethod_ := paymentMethod_ o;
     paymentStatus_ := paymentStatus_ o;
     transactionId := transactionId o |}.

(** The [orderData] object the route hands to the model. *)
Record orderData : Type := mkData {
  od_userId : string;
  od_items : list item;
  od_totalAmount : float;
  od_shippingAddress : address;
  od_paymentMethod : paymentMethod;
  od_status : status;
  od_paymentStatus : paymentStatus;
  od_transactionId : Z * string
}.

(** Schema validators run by [save]: quantity at least 1, price and
    total amount not negative. *)
Definition validItem (it : item) : bool :=
  (1 <=? quantity it) && PrimFloat.leb 0 (price it).

Definition validData (d : orderData) : bool :=
  forallb validItem (od_items d) && PrimFloat.leb 0 (od_totalAmount d).

(** [createOrderWithTransaction]: [new this(orderData)], then [save], whose
    pre-save hook numbers the new order with [countDocuments() + 1].  The
    unique indexes on [orderNumber] and [transactionId] reject a
    duplicate. *)
Definition createOrderWithTransaction (orders : list doc) (d : orderData)
    (now : Z) : error + (list doc * doc) :=
  if negb (validData d) then inl ValidationError
  else
    let count := Z.of_nat (length orders) in
    let order :=
      {| _id := length orders;
         userId := od_userId d;
         orderNumber := (now, count + 1);
         items := od_items d;
         totalAmount := od_totalAmount d;
         status_ := od_status d;
         shippingAddress := od_shippingAddress d;
         paymentMethod_ := od_paymentMethod d;
         paymentStatus_ := od_paymentStatus d;
         transactionId := od_transactionId d |} in
    if existsb (fun o => bool_decide (orderNumber o = orderNumber order)
                         || bool_decide (transactionId o = transactionId order))
               orders
    then inl DuplicateKey
    else inr (orders ++ [order], order).

End Order.

(** ** The whole server state *)

Record State : Type := mkState {
  products : gmap string Product.doc;
  orders : list Order.doc;
  userCarts : gmap string Cart.cart
}.

(** ** routes/orders.js *)

Module OrderRoutes.
Import Order.

Record reqItem : Type := mkReqItem {
  r_productId : string;
  r_quantity : Z
}.

(** [req.body] of [POST /api/orders], sanitizers applied. *)
Record request : Type := mkRequest {
  req_shippingAddress : address;
  req_paymentMethod : paymentMethod;
  req_items : list reqItem
}.

Definition lengthBetween (lo hi : Z) (s : string) : bool :=
  (lo <=? Z.of_nat (String.length s)) && (Z.of_nat (String.length s) <=? hi).

(** [orderValidation.create] *)
Definition validationOk (r : request) : bool :=
  (1 <=? Z.of_nat (length (req_items r)))
  && forallb (fun it => (1 <=? r_quantity it) && (r_quantity it <=? 100))
             (req_items r)
  && lengthBetween 5 100 (street (req_shippingAddress r))
  && lengthBetween 2 50 (city (req_shippingAddress r))
  && zipCodeOk (zipCode (req_shippingAddress r)).

Inductive response : Type :=
| ValidationFailed                  (* 400 *)
| NoItems                           (* 400 *)
| Created (order : doc)             (* 201 *)
| Conflict (e : error)              (* 409 *)
| ServerError (e : error)           (* 500 *)
| OrderNotFound                     (* 404 *)
| CannotCancel (current : status)   (* 400 *)
| Updated (order : doc)             (* 200 *).

Definition http_status (r : response) : Z :=
  match r with
  | ValidationFailed | NoItems | CannotCancel _ => 400
  | Created _ => 201
  | Conflict _ => 409
  | ServerError _ => 500
  | OrderNotFound => 404
  | Updated _ => 200
  end.

(** Step 1 of the transaction: the loop over [items]. *)
Fixpoint collectItems (ps : gmap string Product.doc) (its : list reqItem)
    (orderItems : list item) (totalAmount_ : float)
    : error + (list item * float) :=
  match its with
  | [] => inr (orderItems, totalAmount_)
  | it :: rest =>
      match ps !! r_productId it with
      | None => inl (NoLongerAvailable (r_productId it))
      | Some product =>
          if negb (Product.isActive product)
          then inl (NoLongerAvailable (r_productId it))
          else if Product.stock product <? r_quantity it
          then inl (InsufficientStockFor (Product.name product)
                      (Product.stock product) (r_quantity it))
          else
            let orderItem :=
              {| productId := r_productId it;
                 productName := Product.name product;
                 quantity := r_quantity it;
                 price := Product.price product;
                 total := PrimFloat.mul (Number_of_Z (r_quantity it))
                                         (Product.price product) |} in
            collectItems ps rest (orderItems ++ [orderItem])
                         (PrimFloat.add totalAmount_ (total orderItem))
      end
  end.

(** Step 3 of the transaction: the loop over [orderItems]. *)
Fixpoint decrementStock (ps : gmap string Product.doc)
    (orderItems : list item) : error + gmap string Product.doc :=
  match orderItems with
  | [] => inr ps
  | it :: rest =>
      match Product.updateStockSafe ps (productId it) (- quantity it) with
      | inl e => inl e
      | inr (ps', _) =>
          decrementStock
            (alter (Product.inc_totalSold (quantity it)) (productId it) ps')
            rest
      end
  end.

(** The callback passed to [session.withTransaction]. *)
Definition transactionBody (s : State) (userId_ : string) (r : request)
    (now : Z) : error + (State * doc) :=
  match collectItems (products s) (req_items r) [] 0%float with
  | inl e => inl e
  | inr (orderItems, totalAmount_) =>
      let orderData_ :=
        {| od_userId := userId_;
           od_items := orderItems;
           od_totalAmount := round2 totalAmount_;
           od_shippingAddress := req_shippingAddress r;
           od_paymentMethod := req_paymentMethod r;
           od_status := pending;
           od_paymentStatus :=
             if decide (req_paymentMethod r = cash_on_delivery)
             then pay_pending else pay_completed;
           od_transactionId := (now, slice_last 6 userId_) |} in
      match createOrderWithTransaction (orders s) orderData_ now with
      | inl e => inl e
      | inr (orders', order) =>
          match decrementStock (products s) orderItems with
          | inl e => inl e
          | inr ps' =>
              inr ({| products := ps'; orders := orders';
                      userCarts := userCarts s |}, order)
          end
      end
  end.

(** [session.withTransaction(body)]: the writes of [body] are committed
    together when it returns and all discarded when it throws. *)
Definition withTransaction {A : Type} (body : State -> error + (State * A))
    (s : State) : State * (error + A) :=
  match body s with
  | inl e => (s, inl e)
  | inr (s', a) => (s', inr a)
  end.

(** The [catch] of [POST /api/orders]. *)
Definition placeErrorResponse (e : error) : response :=
  match e with
  | InsufficientStock | InsufficientStockFor _ _ _ | NoLongerAvailable _
  | StockUpdateFailed => Conflict e
  | _ => ServerError e
  end.

(** [POST /api/orders] *)
Definition placeOrder (s : State) (userId_ : string) (r : request) (now : Z)
    : State * response :=
  if negb (validationOk r) then (s, ValidationFailed)
  else if (length (req_items r) =? 0)%nat then (s, NoItems)
  else
    match withTransaction (fun s0 => transactionBody s0 userId_ r now) s with
    | (s', inr order) =>
        ({| products := products s'; orders := orders s';
            userCarts := Cart.clearCartForUser (userCarts s') userId_ now |},
         Created order)
    | (s', inl e) => (s', placeErrorResponse e)
    end.

(** The restore loop of both cancellation paths: it stops at the first
    adjustment that throws, and the [catch] logs that error. *)
Fixpoint restoreStock (ps : gmap string Product.doc) (its : list item)
    : gmap string Product.doc * option error :=
  match its with
  | [] => (ps, None)
  | it :: rest =>
      match Product.updateStockSafe ps (productId it) (quantity it) with
      | inl e => (ps, Some e)
      | inr (ps', _) => restoreStock ps' rest
      end
  end.

(** [PATCH /api/orders/:id/cancel]; the third component is what
    [console.error] logs. *)
Definition cancelOrder (s : State) (userId_ : string) (id : nat)
    : State * response * option error :=
  match orders s !! id with
  | None => (s, OrderNotFound, None)
  | Some order =>
      if negb (String.eqb (userId order) userId_)
      then (s, OrderNotFound, None)
      else if negb (bool_decide (status_ order = pending))
      then (s, CannotCancel (status_ order), None)
      else
        let order' := set_status cancelled order in
        let orders' := <[id := order']> (orders s) in
        let '(ps', logged) := restoreStock (products s) (items order') in
        ({| products := ps'; orders := orders';
            userCarts := userCarts s |}, Updated order', logged)
  end.

(** [PATCH /api/orders/:id/status]: [order] is the document returned by
    [findByIdAndUpdate(..., {new: true})], that is the updated one. *)
Definition updateOrderStatus (s : State) (id : nat) (st : status)
    : State * response * option error :=
  match orders s !! id with
  | None => (s, OrderNotFound, None)
  | Some old =>
      let order := set_status st old in
      let orders' := <[id := order]> (orders s) in
      if bool_decide (st = cancelled)
         && negb (bool_decide (status_ order = cancelled))
      then
        let '(ps', logged) := restoreStock (products s) (items order) in
        ({| products := ps'; orders := orders';
            userCarts := userCarts s |}, Updated order, logged)
      else
        ({| products := products s; orders := orders';
            userCarts := userCarts s |}, Updated order, None)
  end.

End OrderRoutes.

(** ** Interleavings: what other requests can do to the product store

    One step is one store operation of some request: the conditional write
    of [updateStockSafe] (also run by the committed steps of an order
    transaction, by cancellation and by the stock route), the [totalSold]
    increment of a committed order, a lock or unlock, and the administrative
    create, update and soft delete.  No request removes a product; the
    seeding script, which empties the collection, is not a request. *)

Inductive store_step : relation (gmap string Product.doc) :=
| step_casStock ps id v d ps' p' :
    Product.casStock ps id v d = Some (ps', p') -> store_step ps ps'
| step_totalSold ps id n :
    store_step ps (alter (Product.inc_totalSold n) id ps)
| step_lock ps id u now ps' p' :
    Product.lockProduct ps id u now = inr (ps', p') -> store_step ps ps'
| step_unlock ps id u :
    store_step ps (Product.unlockProduct ps id u).1
| step_create isURL ps newId body :
    store_step ps (ProductRoutes.createProduct isURL ps newId body).1
| step_update ps id u :
    store_step ps (ProductRoutes.updateProduct ps id u).1.

(** The stock invariant of the product collection. *)
Definition stocksNonNegative (ps : gmap string Product.doc) : Prop :=
  forall j p, ps !! j = Some p -> 0 <= Product.stock p.

(** ** Quantities per product over the lines of an order or request *)

Fixpoint qtyFor (pid : string) (lines : list (string * Z)) : Z :=
  match lines with
  | [] => 0
  | (k, q) :: rest => (if String.eqb k pid then q else 0) + qtyFor pid rest
  end.

Definition hasLine (pid : string) (lines : list (string * Z)) : bool :=
  existsb (fun kq => String.eqb kq.1 pid) lines.

Definition orderLines (its : list Order.item) : list (string * Z) :=
  map (fun it => (Order.productId it, Order.quantity it)) its.

Definition requestLines (its : list OrderRoutes.reqItem) : list (string * Z) :=
  map (fun it => (OrderRoutes.r_productId it, OrderRoutes.r_quantity it)) its.

(** [sumTotals] adds the line totals in order, as the loop of the order
    route does. *)
Definition sumTotals (its : list Order.item) : float :=
  fold_left (fun acc it => PrimFloat.add acc (Order.total it)) its 0%float.

(** What one order line records about the product it was built from:
    the product was in the store, active and with enough stock; the line
    copies its name and price, and its total is quantity times price. *)
Definition lineFrom (ps : gmap string Product.doc) (it : Order.item) : Prop :=
  exists p, ps !! Order.productId it = Some p /\
    Product.isActive p = true /\ Order.quantity it <= Product.stock p /\
    Order.productName it = Product.name p /\
    Order.price it = Product.price p /\
    Order.total it
    = PrimFloat.mul (Number_of_Z (Order.quantity it)) (Order.price it).

(** A requested line that cannot be served from the store [ps]: its
    product is missing or inactive, has less stock than the line asks for,
    has less stock than all lines of the request for it ask for together,
    or is flagged as locked. *)
Definition lineFails (ps : gmap string Product.doc)
    (its : list OrderRoutes.reqItem) (it : OrderRoutes.reqItem) : bool :=
  match ps !! OrderRoutes.r_productId it with
  | None => true
  | Some p =>
      negb (Product.isActive p)
      || (Product.stock p <? OrderRoutes.r_quantity it)
      || (Product.stock p <? qtyFor (OrderRoutes.r_productId it) (requestLines its))
      || Product.isLocked p
  end.

(** ** Order of the statuses along the delivery chain *)

Definition chainRank (st : Order.status) : option Z :=
  match st with
  | Order.pending => Some 0
  | Order.processing => Some 1
  | Order.shipped => Some 2
  | Order.delivered => Some 3
  | Order.cancelled => None
  end.

(** [movesBack a b]: both on the chain and [b] earlier than [a]. *)
Definition movesBack (a b : Order.status) : bool :=
  match chainRank a, chainRank b with
  | Some i, Some j => j <? i
  | _, _ => false
  end.

(** [lateCancel a b]: an order that is neither pending nor already
    cancelled becomes cancelled. *)
Definition lateCancel (a b : Order.status) : bool :=
  bool_decide (b = Order.cancelled)
  && negb (bool_decide (a = Order.pending))
  && negb (bool_decide (a = Order.cancelled)).

(** ** Concrete stores and requests used in the examples below *)

Module Examples.

Definition widget : Product.doc :=
  {| Product.name := "Widget"; Product.price := 10; Product.stock := 10;
     Product.version := 3; Product.isLocked := false;
     Product.lockedAt := None; Product.lockedBy := None;
     Product.imageUrl := "widget.png"; Product.isActive := true;
     Product.totalSold := 0 |}.

Definition shop : gmap string Product.doc := {[ "P" := widget ]}.

(** The same product after another writer committed an adjustment of -5. *)
Definition shopBumped : gmap string Product.doc :=
  {[ "P" := Product.inc_stock_version (-5) widget ]}.

(** The same product, locked by "admin" at time 0. *)
Definition shopLocked : gmap string Product.doc :=
  {[ "P" := Product.set_lock true (Some 0) (Some "admin") widget ]}.

(** Body of an administrative update that only sets the stock. *)
Definition setStock (n : Z) : ProductRoutes.updates :=
  {| ProductRoutes.u_name := None; ProductRoutes.u_price := None;
     ProductRoutes.u_stock := Some n; ProductRoutes.u_imageUrl := None;
     ProductRoutes.u_isActive := None |}.

Definition setPrice (x : float) : ProductRoutes.updates :=
  {| ProductRoutes.u_name := None; ProductRoutes.u_price := Some x;
     ProductRoutes.u_stock := None; ProductRoutes.u_imageUrl := None;
     ProductRoutes.u_isActive := None |}.

(** Body of a product creation, with the name left open. *)
Definition lamp (n : string) : ProductRoutes.productData :=
  {| ProductRoutes.d_name := n;
     ProductRoutes.d_description := "A small desk lamp";
     ProductRoutes.d_price := 5;
     ProductRoutes.d_category := "Home";
     ProductRoutes.d_stock := 2;
     ProductRoutes.d_imageUrl := None |}.

Definition home : Order.address :=
  {| Order.street := "12 Mall Road"; Order.city := "Lahore";
     Order.state := "Punjab"; Order.zipCode := "54000";
     Order.country := "Pakistan" |}.

Definition line (pid : string) (q : Z) : OrderRoutes.reqItem :=
  {| OrderRoutes.r_productId := pid; OrderRoutes.r_quantity := q |}.

Definition request (its : list OrderRoutes.reqItem) : OrderRoutes.request :=
  {| OrderRoutes.req_shippingAddress := home;
     OrderRoutes.req_paymentMethod := Order.paypal;
     OrderRoutes.req_items := its |}.

Definition cartLine (pid : string) (p : float) (q : Z) : Cart.item :=
  {| Cart.productId := pid; Cart.productName := "Widget"; Cart.price := p;
     Cart.quantity := Num q; Cart.total := PrimFloat.mul (Number_of_Z q) p;
     Cart.imageUrl := "widget.png" |}.

(** Two users with a cart each; user "alice" holds a line for "P" and a
    line for a product "Z" that is not in the store. *)
Definition carts : gmap string Cart.cart :=
  {[ "alice" := {| Cart.items := [cartLine "P" 10 1; cartLine "Z" 4 2];
                   Cart.updatedAt := 5 |};
     "bob" := {| Cart.items := [cartLine "P" 10 2]; Cart.updatedAt := 7 |} ]}.

Definition start : State :=
  {| products := shop; orders := []; userCarts := carts |}.

(** The store after the price of "P" was raised from 10 to 12. *)
Definition shopRepriced : gmap string Product.doc :=
  (ProductRoutes.updateProduct shop "P" (setPrice 12)).1.

(** A product whose price has more than two decimals: 0.50390625, which
    is 129/256 and so a double without rounding. *)
Definition gadget : Product.doc :=
  {| Product.name := "Gadget"; Product.price := 0.50390625;
     Product.stock := 5; Product.version := 1; Product.isLocked := false;
     Product.lockedAt := None; Product.lockedBy := None;
     Product.imageUrl := "gadget.png"; Product.isActive := true;
     Product.totalSold := 0 |}.

(** A product stored under a full ObjectId, and the same id spelled in
    capitals. *)
Definition kettleId : string := "64b7f0c2a1d3e4f5a6b7c8d9".

Definition kettleIdCaps : string := "64B7F0C2A1D3E4F5A6B7C8D9".

Definition kettle : Product.doc :=
  {| Product.name := "Kettle"; Product.price := 25;
     Product.stock := 40; Product.version := 1; Product.isLocked := false;
     Product.lockedAt := None; Product.lockedBy := None;
     Product.imageUrl := "kettle.png"; Product.isActive := true;
     Product.totalSold := 0 |}.

Definition kettleShop : State :=
  {| products := {[ kettleId := kettle ]}; orders := []; userCarts := ∅ |}.

(** A product priced at half a cent: the double nearest to 0.005. *)
Definition candy : Product.doc :=
  {| Product.name := "Candy"; Product.price := PrimFloat.div 5 1000;
     Product.stock := 100; Product.version := 1; Product.isLocked := false;
     Product.lockedAt := None; Product.lockedBy := None;
     Product.imageUrl := "candy.png"; Product.isActive := true;
     Product.totalSold := 0 |}.

Definition candyShop : State :=
  {| products := {[ "C" := candy ]}; orders := []; userCarts := ∅ |}.

Definition gadgetShop : State :=
  {| products := {[ "G" := gadget ]}; orders := []; userCarts := ∅ |}.

Definition orderOf (n : nat) (st : Order.status) : Order.doc :=
  {| Order._id := n; Order.userId := "alice";
     Order.orderNumber := (100, Z.of_nat n + 1);
     Order.items :=
       [{| Order.productId := "P"; Order.productName := "Widget";
           Order.quantity := 3; Order.price := 10; Order.total := 30 |}];
     Order.totalAmount := 30;
     Order.status_ := st;
     Order.shippingAddress := home;
     Order.paymentMethod_ := Order.paypal;
     Order.paymentStatus_ := Order.pay_completed;
     Order.transactionId := (100 + Z.of_nat n, "alice") |}.

(** Three orders of "alice": one delivered, one shipped, one pending. *)
Definition withOrders : State :=
  {| products := shop;
     orders := [orderOf 0 Order.delivered; orderOf 1 Order.shipped;
                orderOf 2 Order.pending];
     userCarts := ∅ |}.

End Examples.

(** ** routes/cart.js: the routes that read, change and empty a cart

    Product ids are taken as well formed: the 24-hex-digit check on
    [:productId], which answers 400 before anything is read, is not part
    of these functions.  As in [add], a product is found by the cast id
    and a cart line by the [productId] string itself. *)

Module CartRoutes.
Import Cart.

(** A cart line as [GET /api/cart] answers it: the line with the two
    annotations the route adds.  The stored line is the annotated one in
    the source as well; no route reads the annotations back, and the
    stored line is kept here without them. *)
Record viewItem : Type := mkView {
  v_line : item;
  availableStock : Z;
  inStock : bool
}.

Inductive response : Type :=
| ValidationFailed                                           (* 400 *)
| ItemNotFound                                               (* 404 *)
| ProductUnavailable                                         (* 404 *)
| Insufficient (available : Z)                               (* 400 *)
| CartUpdated (removed : bool) (its : list item) (count : value)
    (tot : float)
                                                             (* 200 *)
| ItemRemoved (removedItem : option item) (its : list item)
    (count : value) (tot : float)                            (* 200 *)
| Cleared                                                    (* 200 *)
| ServerError                                                (* 500 *).

Definition http_status (r : response) : Z :=
  match r with
  | ValidationFailed | Insufficient _ => 400
  | ItemNotFound | ProductUnavailable => 404
  | CartUpdated _ _ _ _ | ItemRemoved _ _ _ _ | Cleared => 200
  | ServerError => 500
  end.

Definition sameProduct (productId_ : string) (it : item) : bool :=
  String.eqb (productId it) productId_.

(** The loop body of [GET /api/cart]: the line refreshed from the live
    product, or nothing when the product is missing or inactive. *)
Definition refresh (ps : gmap string Product.doc) (it : item)
    : option viewItem :=
  match ps !! castObjectId (productId it) with
  | None => None
  | Some product =>
      if Product.isActive product
      then Some {| v_line :=
                     {| productId := productId it;
                        productName := Product.name product;
                        price := Product.price product;
                        quantity := quantity it;
                        total := PrimFloat.mul (ToNumber (quantity it))
                                                (Product.price product);
                        imageUrl := Product.imageUrl product |};
                   availableStock := Product.stock product;
                   inStock := ge_number (Product.stock product)
                                        (quantity it) |}
      else None
  end.

(** [GET /api/cart]: answers the validated items, the item count, the
    rounded total and [updatedAt], and stores the validated items. *)
Definition getCart (ps : gmap string Product.doc)
    (userCarts : gmap string cart) (userId : string) (now : Z)
    : gmap string cart * (list viewItem * value * float * Z) :=
  let cart_ := getCartForUser userCarts userId now in
  let validatedItems := omap (refresh ps) (items cart_) in
  let newItems := map v_line validatedItems in
  (<[userId := {| items := newItems; updatedAt := updatedAt cart_ |}]> userCarts,
   (validatedItems, itemCount newItems, round2 (cartTotal newItems),
    updatedAt cart_)).

(** [PUT /api/cart/item/:productId] *)
Definition updateItem (ps : gmap string Product.doc)
    (userCarts : gmap string cart) (userId productId_ : string)
    (quantity_ : value) (now : Z) : gmap string cart * response :=
  if negb (isInt 0 50 quantity_)
  then (userCarts, ValidationFailed)
  else
    let cart_ := getCartForUser userCarts userId now in
    match findIndex (sameProduct productId_) (items cart_) with
    | None => (userCarts, ItemNotFound)
    | Some itemIndex =>
        let finish := fun newItems =>
          (<[userId := {| items := newItems; updatedAt := now |}]> userCarts,
           CartUpdated (is_zero quantity_) newItems (itemCount newItems)
                       (round2 (cartTotal newItems))) in
        if is_zero quantity_
        then finish (delete itemIndex (items cart_))
        else
          match ps !! castObjectId productId_ with
          | None => (userCarts, ProductUnavailable)
          | Some product =>
              if negb (Product.isActive product)
              then (userCarts, ProductUnavailable)
              else if lt_number (Product.stock product) quantity_
              then (userCarts, Insufficient (Product.stock product))
              else
                match items cart_ !! itemIndex with
                | Some existing =>
                    finish
                      (<[itemIndex :=
                           setQuantityTotal quantity_
                             (PrimFloat.mul (ToNumber quantity_)
                                            (price existing)) existing]>
                         (items cart_))
                | None => (userCarts, ServerError)
                end
          end
    end.

(** [DELETE /api/cart/item/:productId]; [removedItem] is
    [cart.items.splice(itemIndex, 1)[0]]. *)
Definition removeItem (userCarts : gmap string cart)
    (userId productId_ : string) (now : Z) : gmap string cart * response :=
  let cart_ := getCartForUser userCarts userId now in
  match findIndex (sameProduct productId_) (items cart_) with
  | None => (userCarts, ItemNotFound)
  | Some itemIndex =>
      let removedItem := items cart_ !! itemIndex in
      let newItems := delete itemIndex (items cart_) in
      (<[userId := {| items := newItems; updatedAt := now |}]> userCarts,
       ItemRemoved removedItem newItems (itemCount newItems)
                   (round2 (cartTotal newItems)))
  end.

(** [DELETE /api/cart] *)
Definition clearCart (userCarts : gmap string cart) (userId : string)
    (now : Z) : gmap string cart * response :=
  (<[userId := {| items := []; updatedAt := now |}]> userCarts, Cleared).

(** [GET /api/cart/summary]: item count and rounded total. *)
Definition summary (userCarts : gmap string cart) (userId : string) (now : Z)
    : value * float :=
  let cart_ := getCartForUser userCarts userId now in
  (itemCount (items cart_), round2 (cartTotal (items cart_))).

End CartRoutes.

(** ** routes/orders.js: reading one order *)

(** [GET /api/orders/:id]: the query is [{_id: id}], with
    [userId] added unless the caller's role is admin. *)
Definition getOrder (os : list Order.doc) (userId_ : string) (isAdmin : bool)
    (id : nat) : option Order.doc :=
  match os !! id with
  | None => None
  | Some o =>
      if isAdmin || String.eqb (Order.userId o) userId_ then Some o else None
  end.

(** ** Requests run one at a time *)

Definition with_products (s : State) (ps : gmap string Product.doc) : State :=
  {| products := ps; orders := orders s; userCarts := userCarts s |}.

Definition with_carts (s : State) (cs : gmap string Cart.cart) : State :=
  {| products := products s; orders := orders s; userCarts := cs |}.

(** One step is one whole request that writes to the state, run without
    another request in between. *)
Inductive request_step : relation State :=
| req_placeOrder s u r now :
    request_step s (OrderRoutes.placeOrder s u r now).1
| req_cancelOrder s u id :
    request_step s (OrderRoutes.cancelOrder s u id).1.1
| req_updateOrderStatus s id st :
    request_step s (OrderRoutes.updateOrderStatus s id st).1.1
| req_createProduct isURL s newId body :
    request_step s
      (with_products s
         (ProductRoutes.createProduct isURL (products s) newId body).1)
| req_updateProduct s id u :
    request_step s
      (with_products s (ProductRoutes.updateProduct (products s) id u).1)
| req_deleteProduct s id :
    request_step s
      (with_products s (ProductRoutes.deleteProduct (products s) id).1)
| req_patchStock s id d :
    request_step s
      (with_products s (ProductRoutes.patchStock (products s) id d).1)
| req_cartAdd s u pid q now :
    request_step s
      (with_carts s (Cart.add (products s) (userCarts s) u pid q now).1)
| req_cartGet s u now :
    request_step s
      (with_carts s (CartRoutes.getCart (products s) (userCarts s) u now).1)
| req_cartUpdate s u pid q now :
    request_step s
      (with_carts s
         (CartRoutes.updateItem (products s) (userCarts s) u pid q now).1)
| req_cartRemove s u pid now :
    request_step s
      (with_carts s (CartRoutes.removeItem (userCarts s) u pid now).1)
| req_cartClear s u now :
    request_step s
      (with_carts s (CartRoutes.clearCart (userCarts s) u now).1).

(** Every order sits at the position its [_id] names and carries the
    number of that position plus one. *)
Definition ordersNumbered (os : list Order.doc) : Prop :=
  forall i o, os !! i = Some o ->
    Order._id o = i /\ (Order.orderNumber o).2 = Z.of_nat i + 1.

(** A cart holds at most one line per [productId] string, and no line
    whose quantity is a number below one. *)
Definition cartOk (c : Cart.cart) : Prop :=
  NoDup (map Cart.productId (Cart.items c)) /\
  Forall (fun it => forall z, Cart.quantity it = Num z -> 1 <= z)
         (Cart.items c).

Definition isNum (v : value) : bool :=
  match v with
  | Num _ => true
  | Str _ => false
  end.

(** A quantity that is a number, as that number. *)
Definition numQty (v : value) : Z :=
  match v with
  | Num z => z
  | Str _ => 0
  end.

(** The sum of the quantities of a cart that holds numbers. *)
Fixpoint sumQty (l : list Cart.item) : Z :=
  match l with
  | [] => 0
  | it :: rest => numQty (Cart.quantity it) + sumQty rest
  end.

Definition cartsOk (cs : gmap string Cart.cart) : Prop :=
  forall u c, cs !! u = Some c -> cartOk c.

(** The number of lines for one product. *)
Fixpoint linesFor (pid : string) (lines : list (string * Z)) : Z :=
  match lines with
  | [] => 0
  | (k, _) :: rest => (if String.eqb k pid then 1 else 0) + linesFor pid rest
  end.

(** * Properties *)

(** ** The conditional stock adjustment *)

Section StockAdjustment.
Import Product.
Implicit Types (ps : gmap string doc) (p : doc) (id : string) (d v : Z).

Lemma readVersion_inr ps id d v :
  readVersion ps id d = inr v <->
  exists p, ps !! id = Some p /\ version p = v /\ 0 <= stock p + d.
Proof.
  unfold readVersion. destruct (ps !! id) as [p|] eqn:E.
  - destruct (Z.ltb_spec (stock p + d) 0) as [Hneg|Hok]; split.
    + discriminate.
    + intros (q & [= <-] & _ & Hq). lia.
    + intros [= <-]. eauto.
    + intros (q & [= <-] & <- & _). reflexivity.
  - split; [discriminate | intros (q & Hq & _); discriminate].
Qed.

Lemma casStock_Some ps id v d ps' p' :
  casStock ps id v d = Some (ps', p') <->
  exists p, ps !! id = Some p /\ version p = v /\ isLocked p = false /\
            p' = inc_stock_version d p /\ ps' = <[id := p']> ps.
Proof.
  unfold casStock. destruct (ps !! id) as [p|] eqn:E.
  - destruct (Z.eqb_spec (version p) v) as [Hv|Hv];
      destruct (isLocked p) eqn:L; simpl; split;
      try discriminate;
      try (intros (q & [= <-] & Hq & Hl & _); congruence).
    + intros [= <- <-]. exists p. auto.
    + intros (q & [= <-] & _ & _ & -> & ->). reflexivity.
  - split; [discriminate | intros (q & Hq & _); discriminate].
Qed.

Lemma updateStockSafe_at_inr psR psW id d ps' p' :
  updateStockSafe_at psR psW id d = inr (ps', p') <->
  exists p0 p,
    psR !! id = Some p0 /\ 0 <= stock p0 + d /\
    psW !! id = Some p /\ version p = version p0 /\ isLocked p = false /\
    p' = inc_stock_version d p /\ ps' = <[id := p']> psW.
Proof.
  unfold updateStockSafe_at. split.
  - destruct (readVersion psR id d) as [e|v] eqn:R; [discriminate|].
    apply readVersion_inr in R as (p0 & H0 & <- & Hs).
    destruct (casStock psW id (version p0) d) as [[ps1 p1]|] eqn:C;
      [|discriminate].
    intros [= <- <-].
    apply casStock_Some in C as (p & Hp & Hv & Hl & -> & ->).
    exists p0, p. auto 10.
  - intros (p0 & p & H0 & Hs & Hp & Hv & Hl & -> & ->).
    assert (R : readVersion psR id d = inr (version p0))
      by (apply readVersion_inr; eauto).
    assert (C : casStock psW id (version p0) d
                = Some (<[id := inc_stock_version d p]> psW,
                        inc_stock_version d p))
      by (apply casStock_Some; exists p; auto).
    rewrite R, C. reflexivity.
Qed.

(** Every store operation of the program keeps each product in the store
    and never lowers its version. *)
Lemma store_step_version ps ps' id p :
  store_step ps ps' -> ps !! id = Some p ->
  exists p', ps' !! id = Some p' /\ version p <= version p'.
Proof.
  intros Hstep Hp. destruct Hstep as
    [ps k v d ps' q' Hc | ps k n | ps k u now ps' q' Hl | ps k u
    | isURL ps k body | ps k u].
  - apply casStock_Some in Hc as (q & Hq & _ & _ & -> & ->).
    destruct (decide (k = id)) as [->|Hne].
    + rewrite lookup_insert_eq. eexists; split; [reflexivity|].
      rewrite Hp in Hq. injection Hq as <-. simpl. lia.
    + rewrite lookup_insert_ne by done. exists p. split; [done|lia].
  - destruct (decide (k = id)) as [->|Hne].
    + rewrite lookup_alter_eq, Hp. simpl. eexists; split; [reflexivity|].
      simpl. lia.
    + rewrite lookup_alter_ne by done. exists p. split; [done|lia].
  - unfold lockProduct in Hl. destruct (ps !! k) as [q|] eqn:Hq; [|done].
    destruct (negb (isLocked q) || lockedAt_lt q (now - lockTimeoutMs));
      [|done].
    injection Hl as <- <-.
    destruct (decide (k = id)) as [->|Hne].
    + rewrite lookup_insert_eq. eexists; split; [reflexivity|].
      rewrite Hp in Hq. injection Hq as <-. simpl. lia.
    + rewrite lookup_insert_ne by done. exists p. split; [done|lia].
  - unfold unlockProduct. destruct (ps !! k) as [q|] eqn:Hq; simpl;
      [|exists p; split; [done|lia]].
    destruct (decide (lockedBy q = Some u)); simpl;
      [|exists p; split; [done|lia]].
    destruct (decide (k = id)) as [->|Hne].
    + rewrite lookup_insert_eq. eexists; split; [reflexivity|].
      rewrite Hp in Hq. injection Hq as <-. simpl. lia.
    + rewrite lookup_insert_ne by done. exists p. split; [done|lia].
  - unfold ProductRoutes.createProduct.
    destruct (negb _); simpl; [exists p; split; [done|lia]|].
    destruct (ps !! k) as [q|] eqn:Hq; simpl; [exists p; split; [done|lia]|].
    assert (k <> id) by congruence.
    rewrite lookup_insert_ne by done. exists p. split; [done|lia].
  - unfold ProductRoutes.updateProduct.
    destruct (negb _); simpl; [exists p; split; [done|lia]|].
    destruct (ps !! k) as [q|] eqn:Hq; simpl; [|exists p; split; [done|lia]].
    destruct (decide (k = id)) as [->|Hne].
    + rewrite lookup_insert_eq. eexists; split; [reflexivity|].
      rewrite Hp in Hq. injection Hq as <-. simpl. lia.
    + rewrite lookup_insert_ne by done. exists p. split; [done|lia].
Qed.

Lemma store_steps_version ps ps' id p :
  rtc store_step ps ps' -> ps !! id = Some p ->
  exists p', ps' !! id = Some p' /\ version p <= version p'.
Proof.
  intros Hsteps. revert p.
  induction Hsteps as [ps|ps ps1 ps2 Hstep _ IH]; intros p Hp.
  - exists p. split; [done|lia].
  - destruct (store_step_version _ _ _ _ Hstep Hp) as (p1 & Hp1 & Hle).
    destruct (IH _ Hp1) as (p2 & Hp2 & Hle2).
    exists p2. split; [done|lia].
Qed.

(** C1. A conditional stock adjustment that commits read a product [p0]
    and wrote over a stored product [p] whose version was still the one
    read and whose lock flag was off; the one write adds [d] to the stock
    and one to the version, touches nothing else, and its result is the
    document returned.  A second adjustment that read the same version
    cannot commit afterwards, whatever other store operations run in
    between. *)
Theorem updateStockSafe_commit psRead psWrite id d ps' p' :
  updateStockSafe_at psRead psWrite id d = inr (ps', p') ->
  exists p0 p,
    psRead !! id = Some p0 /\ psWrite !! id = Some p /\
    version p = version p0 /\ isLocked p = false /\
    p' = inc_stock_version d p /\
    stock p' = stock p + d /\ version p' = version p + 1 /\
    ps' = <[id := p']> psWrite /\ ps' !! id = Some p' /\
    (forall j, j <> id -> ps' !! j = psWrite !! j) /\
    forall psRead2 p2 d2 psLater,
      psRead2 !! id = Some p2 -> version p2 = version p0 ->
      rtc store_step ps' psLater ->
      updateStockSafe_at psRead2 psLater id d2 = inl InsufficientStock \/
      updateStockSafe_at psRead2 psLater id d2 = inl StockUpdateFailed.
Proof.
  intros H.
  apply updateStockSafe_at_inr in H
    as (p0 & p & H0 & Hs & Hp & Hv & Hl & -> & ->).
  exists p0, p. repeat split; auto.
  - apply lookup_insert_eq.
  - intros j Hj. by apply lookup_insert_ne.
  - intros psRead2 p2 d2 psLater H2 Hv2 Hsteps.
    assert (Hnow : (<[id := inc_stock_version d p]> psWrite) !! id
                   = Some (inc_stock_version d p))
      by apply lookup_insert_eq.
    destruct (store_steps_version _ _ _ _ Hsteps Hnow) as (q & Hq & Hle).
    simpl in Hle.
    unfold updateStockSafe_at, readVersion. rewrite H2.
    destruct (stock p2 + d2 <? 0); [by left|right].
    unfold casStock. rewrite Hq.
    destruct (Z.eqb_spec (version q) (version p2)) as [Heq|Hne]; [lia|done].
Qed.

(** A stock of 10 at version 3 and two adjustments, -6 and -5, that both
    read version 3: the first commits (stock 4, version 4), after which
    the second cannot. *)
Lemma updateStockSafe_commit_witness :
  updateStockSafe_at Examples.shop Examples.shop "P" (-6)
    = inr (<["P" := inc_stock_version (-6) Examples.widget]> Examples.shop,
           inc_stock_version (-6) Examples.widget) /\
  stock (inc_stock_version (-6) Examples.widget) = 4 /\
  version (inc_stock_version (-6) Examples.widget) = 4 /\
  (updateStockSafe_at Examples.shop
     (<["P" := inc_stock_version (-6) Examples.widget]> Examples.shop)
     "P" (-5) = inl InsufficientStock \/
   updateStockSafe_at Examples.shop
     (<["P" := inc_stock_version (-6) Examples.widget]> Examples.shop)
     "P" (-5) = inl StockUpdateFailed).
Proof.
  assert (H : updateStockSafe_at Examples.shop Examples.shop "P" (-6)
    = inr (<["P" := inc_stock_version (-6) Examples.widget]> Examples.shop,
           inc_stock_version (-6) Examples.widget)) by reflexivity.
  split; [exact H|].
  destruct (updateStockSafe_commit _ _ _ _ _ _ H)
    as (p0 & p & H0 & Hp & _ & _ & _ & Hs & Hv & _ & _ & _ & Hnext).
  vm_compute in H0, Hp.
  injection H0 as <-. injection Hp as <-.
  split; [exact Hs|]. split; [exact Hv|].
  apply (Hnext Examples.shop Examples.widget (-5)).
  - reflexivity.
  - reflexivity.
  - apply rtc_refl.
Defined.

End StockAdjustment.

(** ** Failures of the conditional stock adjustment *)

Section StockFailures.
Import Product.
Implicit Types (ps : gmap string doc) (p : doc) (id : string) (d v : Z).

Lemma updateStockSafe_at_cases psR psW id d :
  match updateStockSafe_at psR psW id d with
  | inl ProductNotFound => psR !! id = None
  | inl InsufficientStock =>
      exists p0, psR !! id = Some p0 /\ stock p0 + d < 0
  | inl StockUpdateFailed =>
      exists p0, psR !! id = Some p0 /\ 0 <= stock p0 + d /\
        (psW !! id = None \/
         exists p, psW !! id = Some p /\
                   (version p <> version p0 \/ isLocked p = true))
  | inl _ => False
  | inr _ => True
  end.
Proof.
  unfold updateStockSafe_at, readVersion.
  destruct (psR !! id) as [p0|] eqn:H0; [|done].
  destruct (Z.ltb_spec (stock p0 + d) 0) as [Hneg|Hok]; [eauto|].
  unfold casStock. destruct (psW !! id) as [p|] eqn:Hp; [|eauto 10].
  destruct (Z.eqb_spec (version p) (version p0)) as [Hv|Hv];
    destruct (isLocked p) eqn:L; simpl; eauto 10.
Qed.

(** C8, as the code has it.  The conditional stock adjustment fails in
    exactly three ways: [ProductNotFound] when the product read does not
    exist, [InsufficientStock] when the stock read plus the delta is
    negative, and one combined [StockUpdateFailed] when the conditional
    write matches nothing, which is the case when the stored version
    differs from the one read or when the lock flag is set, whatever the
    age of the lock.  The three carry different messages; a version
    conflict and a lock do not. *)
Theorem updateStockSafe_failures psR psW id d :
  (updateStockSafe_at psR psW id d = inl ProductNotFound <->
     psR !! id = None) /\
  (updateStockSafe_at psR psW id d = inl InsufficientStock <->
     exists p0, psR !! id = Some p0 /\ stock p0 + d < 0) /\
  (updateStockSafe_at psR psW id d = inl StockUpdateFailed <->
     exists p0, psR !! id = Some p0 /\ 0 <= stock p0 + d /\
       (psW !! id = None \/
        exists p, psW !! id = Some p /\
                  (version p <> version p0 \/ isLocked p = true))) /\
  (forall e, updateStockSafe_at psR psW id d = inl e ->
     e = ProductNotFound \/ e = InsufficientStock \/ e = StockUpdateFailed) /\
  message ProductNotFound <> message InsufficientStock /\
  message ProductNotFound <> message StockUpdateFailed /\
  message InsufficientStock <> message StockUpdateFailed.
Proof.
  pose proof (updateStockSafe_at_cases psR psW id d) as C.
  repeat split; try discriminate.
  - intros E. by rewrite E in C.
  - intros H0. unfold updateStockSafe_at, readVersion. by rewrite H0.
  - intros E. by rewrite E in C.
  - intros (p0 & H0 & Hneg). unfold updateStockSafe_at, readVersion.
    rewrite H0. destruct (Z.ltb_spec (stock p0 + d) 0); [done|lia].
  - intros E. by rewrite E in C.
  - intros (p0 & H0 & Hok & Hw). unfold updateStockSafe_at, readVersion.
    rewrite H0. destruct (Z.ltb_spec (stock p0 + d) 0); [lia|].
    unfold casStock. destruct Hw as [Hw|(p & Hw & Hc)]; rewrite Hw; [done|].
    destruct Hc as [Hv|Hl].
    + destruct (Z.eqb_spec (version p) (version p0)); [done|done].
    + rewrite Hl. by rewrite andb_false_r.
  - intros e E. rewrite E in C. destruct e; auto; contradiction.
Qed.

(** A stale lock: "admin" locked the widget at time 0 and never released
    it; whatever the time now, an adjustment of -1 fails with the combined
    error. *)
Lemma updateStockSafe_failures_witness :
  Examples.shopLocked !! "P"
    = Some (set_lock true (Some 0) (Some "admin") Examples.widget) /\
  updateStockSafe_at Examples.shopLocked Examples.shopLocked "P" (-1)
    = inl StockUpdateFailed.
Proof.
  assert (Hp : Examples.shopLocked !! "P"
    = Some (set_lock true (Some 0) (Some "admin") Examples.widget))
    by reflexivity.
  split; [exact Hp|].
  destruct (updateStockSafe_failures Examples.shopLocked Examples.shopLocked
              "P" (-1)) as (_ & _ & [_ Hfail] & _).
  apply Hfail. eexists. split; [exact Hp|]. split; [simpl; lia|].
  right. eexists. split; [exact Hp|]. right. reflexivity.
Defined.

(** C8, counterexample.  An adjustment of -1 that loses against another
    writer (the stored version moved from 3 to 4, no lock) and the same
    adjustment on a locked product (version unchanged) raise the same
    error with the same message. *)
Lemma conflict_and_lock_same_error :
  (Examples.shopBumped !! "P" = Some (inc_stock_version (-5) Examples.widget)
   /\ isLocked (inc_stock_version (-5) Examples.widget) = false
   /\ version (inc_stock_version (-5) Examples.widget)
      <> version Examples.widget) /\
  (Examples.shopLocked !! "P"
     = Some (set_lock true (Some 0) (Some "admin") Examples.widget)
   /\ isLocked (set_lock true (Some 0) (Some "admin") Examples.widget) = true
   /\ version (set_lock true (Some 0) (Some "admin") Examples.widget)
      = version Examples.widget) /\
  updateStockSafe_at Examples.shop Examples.shopBumped "P" (-1)
    = inl StockUpdateFailed /\
  updateStockSafe_at Examples.shopLocked Examples.shopLocked "P" (-1)
    = inl StockUpdateFailed.
Proof. repeat split; done. Qed.

End StockFailures.

(** ** The exclusive lock *)

Section Lock.
Import Product.
Implicit Types (ps : gmap string doc) (p : doc) (id : string).

Lemma lockProduct_inr ps id u now ps' p' :
  lockProduct ps id u now = inr (ps', p') <->
  exists p, ps !! id = Some p /\
    (isLocked p = false \/
     exists t, lockedAt p = Some t /\ t < now - lockTimeoutMs) /\
    p' = set_lock true (Some now) (Some u) p /\ ps' = <[id := p']> ps.
Proof.
  unfold lockProduct, lockedAt_lt. destruct (ps !! id) as [p|] eqn:Hp.
  - destruct (isLocked p) eqn:L; simpl.
    + destruct (lockedAt p) as [t|] eqn:T.
      * destruct (Z.ltb_spec t (now - lockTimeoutMs)) as [Hlt|Hge]; split.
        -- intros [= <- <-]. exists p. eauto 10.
        -- intros (q & [= <-] & _ & -> & ->). reflexivity.
        -- discriminate.
        -- intros (q & [= <-] & [Hl|(t' & Ht' & Hlt)] & _);
             [congruence|]. rewrite T in Ht'. injection Ht' as <-. lia.
      * split; [discriminate|].
        intros (q & [= <-] & [Hl|(t' & Ht' & Hlt)] & _); congruence.
    + split.
      * intros [= <- <-]. exists p. auto.
      * intros (q & [= <-] & _ & -> & ->). reflexivity.
  - split; [discriminate | intros (q & Hq & _); discriminate].
Qed.

(** C7. On an existing product, [lockProduct] succeeds exactly when the
    lock flag is off or the lock timestamp is more than five minutes
    (300000 ms) old; on success it sets the flag, the holder and the
    timestamp and nothing else; it fails with the locked error when a
    lock that is not yet that old belongs to another holder; and as long
    as a lock taken by [A] at time [now] is in place, [B] acquires it at
    time [tB] exactly when [tB] is later than [now] plus five minutes. *)
Theorem lockProduct_spec ps id A now p :
  ps !! id = Some p ->
  ((exists r, lockProduct ps id A now = inr r) <->
     (isLocked p = false \/
      exists t, lockedAt p = Some t /\ t < now - 300000)) /\
  (forall ps' p', lockProduct ps id A now = inr (ps', p') ->
     ps' = <[id := p']> ps /\
     isLocked p' = true /\ lockedBy p' = Some A /\ lockedAt p' = Some now /\
     p' = set_lock true (Some now) (Some A) p /\
     stock p' = stock p /\ version p' = version p) /\
  (forall t holder,
     isLocked p = true -> lockedAt p = Some t -> lockedBy p = Some holder ->
     holder <> A -> now - 300000 <= t ->
     lockProduct ps id A now = inl ProductLocked) /\
  (forall ps' p', lockProduct ps id A now = inr (ps', p') ->
     forall psLater q B tB,
       psLater !! id = Some q ->
       isLocked q = true -> lockedAt q = Some now -> lockedBy q = Some A ->
       ((exists r, lockProduct psLater id B tB = inr r) <->
          now + 300000 < tB)) /\
  (forall ps' p' B tB, lockProduct ps id A now = inr (ps', p') ->
     ((exists r, lockProduct ps' id B tB = inr r) <-> now + 300000 < tB)).
Proof.
  intros Hp.
  assert (Later : forall psLater q B tB,
    psLater !! id = Some q ->
    isLocked q = true -> lockedAt q = Some now ->
    ((exists r, lockProduct psLater id B tB = inr r) <-> now + 300000 < tB)).
  { intros psL q B tB Hq Hl Ht. split.
    - intros [[ps1 p1] Hr].
      apply lockProduct_inr in Hr as (q' & Hq' & Hc & _).
      rewrite Hq in Hq'. injection Hq' as <-.
      destruct Hc as [Hc|(t & Ht' & Hlt)]; [congruence|].
      rewrite Ht in Ht'. injection Ht' as <-.
      unfold lockTimeoutMs in Hlt. lia.
    - intros Hlt. eexists (_, _). apply lockProduct_inr.
      exists q. split; [done|]. split; [|done].
      right. exists now. split; [done|]. unfold lockTimeoutMs. lia. }
  split; [|split; [|split; [|split]]].
  - split.
    + intros [[ps1 p1] Hr].
      apply lockProduct_inr in Hr as (q & Hq & Hc & _).
      rewrite Hp in Hq. injection Hq as <-. exact Hc.
    + intros Hc. eexists (_, _). apply lockProduct_inr.
      exists p. split; [done|]. split; [exact Hc|done].
  - intros ps' p' H.
    apply lockProduct_inr in H as (q & Hq & _ & -> & ->).
    rewrite Hp in Hq. injection Hq as <-. done.
  - intros t holder Hl Ht Hb Hne Hlive.
    unfold lockProduct, lockedAt_lt. rewrite Hp, Hl, Ht. simpl.
    unfold lockTimeoutMs.
    destruct (Z.ltb_spec t (now - 5 * 60 * 1000)); [lia|done].
  - intros ps' p' _ psLater q B tB Hq Hl Ht _.
    by apply (Later psLater q).
  - intros ps' p' B tB H.
    apply lockProduct_inr in H as (q & Hq & _ & -> & ->).
    apply (Later _ (set_lock true (Some now) (Some A) q));
      [apply lookup_insert_eq|done|done].
Qed.

(** "admin" locks the unlocked widget at time 1000. *)
Lemma lockProduct_spec_witness :
  Examples.shop !! "P" = Some Examples.widget /\
  lockProduct Examples.shop "P" "admin" 1000
    = inr (<["P" := set_lock true (Some 1000) (Some "admin") Examples.widget]>
             Examples.shop,
           set_lock true (Some 1000) (Some "admin") Examples.widget) /\
  ((exists r,
      lockProduct
        (<["P" := set_lock true (Some 1000) (Some "admin") Examples.widget]>
           Examples.shop) "P" "bob" 301000 = inr r) <->
   1000 + 300000 < 301000) /\
  ((exists r,
      lockProduct
        (<["P" := set_lock true (Some 1000) (Some "admin") Examples.widget]>
           Examples.shop) "P" "bob" 301001 = inr r) <->
   1000 + 300000 < 301001).
Proof.
  assert (Hp : Examples.shop !! "P" = Some Examples.widget) by reflexivity.
  assert (Hl : lockProduct Examples.shop "P" "admin" 1000
    = inr (<["P" := set_lock true (Some 1000) (Some "admin") Examples.widget]>
             Examples.shop,
           set_lock true (Some 1000) (Some "admin") Examples.widget))
    by reflexivity.
  destruct (lockProduct_spec Examples.shop "P" "admin" 1000 _ Hp)
    as (_ & _ & _ & _ & Hlater).
  split; [exact Hp|]. split; [exact Hl|].
  split; apply (Hlater _ _ "bob" _ Hl).
Defined.

End Lock.

(** ** Stock and version under the stock-changing operations *)

Section StockInvariant.
Import Product.
Implicit Types (ps : gmap string doc) (p : doc) (id : string) (d : Z).

(** Run without interference, the conditional adjustment keeps every
    stock non-negative and raises the version of the product it writes. *)
Lemma updateStockSafe_invariant ps id d ps' p' :
  updateStockSafe ps id d = inr (ps', p') ->
  stocksNonNegative ps ->
  stocksNonNegative ps' /\
  exists p, ps !! id = Some p /\ version p < version p'.
Proof.
  unfold updateStockSafe. intros H Inv.
  apply updateStockSafe_at_inr in H
    as (p0 & p & H0 & Hs & Hp & Hv & Hl & -> & ->).
  rewrite H0 in Hp. injection Hp as <-. split.
  - intros j q. destruct (decide (id = j)) as [->|Hne].
    + rewrite lookup_insert_eq. intros [= <-]. simpl. lia.
    + rewrite lookup_insert_ne by done. apply Inv.
  - exists p0. split; [done|]. simpl. lia.
Qed.

(** The administrative update validates the new stock, so it keeps every
    stock non-negative as well. *)
Lemma updateProduct_stocksNonNegative ps id u :
  stocksNonNegative ps ->
  stocksNonNegative (ProductRoutes.updateProduct ps id u).1.
Proof.
  intros Inv. unfold ProductRoutes.updateProduct.
  destruct (ProductRoutes.updateValid u) eqn:V; simpl; [|done].
  destruct (ps !! id) as [p|] eqn:Hp; simpl; [|done].
  intros j q. destruct (decide (id = j)) as [->|Hne].
  - rewrite lookup_insert_eq. intros [= <-]. simpl.
    unfold ProductRoutes.updateValid in V.
    destruct (ProductRoutes.u_stock u) as [n|]; simpl in *.
    + apply andb_prop in V as [_ V]. lia.
    + by apply (Inv j p).
  - rewrite lookup_insert_ne by done. apply Inv.
Qed.

(** C3, the failing input.  The administrative update of product "P"
    (stock 10, version 3) with body [{stock: 2}] commits the stock change
    and leaves the version at 3.  An adjustment of -6 that had read stock
    10 at version 3 before that update therefore still finds its version
    in the store, commits, and leaves a stock of -4. *)
Theorem updateProduct_keeps_version :
  ProductRoutes.updateProduct Examples.shop "P" (Examples.setStock 2)
    = (<["P" := ProductRoutes.applyUpdates (Examples.setStock 2)
                  Examples.widget]> Examples.shop,
       ProductRoutes.Ok 200
         (ProductRoutes.applyUpdates (Examples.setStock 2) Examples.widget))
  /\ stock Examples.widget = 10
  /\ stock (ProductRoutes.applyUpdates (Examples.setStock 2) Examples.widget)
     = 2
  /\ version (ProductRoutes.applyUpdates (Examples.setStock 2) Examples.widget)
     = version Examples.widget
  /\ exists ps' p',
       updateStockSafe_at Examples.shop
         (ProductRoutes.updateProduct Examples.shop "P"
            (Examples.setStock 2)).1 "P" (-6) = inr (ps', p')
       /\ stock p' = -4 /\ version p' = 4.
Proof.
  repeat split.
  eexists _, _. split; [reflexivity|]. split; reflexivity.
Qed.

End StockInvariant.

(** ** Order placement *)

Section Placement.
Import Order OrderRoutes.
Implicit Types (ps : gmap string Product.doc) (s : State) (r : request).

Lemma collectItems_inr ps its acc tot ois tot' :
  collectItems ps its acc tot = inr (ois, tot') ->
  exists new,
    ois = acc ++ new /\
    tot' = fold_left (fun a it => PrimFloat.add a (total it)) new tot /\
    orderLines new = requestLines its /\
    Forall (lineFrom ps) new.
Proof.
  revert acc tot. induction its as [|it rest IH]; intros acc tot; simpl.
  - intros [= <- <-]. exists []. rewrite app_nil_r. auto.
  - destruct (ps !! r_productId it) as [p|] eqn:Hp; [|discriminate].
    destruct (Product.isActive p) eqn:Ha; simpl; [|discriminate].
    destruct (Z.ltb_spec (Product.stock p) (r_quantity it)) as [Hlt|Hge];
      [discriminate|].
    intros H. apply IH in H as (new & -> & -> & Hl & Hf).
    eexists (_ :: new). rewrite <- app_assoc. simpl.
    split; [reflexivity|]. split; [reflexivity|].
    split; [by rewrite Hl|].
    constructor; [|exact Hf].
    exists p. simpl. auto 10.
Qed.

Lemma qtyFor_no_line pid lines :
  hasLine pid lines = false -> qtyFor pid lines = 0.
Proof.
  induction lines as [|[k q] rest IH]; simpl; [done|].
  destruct (String.eqb k pid); simpl; [discriminate|].
  intros H. rewrite IH by done. lia.
Qed.

(** A decrement loop that runs to its end took, from every product,
    the quantity of all its lines; a product with a line was not locked
    and ends with a stock that is not negative. *)
Lemma decrementStock_inr ps ois ps' :
  decrementStock ps ois = inr ps' ->
  forall pid p, ps !! pid = Some p ->
    exists p', ps' !! pid = Some p' /\
      Product.stock p' = Product.stock p - qtyFor pid (orderLines ois) /\
      Product.isLocked p' = Product.isLocked p /\
      (hasLine pid (orderLines ois) = true ->
         Product.isLocked p = false /\ 0 <= Product.stock p').
Proof.
  revert ps. induction ois as [|it rest IH]; intros ps; simpl.
  - intros [= <-] pid p Hp. exists p.
    split; [done|]. split; [lia|]. split; [done|]. discriminate.
  - destruct (Product.updateStockSafe ps (productId it) (- quantity it))
      as [e|[ps1 p1]] eqn:U; [discriminate|].
    unfold Product.updateStockSafe in U.
    apply updateStockSafe_at_inr in U
      as (p0 & q0 & H0 & Hs & Hq & _ & Hl & -> & ->).
    rewrite H0 in Hq. injection Hq as <-.
    intros H pid p Hp.
    destruct (String.eqb_spec (productId it) pid) as [Heq|Hne].
    + rewrite Heq in *. rewrite Hp in H0. injection H0 as <-.
      destruct (IH _ H pid
                  (Product.inc_totalSold (quantity it)
                     (Product.inc_stock_version (- quantity it) p)))
        as (p' & Hp' & Hst & Hlk & Hline).
      { by rewrite lookup_alter_eq, lookup_insert_eq. }
      exists p'. simpl in Hst, Hlk. split; [done|]. split; [lia|].
      split; [done|]. intros _. split; [done|].
      destruct (hasLine pid (orderLines rest)) eqn:HL.
      * by apply Hline.
      * rewrite (qtyFor_no_line _ _ HL) in Hst. lia.
    + destruct (IH _ H pid p) as (p' & Hp' & Hst & Hlk & Hline).
      { rewrite lookup_alter_ne by done. by rewrite lookup_insert_ne. }
      exists p'. split; [done|]. split; [lia|]. split; [done|].
      exact Hline.
Qed.

Lemma hasLine_request its it :
  In it its -> hasLine (r_productId it) (requestLines its) = true.
Proof.
  intros Hin. unfold hasLine. apply existsb_exists.
  exists (r_productId it, r_quantity it). split.
  - unfold requestLines. apply in_map_iff. eauto.
  - simpl. apply String.eqb_refl.
Qed.

Lemma lineFrom_request ps its ois it :
  orderLines ois = requestLines its -> Forall (lineFrom ps) ois ->
  In it its ->
  exists p, ps !! r_productId it = Some p /\
    Product.isActive p = true /\ r_quantity it <= Product.stock p.
Proof.
  intros Hl Hf Hin.
  assert (Hin' : In (r_productId it, r_quantity it) (orderLines ois)).
  { rewrite Hl. unfold requestLines. apply in_map_iff. eauto. }
  unfold orderLines in Hin'. apply in_map_iff in Hin' as (oi & [= Hk Hq] & Hoi).
  rewrite Forall_forall in Hf.
  destruct (Hf oi) as (p & Hp & Ha & Hs & _).
  { by apply list_elem_of_In. }
  exists p. rewrite <- Hk, <- Hq. auto.
Qed.

(** The transaction callback throws whenever some requested line cannot
    be served. *)
Lemma transactionBody_fails s u r now it :
  In it (req_items r) ->
  lineFails (products s) (req_items r) it = true ->
  exists e, transactionBody s u r now = inl e.
Proof.
  intros Hin Hfail. unfold transactionBody.
  destruct (collectItems (products s) (req_items r) [] 0%float)
    as [e|[ois tot]] eqn:C; [eauto|].
  apply collectItems_inr in C as (new & -> & _ & Hl & Hf). simpl.
  destruct (createOrderWithTransaction _ _ _) as [e|[os o]]; [eauto|].
  destruct (decrementStock (products s) new) as [e|ps'] eqn:D; [eauto|].
  exfalso.
  destruct (lineFrom_request _ _ _ _ Hl Hf Hin) as (p & Hp & Ha & Hs).
  destruct (decrementStock_inr _ _ _ D _ _ Hp) as (p' & _ & Hst & _ & Hline).
  rewrite Hl in Hst, Hline.
  destruct (Hline (hasLine_request _ _ Hin)) as [Hlk Hpos].
  unfold lineFails in Hfail. rewrite Hp, Ha, Hlk in Hfail. simpl in Hfail.
  rewrite orb_false_r in Hfail.
  apply orb_prop in Hfail as [Hf1|Hf2]; lia.
Qed.

Lemma placeOrder_not_created s u r now s' resp :
  placeOrder s u r now = (s', resp) ->
  (forall o, resp <> Created o) -> s' = s.
Proof.
  unfold placeOrder, withTransaction.
  destruct (negb (validationOk r)); [by intros [= <- <-]|].
  destruct (length (req_items r) =? 0)%nat; [by intros [= <- <-]|].
  destruct (transactionBody s u r now) as [e|[s1 o]].
  - by intros [= <- <-].
  - intros [= <- <-] Hno. by destruct (Hno o).
Qed.

(** C2. An order placement that answers anything but "created" leaves
    the whole state as it was: no order is added and no product changes.
    And it does answer something else whenever one requested line cannot
    be served: its product is missing or inactive, has less stock than
    the line asks for, has less stock than the lines of the request for
    it ask for together (which only shows at the second decrement), or
    is locked (so its conditional adjustment fails). *)
Theorem placeOrder_atomic s u r now :
  (forall s' resp, placeOrder s u r now = (s', resp) ->
     (forall o, resp <> Created o) ->
     s' = s /\ orders s' = orders s /\ products s' = products s) /\
  (forall it, In it (req_items r) ->
     lineFails (products s) (req_items r) it = true ->
     exists resp, placeOrder s u r now = (s, resp) /\
                  forall o, resp <> Created o).
Proof.
  split.
  - intros s' resp H Hno.
    by rewrite (placeOrder_not_created _ _ _ _ _ _ H Hno).
  - intros it Hin Hfail.
    destruct (transactionBody_fails s u r now it Hin Hfail) as [e He].
    unfold placeOrder, withTransaction. rewrite He.
    destruct (negb (validationOk r)); [by eexists|].
    destruct (length (req_items r) =? 0)%nat; [by eexists|].
    exists (placeErrorResponse e). split; [done|].
    intros o. by destruct e.
Qed.

(** With a stock of 10, a request for 6 and then 5 of the same product
    passes the per-line checks and fails at the second decrement. *)
Lemma placeOrder_atomic_witness :
  In (Examples.line "P" 5)
     (req_items (Examples.request [Examples.line "P" 6; Examples.line "P" 5]))
  /\ lineFails (products Examples.start)
       (req_items (Examples.request [Examples.line "P" 6; Examples.line "P" 5]))
       (Examples.line "P" 5) = true
  /\ placeOrder Examples.start "alice"
       (Examples.request [Examples.line "P" 6; Examples.line "P" 5]) 1000
     = (Examples.start, Conflict InsufficientStock)
  /\ exists resp,
       placeOrder Examples.start "alice"
         (Examples.request [Examples.line "P" 6; Examples.line "P" 5]) 1000
       = (Examples.start, resp) /\ forall o, resp <> Created o.
Proof.
  assert (Hin : In (Examples.line "P" 5)
     (req_items (Examples.request [Examples.line "P" 6; Examples.line "P" 5])))
    by (simpl; auto).
  assert (Hf : lineFails (products Examples.start)
       (req_items (Examples.request [Examples.line "P" 6; Examples.line "P" 5]))
       (Examples.line "P" 5) = true) by reflexivity.
  split; [exact Hin|]. split; [exact Hf|]. split; [reflexivity|].
  exact (proj2 (placeOrder_atomic Examples.start "alice"
                  (Examples.request [Examples.line "P" 6; Examples.line "P" 5])
                  1000) _ Hin Hf).
Defined.

Lemma placeOrder_created s u r now s' o :
  placeOrder s u r now = (s', Created o) ->
  exists ois tot os ps',
    collectItems (products s) (req_items r) [] 0%float = inr (ois, tot) /\
    decrementStock (products s) ois = inr ps' /\
    items o = ois /\ totalAmount o = round2 tot /\
    status_ o = pending /\ userId o = u /\
    os = orders s ++ [o] /\
    s' = {| products := ps'; orders := os;
            userCarts := Cart.clearCartForUser (userCarts s) u now |}.
Proof.
  unfold placeOrder, withTransaction, transactionBody.
  destruct (negb (validationOk r)); [discriminate|].
  destruct (length (req_items r) =? 0)%nat; [discriminate|].
  destruct (collectItems (products s) (req_items r) [] 0%float)
    as [e|[ois tot]] eqn:C; [by destruct e|].
  unfold createOrderWithTransaction.
  destruct (negb (validData _)); [discriminate|].
  destruct (existsb _ (orders s)); [discriminate|].
  destruct (decrementStock (products s) ois) as [e|ps'] eqn:D;
    [by destruct e|].
  intros [= <- <-]. simpl. eexists _, _, _, _. repeat split; done.
Qed.

(** C4, as the code has it.  In the order a successful placement
    creates, every line copies the price of its product and has as total
    the double that [quantity * price] yields, with no rounding to cents
    applied to it; the lines are those of the request, in order; and the
    total amount is [Math.round(S * 100) / 100] where [S] is the sum of
    the stored line totals, added in order from zero in doubles.  No
    line total is rounded before the summation, and the total amount is
    the sum rounded once, so it need not be equal to the sum. *)
Theorem placeOrder_totals s u r now s' o :
  placeOrder s u r now = (s', Created o) ->
  Forall (lineFrom (products s)) (items o) /\
  orderLines (items o) = requestLines (req_items r) /\
  totalAmount o = round2 (sumTotals (items o)).
Proof.
  intros H.
  apply placeOrder_created in H
    as (ois & tot & os & ps' & C & _ & -> & Ht & _).
  apply collectItems_inr in C as (new & -> & -> & Hl & Hf).
  simpl in *. fold (sumTotals new) in Ht. by rewrite Ht.
Qed.

(** Three widgets at 10 each: one line of 30, total amount 30. *)
Lemma placeOrder_totals_witness :
  exists s' o,
    placeOrder Examples.start "alice"
      (Examples.request [Examples.line "P" 3]) 1000 = (s', Created o)
    /\ totalAmount o = round2 (sumTotals (items o))
    /\ sumTotals (items o) = 30%float
    /\ totalAmount o = 30%float.
Proof.
  eexists _, _. split; [reflexivity|].
  pose proof (placeOrder_totals Examples.start "alice"
                (Examples.request [Examples.line "P" 3]) 1000 _ _ eq_refl)
    as (_ & _ & Ht).
  split; [exact Ht|]. split; reflexivity.
Defined.

(** C4, counterexample.  One gadget at 0.50390625: the stored line total
    is 0.50390625, which is not that product rounded to cents (0.5), and
    the stored total amount is 0.5, which is not the sum of the stored
    line totals.  Every number here is a double without rounding. *)
Lemma line_total_not_rounded :
  exists s' o,
    placeOrder Examples.gadgetShop "alice"
      (Examples.request [Examples.line "G" 1]) 1000 = (s', Created o)
    /\ items o = [{| productId := "G"; productName := "Gadget";
                     quantity := 1; price := 0.50390625;
                     total := 0.50390625 |}]
    /\ totalAmount o = 0.5%float
    /\ round2 (PrimFloat.mul (Number_of_Z 1) 0.50390625) = 0.5%float
    /\ PrimFloat.eqb 0.50390625
         (round2 (PrimFloat.mul (Number_of_Z 1) 0.50390625)) = false
    /\ PrimFloat.eqb (sumTotals (items o)) (totalAmount o) = false.
Proof.
  eexists _, _. split; [reflexivity|].
  repeat split; reflexivity.
Qed.

(** The arithmetic is that of doubles.  Twenty-nine candies at 0.005: a
    hundred times the sum of the line totals is a double below 14.5, and
    the total amount stored is 0.14.  One item at 0.015, a double a
    little above 0.015, is stored with total amount 0.02. *)
Lemma placeOrder_total_in_doubles :
  (exists s' o,
     placeOrder Examples.candyShop "alice"
       (Examples.request [Examples.line "C" 29]) 1000 = (s', Created o)
     /\ PrimFloat.ltb (PrimFloat.mul (sumTotals (items o)) 100) 14.5 = true
     /\ totalAmount o = PrimFloat.div 14 100) /\
  round2 (PrimFloat.mul (Number_of_Z 1) (PrimFloat.div 15 1000))
  = PrimFloat.div 2 100.
Proof.
  split; [|reflexivity].
  eexists _, _. split; [reflexivity|]. split; reflexivity.
Qed.

(** C10. A successful order placement replaces the cart of the placing
    user by an empty one, whatever lines it held and whatever items the
    order names, and leaves the cart of every other user as it was. *)
Theorem placeOrder_clears_cart s u r now s' o :
  placeOrder s u r now = (s', Created o) ->
  userCarts s' !! u = Some {| Cart.items := []; Cart.updatedAt := now |} /\
  (forall t, Cart.items (Cart.getCartForUser (userCarts s') u t) = []) /\
  (forall u', u' <> u -> userCarts s' !! u' = userCarts s !! u') /\
  userCarts s' = Cart.clearCartForUser (userCarts s) u now.
Proof.
  intros H.
  apply placeOrder_created in H
    as (ois & tot & os & ps' & _ & _ & _ & _ & _ & _ & _ & ->).
  simpl. unfold Cart.clearCartForUser, Cart.getCartForUser.
  split; [apply lookup_insert_eq|].
  split; [intros t; by rewrite lookup_insert_eq|].
  split; [|done].
  intros u' Hne. by apply lookup_insert_ne.
Qed.

(** "alice" holds lines for "P" and "Z" and orders three of "P" only:
    her cart is empty afterwards and the cart of "bob" is untouched. *)
Lemma placeOrder_clears_cart_witness :
  (exists s' o,
     placeOrder Examples.start "alice"
       (Examples.request [Examples.line "P" 3]) 1000 = (s', Created o)
     /\ userCarts Examples.start !! "alice"
        = Some {| Cart.items := [Examples.cartLine "P" 10 1;
                                 Examples.cartLine "Z" 4 2];
                  Cart.updatedAt := 5 |}
     /\ userCarts s' !! "alice"
        = Some {| Cart.items := []; Cart.updatedAt := 1000 |}
     /\ userCarts s' !! "bob" = userCarts Examples.start !! "bob").
Proof.
  eexists _, _. split; [reflexivity|]. split; [reflexivity|].
  pose proof (placeOrder_clears_cart Examples.start "alice"
                (Examples.request [Examples.line "P" 3]) 1000 _ _ eq_refl)
    as (Hu & _ & Hothers & _).
  split; [exact Hu|]. apply Hothers. discriminate.
Defined.

End Placement.

(** ** Cancellation and status changes *)

Section Cancellation.
Import Order OrderRoutes.
Implicit Types (ps : gmap string Product.doc) (s : State).

(** A restore loop that logs nothing gave back, to every product, the
    quantity of all its lines. *)
Lemma restoreStock_None ps its ps' :
  restoreStock ps its = (ps', None) ->
  forall pid p, ps !! pid = Some p ->
    exists p', ps' !! pid = Some p' /\
      Product.stock p' = Product.stock p + qtyFor pid (orderLines its).
Proof.
  revert ps. induction its as [|it rest IH]; intros ps; simpl.
  - intros [= <-] pid p Hp. exists p. split; [done|lia].
  - destruct (Product.updateStockSafe ps (productId it) (quantity it))
      as [e|[ps1 p1]] eqn:U; [discriminate|].
    unfold Product.updateStockSafe in U.
    apply updateStockSafe_at_inr in U
      as (p0 & q0 & H0 & _ & Hq & _ & _ & -> & ->).
    rewrite H0 in Hq. injection Hq as <-.
    intros H pid p Hp.
    destruct (String.eqb_spec (productId it) pid) as [Heq|Hne].
    + rewrite Heq in *. rewrite Hp in H0. injection H0 as <-.
      destruct (IH _ H pid (Product.inc_stock_version (quantity it) p))
        as (p' & Hp' & Hst).
      { by rewrite lookup_insert_eq. }
      exists p'. simpl in Hst. split; [done|lia].
    + destruct (IH _ H pid p) as (p' & Hp' & Hst).
      { by rewrite lookup_insert_ne. }
      exists p'. split; [done|lia].
Qed.

Lemma cancelOrder_Updated s u id s' o' logged :
  cancelOrder s u id = (s', Updated o', logged) ->
  exists o,
    orders s !! id = Some o /\ userId o = u /\ status_ o = pending /\
    o' = set_status cancelled o /\
    restoreStock (products s) (items o) = (products s', logged) /\
    orders s' = <[id := o']> (orders s) /\
    userCarts s' = userCarts s.
Proof.
  unfold cancelOrder. destruct (orders s !! id) as [o|] eqn:Ho; [|discriminate].
  destruct (String.eqb_spec (userId o) u) as [Hu|Hu]; simpl; [|discriminate].
  destruct (bool_decide_reflect (status_ o = pending)) as [Hs|Hs]; simpl;
    [|discriminate].
  destruct (restoreStock (products s) (items o)) as [ps' l] eqn:R.
  intros [= <- <- <-]. exists o. simpl. auto 10.
Qed.

Lemma cancelOrder_not_pending s u id o :
  orders s !! id = Some o -> userId o = u -> status_ o <> pending ->
  cancelOrder s u id = (s, CannotCancel (status_ o), None).
Proof.
  intros Ho Hu Hs. unfold cancelOrder. rewrite Ho.
  destruct (String.eqb_spec (userId o) u) as [_|Hne]; [|done]. simpl.
  destruct (bool_decide_reflect (status_ o = pending)) as [Hp|_]; [done|].
  reflexivity.
Qed.

Lemma updateOrderStatus_sets s id st o :
  orders s !! id = Some o ->
  exists s' logged,
    updateOrderStatus s id st = (s', Updated (set_status st o), logged) /\
    orders s' = <[id := set_status st o]> (orders s) /\
    orders s' !! id = Some (set_status st o).
Proof.
  intros Ho. unfold updateOrderStatus. rewrite Ho.
  assert (Hlt : (id < length (orders s))%nat)
    by (eapply lookup_lt_Some; eauto).
  destruct (bool_decide (st = cancelled)
            && negb (bool_decide (status_ (set_status st o) = cancelled))).
  - destruct (restoreStock _ _) as [ps' l].
    eexists _, _. split; [reflexivity|]. simpl. split; [done|].
    by apply list_lookup_insert_eq.
  - eexists _, _. split; [reflexivity|]. simpl. split; [done|].
    by apply list_lookup_insert_eq.
Qed.

(** C5, as the code has it.  The customer cancel route answers "updated"
    only for an order of the caller that is pending; it then stores the
    order as cancelled and runs the restore loop over its lines in order,
    one adjustment of plus the line quantity each, up to the first that
    fails, which is logged.  When nothing is logged every product has
    gained the quantity of all its lines.  A second attempt through the
    same route is refused and changes nothing, as is any attempt on an
    order that is not pending.  The administrative status route sets
    [cancelled] on any order, whatever its status. *)
Theorem cancelOrder_spec s u id :
  (forall s' o' logged, cancelOrder s u id = (s', Updated o', logged) ->
     exists o,
       orders s !! id = Some o /\ userId o = u /\ status_ o = pending /\
       o' = set_status cancelled o /\
       orders s' = <[id := o']> (orders s) /\
       orders s' !! id = Some o' /\
       userCarts s' = userCarts s /\
       restoreStock (products s) (items o) = (products s', logged) /\
       (logged = None ->
          forall pid p, products s !! pid = Some p ->
            exists p', products s' !! pid = Some p' /\
              Product.stock p'
              = Product.stock p + qtyFor pid (orderLines (items o))) /\
       cancelOrder s' u id = (s', CannotCancel cancelled, None)) /\
  (forall o, orders s !! id = Some o -> userId o = u ->
     status_ o <> pending ->
     cancelOrder s u id = (s, CannotCancel (status_ o), None)) /\
  (forall o, orders s !! id = Some o ->
     exists s' logged,
       updateOrderStatus s id cancelled
         = (s', Updated (set_status cancelled o), logged) /\
       orders s' !! id = Some (set_status cancelled o)).
Proof.
  split; [|split].
  - intros s' o' logged H.
    apply cancelOrder_Updated in H
      as (o & Ho & Hu & Hs & -> & R & Hos & Hc).
    assert (Hlt : (id < length (orders s))%nat)
      by (eapply lookup_lt_Some; eauto).
    assert (Ho' : orders s' !! id = Some (set_status cancelled o))
      by (rewrite Hos; by apply list_lookup_insert_eq).
    exists o. repeat split; auto.
    + intros ->. by apply restoreStock_None.
    + by apply (cancelOrder_not_pending s' u id _ Ho').
  - apply cancelOrder_not_pending.
  - intros o Ho.
    destruct (updateOrderStatus_sets s id cancelled o Ho)
      as (s' & l & H1 & _ & H3).
    eauto.
Qed.

(** "alice" cancels her pending order of three widgets: the stock goes
    from 10 to 13 and the second attempt is refused. *)
Lemma cancelOrder_spec_witness :
  exists s',
    cancelOrder Examples.withOrders "alice" 2
      = (s', Updated (set_status cancelled (Examples.orderOf 2 pending)), None)
    /\ Product.stock <$> products Examples.withOrders !! "P" = Some 10
    /\ Product.stock <$> products s' !! "P" = Some 13
    /\ cancelOrder s' "alice" 2 = (s', CannotCancel cancelled, None).
Proof.
  eexists. split; [reflexivity|]. split; [reflexivity|].
  split; [reflexivity|].
  destruct (proj1 (cancelOrder_spec Examples.withOrders "alice" 2)
              _ _ _ eq_refl)
    as (o & _ & _ & _ & _ & _ & _ & _ & _ & _ & Hagain).
  exact Hagain.
Defined.

(** C5, counterexample.  The administrative status route cancels the
    order of "alice" that is already shipped. *)
Lemma admin_cancels_shipped_order :
  orders Examples.withOrders !! 1%nat = Some (Examples.orderOf 1 shipped)
  /\ status_ (Examples.orderOf 1 shipped) = shipped
  /\ (updateOrderStatus Examples.withOrders 1 cancelled).1.2
     = Updated (set_status cancelled (Examples.orderOf 1 shipped))
  /\ orders (updateOrderStatus Examples.withOrders 1 cancelled).1.1 !! 1%nat
     = Some (set_status cancelled (Examples.orderOf 1 shipped))
  /\ status_ (set_status cancelled (Examples.orderOf 1 shipped)) = cancelled.
Proof. repeat split. Qed.

(** C6, as the code has it.  The customer cancel route changes the
    status of at most the order it names, and only from pending to
    cancelled.  Order placement leaves every stored order as it is and
    adds its new order as pending.  The administrative status route
    stores whatever status it is given, on any order and whatever the
    current status, and touches no other order. *)
Theorem status_transitions s :
  (forall u id s' resp logged j o o',
     cancelOrder s u id = (s', resp, logged) ->
     orders s !! j = Some o -> orders s' !! j = Some o' ->
     o' = o \/
     (j = id /\ status_ o = pending /\ o' = set_status cancelled o)) /\
  (forall u r now s' resp j o,
     placeOrder s u r now = (s', resp) ->
     orders s !! j = Some o -> orders s' !! j = Some o) /\
  (forall u r now s' o,
     placeOrder s u r now = (s', Created o) ->
     status_ o = pending /\ orders s' = orders s ++ [o]) /\
  (forall id st o, orders s !! id = Some o ->
     exists s' logged,
       updateOrderStatus s id st = (s', Updated (set_status st o), logged) /\
       orders s' !! id = Some (set_status st o) /\
       status_ (set_status st o) = st /\
       forall j, j <> id -> orders s' !! j = orders s !! j).
Proof.
  split; [|split; [|split]].
  - intros u id s' resp logged j o o' H Hj Hj'. unfold cancelOrder in H.
    destruct (orders s !! id) as [x|] eqn:Hx;
      [|injection H as <- _ _; left; congruence].
    destruct (negb (String.eqb (userId x) u));
      [injection H as <- _ _; left; congruence|].
    destruct (bool_decide_reflect (status_ x = pending)) as [Hs|Hs];
      simpl in H; [|injection H as <- _ _; left; congruence].
    destruct (restoreStock _ _) as [ps' l]. injection H as <- _ _.
    simpl in Hj'. destruct (decide (j = id)) as [->|Hne].
    + right. rewrite Hx in Hj. injection Hj as <-.
      rewrite list_lookup_insert_eq in Hj'
        by (eapply lookup_lt_Some; eauto).
      injection Hj' as <-. auto.
    + left. rewrite list_lookup_insert_ne in Hj' by done. congruence.
  - intros u r now s' resp j o H Hj.
    destruct resp as [| |x|e|e| |c|x];
      try (by rewrite (placeOrder_not_created _ _ _ _ _ _ H)).
    apply placeOrder_created in H
      as (ois & tot & os & ps' & _ & _ & _ & _ & _ & _ & -> & ->).
    simpl. by apply lookup_app_l_Some.
  - intros u r now s' o H.
    apply placeOrder_created in H
      as (ois & tot & os & ps' & _ & _ & _ & _ & Hst & _ & -> & ->).
    done.
  - intros id st o Ho.
    destruct (updateOrderStatus_sets s id st o Ho) as (s' & l & H1 & H2 & H3).
    exists s', l. split; [done|]. split; [done|]. split; [done|].
    intros j Hne. rewrite H2. by apply list_lookup_insert_ne.
Qed.

(** The administrative route puts the delivered order back to pending. *)
Lemma status_transitions_witness :
  orders Examples.withOrders !! 0%nat = Some (Examples.orderOf 0 delivered)
  /\ exists s' logged,
       updateOrderStatus Examples.withOrders 0 pending
         = (s', Updated (set_status pending (Examples.orderOf 0 delivered)),
            logged)
       /\ orders s' !! 0%nat
          = Some (set_status pending (Examples.orderOf 0 delivered)).
Proof.
  assert (H0 : orders Examples.withOrders !! 0%nat
               = Some (Examples.orderOf 0 delivered)) by reflexivity.
  split; [exact H0|].
  destruct (proj2 (proj2 (proj2 (status_transitions Examples.withOrders)))
              0%nat pending _ H0) as (s' & l & H1 & H2 & _).
  exists s', l. split; [exact H1|exact H2].
Defined.

(** C6, counterexample.  Through the administrative status route the
    delivered order goes back to pending, and the shipped order becomes
    cancelled. *)
Lemma admin_moves_status_back :
  status_ <$> orders Examples.withOrders !! 0%nat = Some delivered
  /\ status_ <$>
       orders (updateOrderStatus Examples.withOrders 0 pending).1.1 !! 0%nat
     = Some pending
  /\ movesBack delivered pending = true
  /\ status_ <$> orders Examples.withOrders !! 1%nat = Some shipped
  /\ status_ <$>
       orders (updateOrderStatus Examples.withOrders 1 cancelled).1.1 !! 1%nat
     = Some cancelled
  /\ lateCancel shipped cancelled = true.
Proof. repeat split. Qed.

End Cancellation.

(** ** Adding to the cart *)

Section CartAdd.
Implicit Types (ps : gmap string Product.doc)
  (userCarts : gmap string Cart.cart) (q : value).

(** A missing or inactive product is answered with 404 and the carts
    stay as they are. *)
Lemma add_not_found ps userCarts u pid q now :
  isInt 1 50 q = true ->
  (ps !! castObjectId pid = None \/
   exists p, ps !! castObjectId pid = Some p /\ Product.isActive p = false) ->
  Cart.add ps userCarts u pid q now = (userCarts, Cart.NotFound).
Proof.
  intros Hq H. unfold Cart.add. rewrite Hq. simpl.
  destruct H as [->|(p & -> & ->)]; reflexivity.
Qed.

(** In no case does [add] answer 200 while the line it stores asks for
    more than the stock: an insufficient stock is answered with 400 and
    the carts stay as they are. *)
Lemma add_insufficient ps userCarts u pid q now p i existing :
  isInt 1 50 q = true ->
  ps !! castObjectId pid = Some p -> Product.isActive p = true ->
  findIndex (fun it => String.eqb (Cart.productId it) pid)
            (Cart.items (Cart.getCartForUser userCarts u now)) = Some i ->
  Cart.items (Cart.getCartForUser userCarts u now) !! i = Some existing ->
  lt_number (Product.stock p) (js_add (Cart.quantity existing) q) = true ->
  exists r, Cart.add ps userCarts u pid q now = (userCarts, r) /\
            Cart.http_status r = 400.
Proof.
  intros Hq Hp Ha Hi He Hlt. unfold Cart.add. rewrite Hq. simpl.
  rewrite Hp, Ha. simpl.
  destruct (lt_number (Product.stock p) q); [by eexists|].
  rewrite Hi, He, Hlt. by eexists.
Qed.

(** A product not yet in the cart gets a new line with the current
    price, whose total is quantity times that price. *)
Lemma add_new_line ps userCarts u pid q now p :
  isInt 1 50 q = true ->
  ps !! castObjectId pid = Some p -> Product.isActive p = true ->
  lt_number (Product.stock p) q = false ->
  findIndex (fun it => String.eqb (Cart.productId it) pid)
            (Cart.items (Cart.getCartForUser userCarts u now)) = None ->
  exists line c' found n t,
    Cart.add ps userCarts u pid q now
      = (<[u := c']> userCarts, Cart.Added found n t) /\
    Cart.items c'
      = Cart.items (Cart.getCartForUser userCarts u now) ++ [line] /\
    Cart.price line = Product.price p /\ Cart.quantity line = q /\
    Cart.total line
    = PrimFloat.mul (ToNumber (Cart.quantity line)) (Cart.price line).
Proof.
  intros Hq Hp Ha Hs Hi. unfold Cart.add. rewrite Hq. simpl.
  rewrite Hp, Ha. simpl. rewrite Hs, Hi.
  eexists _, _, _, _, _. split; [reflexivity|]. simpl. auto.
Qed.

(** C9, the failing input.  The cart of "alice" holds one widget at the
    price of 10 it had when she added it; the price is 12 now.  Adding
    one more answers 200 with the line at quantity 2, stored price 10
    and total 24: the total is not the stored price times the quantity,
    and the stored price is not the current one. *)
Theorem add_keeps_stale_price :
  Product.price <$> Examples.shopRepriced !! "P" = Some 12%float
  /\ Cart.items <$> Examples.carts !! "alice"
     = Some [Examples.cartLine "P" 10 1; Examples.cartLine "Z" 4 2]
  /\ exists carts' line n t,
       Cart.add Examples.shopRepriced Examples.carts "alice" "P" (Num 1) 2000
         = (carts', Cart.Added (Some line) n t)
       /\ Cart.items <$> carts' !! "alice"
          = Some [line; Examples.cartLine "Z" 4 2]
       /\ Cart.quantity line = Num 2
       /\ Cart.price line = 10%float
       /\ Cart.total line = 24%float
       /\ PrimFloat.eqb (Cart.total line)
            (PrimFloat.mul (ToNumber (Cart.quantity line))
                           (Cart.price line)) = false.
Proof.
  split; [reflexivity|]. split; [reflexivity|].
  eexists _, _, _, _. split; [reflexivity|].
  repeat split.
Qed.

End CartAdd.

(** * Further properties of the modelled code *)

(** ** Lock and release *)

Section LockRelease.
Import Product.
Implicit Types (ps : gmap string doc) (p : doc) (id : string).

Lemma unlockProduct_holder ps id u p :
  ps !! id = Some p -> lockedBy p = Some u ->
  unlockProduct ps id u
  = (<[id := set_lock false None None p]> ps,
     Some (set_lock false None None p)).
Proof.
  intros Hp Hu. unfold unlockProduct. rewrite Hp.
  by destruct (decide (lockedBy p = Some u)).
Qed.

Lemma unlockProduct_not_holder ps id u p :
  ps !! id = Some p -> lockedBy p <> Some u ->
  unlockProduct ps id u = (ps, None).
Proof.
  intros Hp Hu. unfold unlockProduct. rewrite Hp.
  by destruct (decide (lockedBy p = Some u)).
Qed.

(** X1. Acquiring the lock on a product that carries no lock data and then
    releasing it as the same user gives back the store one started from,
    and the release returns the product as it was. *)
Theorem lock_unlock_roundtrip ps id u now p :
  ps !! id = Some p ->
  isLocked p = false -> lockedAt p = None -> lockedBy p = None ->
  exists ps1 p1,
    lockProduct ps id u now = inr (ps1, p1) /\
    unlockProduct ps1 id u = (ps, Some p).
Proof.
  intros Hp Hl Ha Hb.
  exists (<[id := set_lock true (Some now) (Some u) p]> ps),
         (set_lock true (Some now) (Some u) p).
  split.
  - apply lockProduct_inr. exists p. auto.
  - rewrite (unlockProduct_holder _ id u (set_lock true (Some now) (Some u) p))
      by (try apply lookup_insert_eq; done).
    assert (E : set_lock false None None (set_lock true (Some now) (Some u) p)
                = p).
    { destruct p; simpl in *; subst; reflexivity. }
    rewrite E, insert_insert_eq, insert_id by done. reflexivity.
Qed.

Lemma lock_unlock_roundtrip_witness :
  Examples.shop !! "P" = Some Examples.widget /\
  exists ps1 p1,
    lockProduct Examples.shop "P" "admin" 1000 = inr (ps1, p1) /\
    unlockProduct ps1 "P" "admin" = (Examples.shop, Some Examples.widget).
Proof.
  split; [reflexivity|].
  apply (lock_unlock_roundtrip Examples.shop "P" "admin" 1000 Examples.widget);
    reflexivity.
Defined.

(** X2. A release that comes late does not disturb a newer holder: once [B]
    has taken over the lock that [A] held, which it can only do more than
    five minutes after [A] took it, a release by [A] matches nothing,
    returns null and leaves the store, with the lock of [B], as it is. *)
Theorem late_release_keeps_newer_lock ps id A B t0 t1 ps1 p1 ps2 p2 :
  A <> B ->
  lockProduct ps id A t0 = inr (ps1, p1) ->
  lockProduct ps1 id B t1 = inr (ps2, p2) ->
  t0 + 300000 < t1 /\
  unlockProduct ps2 id A = (ps2, None) /\
  ps2 !! id = Some p2 /\
  isLocked p2 = true /\ lockedBy p2 = Some B /\ lockedAt p2 = Some t1.
Proof.
  intros Hne H1 H2.
  apply lockProduct_inr in H1 as (p & Hp & _ & -> & ->).
  apply lockProduct_inr in H2 as (q & Hq & Hc & -> & ->).
  rewrite lookup_insert_eq in Hq. injection Hq as <-.
  split.
  - destruct Hc as [Hc|(t & Ht & Hlt)]; [discriminate|].
    simpl in Ht. injection Ht as <-. unfold lockTimeoutMs in Hlt. lia.
  - split; [|by rewrite lookup_insert_eq].
    apply (unlockProduct_not_holder _ id A
             (set_lock true (Some t1) (Some B)
                (set_lock true (Some t0) (Some A) p))).
    + apply lookup_insert_eq.
    + simpl. congruence.
Qed.

Lemma late_release_keeps_newer_lock_witness :
  exists ps1 p1 ps2 p2,
    lockProduct Examples.shop "P" "admin" 1000 = inr (ps1, p1) /\
    lockProduct ps1 "P" "bob" 400000 = inr (ps2, p2) /\
    unlockProduct ps2 "P" "admin" = (ps2, None) /\
    lockedBy p2 = Some "bob".
Proof.
  eexists _, _, _, _. split; [reflexivity|]. split; [reflexivity|].
  destruct (late_release_keeps_newer_lock Examples.shop "P" "admin" "bob"
              1000 400000 _ _ _ _ ltac:(discriminate) eq_refl eq_refl)
    as (_ & Hu & _ & _ & Hb & _).
  split; [exact Hu|exact Hb].
Defined.

(** X3. While a product is locked no conditional stock adjustment commits on
    it, whoever asks (the holder included) and however old the lock is;
    the stock route answers without changing the store.  Once the holder
    has released the lock, an adjustment commits with the same stock and
    version as it would have had the lock never been taken: locking and
    releasing do not touch the version. *)
Theorem lock_blocks_adjustment ps id u now ps1 p1 :
  lockProduct ps id u now = inr (ps1, p1) ->
  (forall psRead d r, updateStockSafe_at psRead ps1 id d <> inr r) /\
  (forall b, (ProductRoutes.patchStock ps1 id b).1 = ps1) /\
  (forall b r, (ProductRoutes.patchStock ps1 id b).2 <> ProductRoutes.Ok 200 r) /\
  (forall d ps' p', updateStockSafe ps id d = inr (ps', p') ->
     exists ps2 p2,
       updateStockSafe (unlockProduct ps1 id u).1 id d = inr (ps2, p2) /\
       stock p2 = stock p' /\ version p2 = version p').
Proof.
  intros H. apply lockProduct_inr in H as (p & Hp & _ & -> & ->).
  assert (Blocked : forall psRead d r,
    updateStockSafe_at psRead
      (<[id := set_lock true (Some now) (Some u) p]> ps) id d <> inr r).
  { intros psRead d [ps' p'] Hr.
    apply updateStockSafe_at_inr in Hr as (p0 & q & _ & _ & Hq & _ & Hl & _).
    rewrite lookup_insert_eq in Hq. injection Hq as <-. discriminate. }
  split; [exact Blocked|].
  assert (Patch : forall b,
    (ProductRoutes.patchStock
       (<[id := set_lock true (Some now) (Some u) p]> ps) id b).1
    = <[id := set_lock true (Some now) (Some u) p]> ps
    /\ forall r,
      (ProductRoutes.patchStock
         (<[id := set_lock true (Some now) (Some u) p]> ps) id b).2
      <> ProductRoutes.Ok 200 r).
  { intros b. unfold ProductRoutes.patchStock.
    destruct (ProductRoutes.cb_truthy b); [|done].
    destruct (ProductRoutes.cb_parseInt b) as [d|]; [|done].
    unfold updateStockSafe.
    destruct (updateStockSafe_at _ _ id d) as [e|[ps' p']] eqn:E.
    - split; [done|]. intros r. by destruct e.
    - by destruct (Blocked _ _ _ E). }
  split; [intros b; apply Patch|]. split; [intros b; apply Patch|].
  intros d ps' p' Hok. unfold updateStockSafe in Hok.
  apply updateStockSafe_at_inr in Hok
    as (p0 & q & H0 & Hs & Hq & _ & Hl & -> & ->).
  rewrite Hp in H0, Hq. injection H0 as <-. injection Hq as <-.
  rewrite (unlockProduct_holder _ id u (set_lock true (Some now) (Some u) p))
    by (try apply lookup_insert_eq; done).
  simpl. rewrite insert_insert_eq.
  eexists _, _. split.
  - unfold updateStockSafe. apply updateStockSafe_at_inr.
    eexists _, _. rewrite lookup_insert_eq.
    split; [reflexivity|]. split; [simpl; lia|]. split; [reflexivity|].
    split; [reflexivity|]. split; [reflexivity|]. split; reflexivity.
  - split; reflexivity.
Qed.

Lemma lock_blocks_adjustment_witness :
  exists ps1 p1,
    lockProduct Examples.shop "P" "admin" 1000 = inr (ps1, p1) /\
    (ProductRoutes.patchStock ps1 "P" (ProductRoutes.readChange (Num 5))).1
    = ps1 /\
    exists ps2 p2,
      updateStockSafe (unlockProduct ps1 "P" "admin").1 "P" (-6)
        = inr (ps2, p2) /\ stock p2 = 4 /\ version p2 = 4.
Proof.
  eexists _, _. split; [reflexivity|].
  destruct (lock_blocks_adjustment Examples.shop "P" "admin" 1000 _ _ eq_refl)
    as (_ & Hpatch & _ & Hafter).
  split; [apply Hpatch|].
  destruct (Hafter (-6) _ _ eq_refl) as (ps2 & p2 & H2 & Hs & Hv).
  exists ps2, p2. split; [exact H2|]. split; [exact Hs|exact Hv].
Defined.

End LockRelease.

(** ** The product routes *)

Section ProductRouteFacts.
Import Product ProductRoutes.
Implicit Types (ps : gmap string doc) (p : doc) (id : string) (d : Z).

(** X4. The stock route, case by case, [b] being the body's
    [quantityChange].  A falsy body (the number 0, the empty string, no
    field) and a body of which [parseInt] makes no number are a bad
    request.  Every other body goes on with [parseInt] of it as the
    change: a missing product is a server error (not a 404); a change
    that would make the stock negative, or a set lock flag, is a 409; in
    all those cases the store is unchanged.  Otherwise the stock moves by
    [parseInt] of the body and the version by one; this includes a
    truthy body that parses to zero, such as the string ['0'] or the
    number 0.4, which commits an adjustment of zero and still advances
    the version. *)
Theorem patchStock_cases ps id b :
  (cb_truthy b = false \/ cb_parseInt b = None ->
     patchStock ps id b = (ps, BadRequest)) /\
  (forall d, cb_truthy b = true -> cb_parseInt b = Some d ->
     ps !! id = None ->
     patchStock ps id b = (ps, ServerError ProductNotFound)) /\
  (forall d p, cb_truthy b = true -> cb_parseInt b = Some d ->
     ps !! id = Some p -> stock p + d < 0 ->
     patchStock ps id b = (ps, Conflict InsufficientStock)) /\
  (forall d p, cb_truthy b = true -> cb_parseInt b = Some d ->
     ps !! id = Some p -> 0 <= stock p + d -> isLocked p = true ->
     patchStock ps id b = (ps, Conflict StockUpdateFailed)) /\
  (forall d p, cb_truthy b = true -> cb_parseInt b = Some d ->
     ps !! id = Some p -> 0 <= stock p + d -> isLocked p = false ->
     patchStock ps id b
     = (<[id := inc_stock_version d p]> ps, Ok 200 (inc_stock_version d p)) /\
     stock (inc_stock_version d p) = stock p + d /\
     version (inc_stock_version d p) = version p + 1).
Proof.
  unfold patchStock, updateStockSafe, updateStockSafe_at, readVersion, casStock.
  split; [|split; [|split; [|split]]].
  - intros [->| ->]; [done|]. by destruct (cb_truthy b).
  - intros d -> -> Hp. by rewrite Hp.
  - intros d p -> -> Hp Hneg. rewrite Hp.
    destruct (Z.ltb_spec (stock p + d) 0); [done|lia].
  - intros d p -> -> Hp Hok Hl. rewrite Hp.
    destruct (Z.ltb_spec (stock p + d) 0); [lia|].
    rewrite Hl, andb_false_r. done.
  - intros d p -> -> Hp Hok Hl. rewrite Hp.
    destruct (Z.ltb_spec (stock p + d) 0); [lia|].
    rewrite Hl, Z.eqb_refl. done.
Qed.

(** The number 0 and a string that is no number are refused; an unknown
    product is a server error; taking 11 of 10 is a conflict; taking 10
    of 10 commits; and the string ['0'], like the number 0.4 (truthy,
    parsed as 0), commits: the stock stays at 10 and the version goes
    from 3 to 4. *)
Lemma patchStock_cases_witness :
  patchStock Examples.shop "P" (readChange (Num 0))
    = (Examples.shop, BadRequest) /\
  patchStock Examples.shop "P" (readChange (Str "ten"))
    = (Examples.shop, BadRequest) /\
  patchStock Examples.shop "Q" (readChange (Num 1))
    = (Examples.shop, ServerError ProductNotFound) /\
  patchStock Examples.shop "P" (readChange (Num (-11)))
    = (Examples.shop, Conflict InsufficientStock) /\
  patchStock Examples.shop "P" (readChange (Str "-10"))
    = (<["P" := inc_stock_version (-10) Examples.widget]> Examples.shop,
       Ok 200 (inc_stock_version (-10) Examples.widget)) /\
  (exists p',
     patchStock Examples.shop "P" (readChange (Str "0"))
       = (<["P" := p']> Examples.shop, Ok 200 p') /\
     patchStock Examples.shop "P" {| cb_truthy := true; cb_parseInt := Some 0 |}
       = (<["P" := p']> Examples.shop, Ok 200 p') /\
     stock p' = 10 /\ version p' = 4).
Proof.
  destruct (patchStock_cases Examples.shop "P" (readChange (Num 0)))
    as (H0 & _).
  destruct (patchStock_cases Examples.shop "P" (readChange (Str "ten")))
    as (H0' & _).
  destruct (patchStock_cases Examples.shop "Q" (readChange (Num 1)))
    as (_ & H1 & _).
  destruct (patchStock_cases Examples.shop "P" (readChange (Num (-11))))
    as (_ & _ & H2 & _).
  destruct (patchStock_cases Examples.shop "P" (readChange (Str "-10")))
    as (_ & _ & _ & _ & H3).
  destruct (patchStock_cases Examples.shop "P" (readChange (Str "0")))
    as (_ & _ & _ & _ & H4).
  destruct (patchStock_cases Examples.shop "P"
              {| cb_truthy := true; cb_parseInt := Some 0 |})
    as (_ & _ & _ & _ & H5).
  split; [apply H0; by left|]. split; [apply H0'; by right|].
  split; [by apply (H1 1)|].
  split; [by apply (H2 (-11) Examples.widget)|].
  split; [by apply (H3 (-10) Examples.widget)|].
  exists (inc_stock_version 0 Examples.widget).
  split; [by apply (H4 0 Examples.widget)|].
  split; [by apply (H5 0 Examples.widget)|].
  split; reflexivity.
Defined.

(** X5. Creating a product never changes a product that is already stored,
    whatever the id and the body.  A body that passes
    [productValidation.create] (name of 2 to 100 characters after
    trimming, made of letters, digits, white space and [-_.,!];
    description of 10 to 1000 characters after trimming; price from 0 to
    999999; one of the six categories; stock not negative; image URL
    absent or a URL), with an unused id, is answered 201: the new product
    has the trimmed name, starts at version 1, unlocked, active, with
    nothing sold and the stock and price of the body.  A body that fails
    the validation is answered 400, and every answer other than 201
    leaves the store as it is. *)
Theorem createProduct_spec isURL ps newId body :
  (forall j p, ps !! j = Some p ->
     (createProduct isURL ps newId body).1 !! j = Some p) /\
  (ps !! newId = None -> createValid isURL body = true ->
   exists p,
     createProduct isURL ps newId body = (<[newId := p]> ps, Ok 201 p) /\
     version p = 1 /\ stock p = d_stock body /\ price p = d_price body /\
     name p = trim (d_name body) /\
     isLocked p = false /\ isActive p = true /\ totalSold p = 0) /\
  (createValid isURL body = false ->
     createProduct isURL ps newId body = (ps, BadRequest)) /\
  (namePatternOk (trim (d_name body)) = false ->
     createProduct isURL ps newId body = (ps, BadRequest)) /\
  ((forall st p, (createProduct isURL ps newId body).2 <> Ok st p) ->
     (createProduct isURL ps newId body).1 = ps).
Proof.
  unfold createProduct. split; [|split; [|split; [|split]]].
  - intros j p Hj. destruct (negb _); [done|].
    destruct (ps !! newId) eqn:Hn; [done|]. simpl.
    rewrite lookup_insert_ne; [done|congruence].
  - intros Hn Hv. rewrite Hn, Hv. simpl.
    eexists. split; [reflexivity|]. simpl. auto 10.
  - by intros ->.
  - intros Hpat. unfold createValid. rewrite Hpat.
    by rewrite andb_false_r.
  - intros Hno. destruct (negb _); [done|].
    destruct (ps !! newId); [done|]. simpl in *.
    exfalso. eapply Hno. reflexivity.
Qed.

(** A lamp is created at version 1 with its name trimmed; the same body
    with the name [a<b] is refused. *)
Lemma createProduct_spec_witness :
  Examples.shop !! "N" = None /\
  (exists p,
    createProduct (fun _ => true) Examples.shop "N" (Examples.lamp " Lamp ")
    = (<["N" := p]> Examples.shop, Ok 201 p) /\
    version p = 1 /\ stock p = 2 /\ name p = "Lamp") /\
  createProduct (fun _ => true) Examples.shop "N" (Examples.lamp "a<b")
  = (Examples.shop, BadRequest).
Proof.
  split; [reflexivity|].
  destruct (createProduct_spec (fun _ => true) Examples.shop "N"
              (Examples.lamp " Lamp "))
    as (_ & Hcreate & _).
  destruct (Hcreate eq_refl eq_refl) as (p & H & Hv & Hs & _ & Hn & _).
  destruct (createProduct_spec (fun _ => true) Examples.shop "N"
              (Examples.lamp "a<b"))
    as (_ & _ & _ & Hpat & _).
  split; [|by apply Hpat].
  exists p. split; [exact H|]. split; [exact Hv|]. split; [exact Hs|exact Hn].
Defined.

(** X6. The administrative update never changes the version, the lock data or
    the units sold of any product, and changes no product but the one it
    names; a body with a negative stock, a price outside 0..999999 or a
    name shorter than 2 or longer than 100 is refused and changes nothing. *)
Theorem updateProduct_frame ps id u :
  (forall j p, ps !! j = Some p ->
     exists p', (updateProduct ps id u).1 !! j = Some p' /\
       version p' = version p /\ isLocked p' = isLocked p /\
       lockedAt p' = lockedAt p /\ lockedBy p' = lockedBy p /\
       totalSold p' = totalSold p /\ (j <> id -> p' = p)) /\
  (updateValid u = false -> updateProduct ps id u = (ps, BadRequest)) /\
  (forall n, u_stock u = Some n -> n < 0 ->
     updateProduct ps id u = (ps, BadRequest)).
Proof.
  unfold updateProduct. split; [|split].
  - intros j p Hj. destruct (negb (updateValid u)); [exists p; auto 10|].
    destruct (ps !! id) as [q|] eqn:Hq; [|exists p; auto 10]. simpl.
    destruct (decide (id = j)) as [->|Hne].
    + rewrite lookup_insert_eq. rewrite Hj in Hq. injection Hq as <-.
      eexists. split; [reflexivity|]. simpl. repeat split; done.
    + rewrite lookup_insert_ne by done. exists p. auto 10.
  - by intros ->.
  - intros n Hn Hneg. unfold updateValid. rewrite Hn. simpl.
    destruct (Z.leb_spec 0 n); [lia|]. by rewrite andb_false_r.
Qed.

Lemma updateProduct_frame_witness :
  updateProduct Examples.shop "P" (Examples.setStock (-1))
  = (Examples.shop, BadRequest).
Proof.
  apply (proj2 (proj2 (updateProduct_frame Examples.shop "P"
                         (Examples.setStock (-1)))) (-1)).
  - reflexivity.
  - lia.
Defined.

End ProductRouteFacts.

(** ** What a created order does to the products *)

Section PlacementEffects.
Import Order OrderRoutes.
Implicit Types (ps : gmap string Product.doc) (s : State) (r : request).

Lemma linesFor_no_line pid lines :
  hasLine pid lines = false -> linesFor pid lines = 0.
Proof.
  induction lines as [|[k q] rest IH]; simpl; [done|].
  destruct (String.eqb k pid); simpl; [discriminate|].
  intros H. rewrite IH by done. lia.
Qed.

(** The decrement loop, run to its end, on every field of every product. *)
Lemma decrementStock_effect ps ois ps' :
  decrementStock ps ois = inr ps' ->
  (forall pid, ps !! pid = None -> ps' !! pid = None) /\
  forall pid p, ps !! pid = Some p ->
    exists p', ps' !! pid = Some p' /\
      Product.stock p' = Product.stock p - qtyFor pid (orderLines ois) /\
      Product.totalSold p' = Product.totalSold p + qtyFor pid (orderLines ois) /\
      Product.version p' = Product.version p + linesFor pid (orderLines ois) /\
      Product.price p' = Product.price p /\
      Product.name p' = Product.name p /\
      Product.isActive p' = Product.isActive p /\
      Product.isLocked p' = Product.isLocked p.
Proof.
  revert ps. induction ois as [|it rest IH]; intros ps; simpl.
  - intros [= <-]. split; [done|]. intros pid p Hp. exists p.
    repeat split; try done; lia.
  - destruct (Product.updateStockSafe ps (productId it) (- quantity it))
      as [e|[ps1 p1]] eqn:U; [discriminate|].
    unfold Product.updateStockSafe in U.
    apply updateStockSafe_at_inr in U
      as (p0 & q0 & H0 & Hs & Hq & _ & Hl & -> & ->).
    rewrite H0 in Hq. injection Hq as <-.
    intros H. destruct (IH _ H) as [IHn IHs]. split.
    + intros pid Hn. apply IHn.
      assert (productId it <> pid) by congruence.
      rewrite lookup_alter_ne by done. by rewrite lookup_insert_ne.
    + intros pid p Hp.
      destruct (String.eqb_spec (productId it) pid) as [Heq|Hne].
      * rewrite Heq in *. rewrite Hp in H0. injection H0 as <-.
        destruct (IHs pid
                    (Product.inc_totalSold (quantity it)
                       (Product.inc_stock_version (- quantity it) p)))
          as (p' & Hp' & Hst & Hts & Hv & Hrest).
        { by rewrite lookup_alter_eq, lookup_insert_eq. }
        exists p'. simpl in *. split; [done|].
        split; [lia|]. split; [lia|]. split; [lia|]. exact Hrest.
      * destruct (IHs pid p) as (p' & Hp' & Hst & Hts & Hv & Hrest).
        { rewrite lookup_alter_ne by done. by rewrite lookup_insert_ne. }
        exists p'. split; [done|].
        split; [lia|]. split; [lia|]. split; [lia|]. exact Hrest.
Qed.

(** X8. For a created order, every product has lost exactly the quantity
    ordered of it, over all lines of the request, and its units sold have
    grown by the same amount, so stock plus units sold is conserved; its
    version has grown by the number of lines for it; a product with a line
    ends with a stock that is not negative; price, name and flags are
    untouched and no product appears or disappears. *)
Theorem placeOrder_stock_effect s u r now s' o :
  placeOrder s u r now = (s', Created o) ->
  (forall pid, products s !! pid = None -> products s' !! pid = None) /\
  forall pid p, products s !! pid = Some p ->
    exists p', products s' !! pid = Some p' /\
      Product.stock p'
      = Product.stock p - qtyFor pid (requestLines (req_items r)) /\
      Product.totalSold p'
      = Product.totalSold p + qtyFor pid (requestLines (req_items r)) /\
      Product.stock p' + Product.totalSold p'
      = Product.stock p + Product.totalSold p /\
      Product.version p'
      = Product.version p + linesFor pid (requestLines (req_items r)) /\
      (hasLine pid (requestLines (req_items r)) = true ->
         0 <= Product.stock p') /\
      Product.price p' = Product.price p /\
      Product.isActive p' = Product.isActive p /\
      Product.isLocked p' = Product.isLocked p.
Proof.
  intros H.
  apply placeOrder_created in H
    as (ois & tot & os & ps' & C & D & _ & _ & _ & _ & _ & ->).
  apply collectItems_inr in C as (new & -> & _ & Hl & _). simpl in *.
  destruct (decrementStock_effect _ _ _ D) as [Hn Hs].
  split; [exact Hn|]. intros pid p Hp.
  destruct (Hs pid p Hp) as (p' & Hp' & Hst & Hts & Hv & Hpr & _ & Ha & Hlk).
  destruct (decrementStock_inr _ _ _ D pid p Hp) as (p'' & Hp'' & _ & _ & Hline).
  rewrite Hp' in Hp''. injection Hp'' as <-.
  rewrite Hl in *. exists p'. split; [done|]. split; [done|].
  split; [done|]. split; [lia|]. split; [done|].
  split; [intros HL; by apply Hline|]. auto.
Qed.

Lemma placeOrder_stock_effect_witness :
  exists s' o p',
    placeOrder Examples.start "alice"
      (Examples.request [Examples.line "P" 3; Examples.line "P" 2]) 1000
    = (s', Created o) /\
    products s' !! "P" = Some p' /\
    Product.stock p' = 5 /\ Product.totalSold p' = 5 /\
    Product.version p' = 5.
Proof.
  eexists _, _.
  destruct (proj2 (placeOrder_stock_effect Examples.start "alice"
      (Examples.request [Examples.line "P" 3; Examples.line "P" 2]) 1000
      _ _ eq_refl) "P" Examples.widget eq_refl)
    as (p' & Hp' & Hst & Hts & _ & Hv & _).
  exists p'. split; [reflexivity|]. split; [exact Hp'|].
  split; [exact Hst|]. split; [exact Hts|exact Hv].
Defined.

End PlacementEffects.

(** ** Cancellation: what is restored and what is not *)

Section CancellationEffects.
Import Order OrderRoutes.
Implicit Types (ps : gmap string Product.doc) (s : State) (r : request).

(** The restore loop, when it logs nothing, on every field of every
    product. *)
Lemma restoreStock_effect ps its ps' :
  restoreStock ps its = (ps', None) ->
  forall pid p, ps !! pid = Some p ->
    exists p', ps' !! pid = Some p' /\
      Product.stock p' = Product.stock p + qtyFor pid (orderLines its) /\
      Product.totalSold p' = Product.totalSold p /\
      Product.version p' = Product.version p + linesFor pid (orderLines its).
Proof.
  revert ps. induction its as [|it rest IH]; intros ps; simpl.
  - intros [= <-] pid p Hp. exists p. repeat split; try done; lia.
  - destruct (Product.updateStockSafe ps (productId it) (quantity it))
      as [e|[ps1 p1]] eqn:U; [discriminate|].
    unfold Product.updateStockSafe in U.
    apply updateStockSafe_at_inr in U
      as (p0 & q0 & H0 & _ & Hq & _ & _ & -> & ->).
    rewrite H0 in Hq. injection Hq as <-.
    intros H pid p Hp.
    destruct (String.eqb_spec (productId it) pid) as [Heq|Hne].
    + rewrite Heq in *. rewrite Hp in H0. injection H0 as <-.
      destruct (IH _ H pid (Product.inc_stock_version (quantity it) p))
        as (p' & Hp' & Hst & Hts & Hv).
      { by rewrite lookup_insert_eq. }
      exists p'. simpl in *. split; [done|]. split; [lia|].
      split; [done|lia].
    + destruct (IH _ H pid p) as (p' & Hp' & Hst & Hts & Hv).
      { by rewrite lookup_insert_ne. }
      exists p'. split; [done|]. split; [lia|]. split; [done|lia].
Qed.

(** The restore loop logs nothing when every line has a quantity that is
    not negative and a product that is stored, not locked and not in the
    red. *)
Lemma restoreStock_succeeds ps its :
  Forall (fun it => 0 <= quantity it /\
            exists p, ps !! productId it = Some p /\
              Product.isLocked p = false /\ 0 <= Product.stock p) its ->
  exists ps', restoreStock ps its = (ps', None).
Proof.
  revert ps. induction its as [|it rest IH]; intros ps Hall; simpl.
  - by eexists.
  - apply Forall_cons in Hall as [(Hq & p & Hp & Hl & Hs) Hrest].
    assert (U : Product.updateStockSafe ps (productId it) (quantity it)
                = inr (<[productId it := Product.inc_stock_version (quantity it) p]> ps,
                       Product.inc_stock_version (quantity it) p)).
    { unfold Product.updateStockSafe. apply updateStockSafe_at_inr.
      exists p, p. repeat split; try done. lia. }
    rewrite U. apply IH.
    eapply Forall_impl; [exact Hrest|].
    intros x (Hxq & px & Hpx & Hxl & Hxs). split; [done|].
    destruct (decide (productId it = productId x)) as [E|E].
    + rewrite <- E, lookup_insert_eq. rewrite <- E, Hp in Hpx.
      injection Hpx as <-. eexists. split; [reflexivity|]. simpl.
      split; [done|lia].
    + rewrite lookup_insert_ne by done. eauto.
Qed.

Lemma placeOrder_created_valid s u r now s' o :
  placeOrder s u r now = (s', Created o) ->
  forallb validItem (items o) = true.
Proof.
  unfold placeOrder, withTransaction, transactionBody.
  destruct (negb (validationOk r)); [discriminate|].
  destruct (length (req_items r) =? 0)%nat; [discriminate|].
  destruct (collectItems (products s) (req_items r) [] 0%float)
    as [e|[ois tot]] eqn:C; [by destruct e|].
  unfold createOrderWithTransaction.
  destruct (validData _) eqn:V; simpl; [|discriminate].
  destruct (existsb _ (orders s)); [discriminate|].
  destruct (decrementStock (products s) ois) as [e|ps'] eqn:D;
    [by destruct e|].
  intros [= <- <-]. simpl.
  unfold validData in V. simpl in V. by apply andb_prop in V as [V _].
Qed.

Lemma hasLine_order its it :
  In it its -> hasLine (productId it) (orderLines its) = true.
Proof.
  intros Hin. unfold hasLine. apply existsb_exists.
  exists (productId it, quantity it). split.
  - unfold orderLines. apply in_map_iff. eauto.
  - simpl. apply String.eqb_refl.
Qed.

(** X9. Placing an order and then cancelling it, with nothing in between:
    the cancellation is accepted and logs nothing, and every product gets
    back the stock it had before the order was placed.  The units sold
    are not taken back: they stay raised by the ordered quantity; and the
    version has moved twice per line. *)
Theorem place_then_cancel s u r now s1 o :
  placeOrder s u r now = (s1, Created o) ->
  exists s2,
    cancelOrder s1 u (length (orders s))
    = (s2, Updated (set_status cancelled o), None) /\
    forall pid p, products s !! pid = Some p ->
      exists p2, products s2 !! pid = Some p2 /\
        Product.stock p2 = Product.stock p /\
        Product.totalSold p2
        = Product.totalSold p + qtyFor pid (requestLines (req_items r)) /\
        Product.version p2
        = Product.version p + 2 * linesFor pid (requestLines (req_items r)).
Proof.
  intros H.
  pose proof (placeOrder_created_valid _ _ _ _ _ _ H) as Hvalid.
  apply placeOrder_created in H
    as (ois & tot & os & ps' & C & D & Hitems & _ & Hst & Hu & -> & ->).
  apply collectItems_inr in C as (new & -> & _ & Hl & Hf). simpl in *.
  destruct (decrementStock_effect _ _ _ D) as [_ Heff].
  assert (Hall : Forall (fun it => 0 <= quantity it /\
            exists p, ps' !! productId it = Some p /\
              Product.isLocked p = false /\ 0 <= Product.stock p) new).
  { rewrite Forall_forall. intros it Hin. apply list_elem_of_In in Hin.
    rewrite Hitems in Hvalid. rewrite forallb_forall in Hvalid.
    specialize (Hvalid it Hin). unfold validItem in Hvalid.
    apply andb_prop in Hvalid as [Hq _]. split; [lia|].
    rewrite Forall_forall in Hf.
    destruct (Hf it) as (p & Hp & _); [by apply list_elem_of_In|].
    destruct (decrementStock_inr _ _ _ D _ _ Hp)
      as (p' & Hp' & _ & Hlk & Hline).
    destruct (Hline (hasLine_order _ _ Hin)) as [Hunl Hpos].
    exists p'. split; [done|]. split; [congruence|done]. }
  destruct (restoreStock_succeeds _ _ Hall) as [ps2 R].
  eexists. split.
  - unfold cancelOrder. simpl.
    rewrite list_lookup_middle by done.
    rewrite Hu, String.eqb_refl, Hst. simpl. rewrite Hitems, R. reflexivity.
  - intros pid p Hp. simpl.
    destruct (Heff pid p Hp) as (p' & Hp' & Hs1 & Ht1 & Hv1 & _).
    destruct (restoreStock_effect _ _ _ R pid p' Hp')
      as (p2 & Hp2 & Hs2 & Ht2 & Hv2).
    rewrite Hl in *. exists p2. split; [done|].
    split; [lia|]. split; [lia|lia].
Qed.

Lemma place_then_cancel_witness :
  exists s1 o s2 p2,
    placeOrder Examples.start "alice"
      (Examples.request [Examples.line "P" 3]) 1000 = (s1, Created o) /\
    cancelOrder s1 "alice" 0 = (s2, Updated (set_status cancelled o), None) /\
    products s2 !! "P" = Some p2 /\
    Product.stock p2 = 10 /\ Product.totalSold p2 = 3 /\
    Product.version p2 = 5.
Proof.
  eexists _, _.
  destruct (place_then_cancel Examples.start "alice"
              (Examples.request [Examples.line "P" 3]) 1000 _ _ eq_refl)
    as (s2 & Hc & Hall).
  destruct (Hall "P" Examples.widget eq_refl) as (p2 & Hp2 & Hs & Ht & Hv).
  exists s2, p2. split; [reflexivity|]. split; [exact Hc|].
  split; [exact Hp2|]. split; [exact Hs|]. split; [exact Ht|exact Hv].
Defined.

(** X10. The administrative status route never changes a product and never
    logs a restore failure, whatever order and status it is given, the
    status [cancelled] included: the document it tests is the updated
    one, whose status is the one just set. *)
Theorem updateOrderStatus_never_restores s id st :
  products (updateOrderStatus s id st).1.1 = products s /\
  userCarts (updateOrderStatus s id st).1.1 = userCarts s /\
  (updateOrderStatus s id st).2 = None /\
  length (orders (updateOrderStatus s id st).1.1) = length (orders s).
Proof.
  unfold updateOrderStatus. destruct (orders s !! id) as [old|]; [|done].
  assert (E : bool_decide (st = cancelled)
              && negb (bool_decide (status_ (set_status st old) = cancelled))
              = false) by (by destruct st).
  rewrite E. simpl. repeat split. apply length_insert.
Qed.

(** The restore loop stops at the first adjustment that fails: the lines
    before it are given back, the failing line and every line after it
    are not, and the error of the failing line is the one logged. *)
Lemma restoreStock_stops ps pre it post ps1 e :
  restoreStock ps pre = (ps1, None) ->
  Product.updateStockSafe ps1 (productId it) (quantity it) = inl e ->
  restoreStock ps (pre ++ it :: post) = (ps1, Some e).
Proof.
  revert ps. induction pre as [|x pre IH]; intros ps; simpl.
  - intros [= <-] U. by rewrite U.
  - destruct (Product.updateStockSafe ps (productId x) (quantity x))
      as [e'|[ps' p']]; [discriminate|]. apply IH.
Qed.

(** X11. A customer cancellation that meets a locked product: the order is
    stored as cancelled all the same; the lines before the locked one are
    given back, the locked line and all lines after it are not; the
    failure is logged and not answered; and since the order is no longer
    pending, a further attempt is refused, so this route never gives the
    rest back. *)
Theorem cancelOrder_locked_line s u id o pre it post ps1 p :
  orders s !! id = Some o -> userId o = u -> status_ o = pending ->
  items o = pre ++ it :: post ->
  restoreStock (products s) pre = (ps1, None) ->
  ps1 !! productId it = Some p -> Product.isLocked p = true ->
  0 <= Product.stock p + quantity it ->
  cancelOrder s u id
  = ({| products := ps1;
        orders := <[id := set_status cancelled o]> (orders s);
        userCarts := userCarts s |},
     Updated (set_status cancelled o), Some StockUpdateFailed) /\
  cancelOrder {| products := ps1;
                 orders := <[id := set_status cancelled o]> (orders s);
                 userCarts := userCarts s |} u id
  = ({| products := ps1;
        orders := <[id := set_status cancelled o]> (orders s);
        userCarts := userCarts s |},
     CannotCancel cancelled, None).
Proof.
  intros Ho Hu Hs Hitems Hpre Hp Hl Hq.
  assert (U : Product.updateStockSafe ps1 (productId it) (quantity it)
              = inl StockUpdateFailed).
  { unfold Product.updateStockSafe, Product.updateStockSafe_at,
      Product.readVersion, Product.casStock. rewrite Hp.
    destruct (Z.ltb_spec (Product.stock p + quantity it) 0); [lia|].
    by rewrite Hl, andb_false_r. }
  split.
  - unfold cancelOrder. rewrite Ho, Hu, String.eqb_refl, Hs. simpl.
    rewrite Hitems, (restoreStock_stops _ _ _ _ _ _ Hpre U). reflexivity.
  - apply (cancelOrder_not_pending _ u id (set_status cancelled o)); simpl.
    + apply list_lookup_insert_eq. eapply lookup_lt_Some; eauto.
    + done.
    + done.
Qed.

Lemma cancelOrder_locked_line_witness :
  exists s',
    cancelOrder
      {| products := Examples.shopLocked;
         orders := [Examples.orderOf 0 pending]; userCarts := ∅ |} "alice" 0
    = (s', Updated (set_status cancelled (Examples.orderOf 0 pending)),
       Some StockUpdateFailed) /\
    products s' = Examples.shopLocked /\
    cancelOrder s' "alice" 0 = (s', CannotCancel cancelled, None).
Proof.
  destruct (cancelOrder_locked_line
              {| products := Examples.shopLocked;
                 orders := [Examples.orderOf 0 pending]; userCarts := ∅ |}
              "alice" 0 (Examples.orderOf 0 pending) []
              {| productId := "P"; productName := "Widget"; quantity := 3;
                 price := 10; total := 30 |} []
              Examples.shopLocked
              (Product.set_lock true (Some 0) (Some "admin") Examples.widget)
              eq_refl eq_refl eq_refl eq_refl eq_refl eq_refl eq_refl
              ltac:(simpl; lia)) as [H1 H2].
  eexists. split; [exact H1|]. split; [reflexivity|exact H2].
Defined.

(** X12. Orders are scoped to their owner: a caller who is not an admin reads
    an order only if it is the caller's own, while an admin reads any
    stored order; and the cancel route answers "not found" to a caller who
    does not own the order, changing nothing. *)
Theorem orders_owner_scoped s u id :
  (forall o, getOrder (orders s) u false id = Some o ->
     orders s !! id = Some o /\ userId o = u) /\
  (forall o, orders s !! id = Some o -> getOrder (orders s) u true id = Some o) /\
  (forall o, orders s !! id = Some o -> userId o <> u ->
     getOrder (orders s) u false id = None /\
     cancelOrder s u id = (s, OrderNotFound, None)).
Proof.
  unfold getOrder, cancelOrder. split; [|split].
  - intros o. destruct (orders s !! id) as [x|]; [|discriminate]. simpl.
    destruct (String.eqb_spec (userId x) u); [|discriminate].
    by intros [= <-].
  - by intros o ->.
  - intros o -> Hne. simpl.
    by destruct (String.eqb_spec (userId o) u).
Qed.

Lemma orders_owner_scoped_witness :
  getOrder (orders Examples.withOrders) "bob" false 2 = None /\
  cancelOrder Examples.withOrders "bob" 2
  = (Examples.withOrders, OrderNotFound, None).
Proof.
  apply (proj2 (proj2 (orders_owner_scoped Examples.withOrders "bob" 2))
           (Examples.orderOf 2 pending)).
  - reflexivity.
  - discriminate.
Defined.

End CancellationEffects.

(** ** Requests run one at a time: what stays true *)

Section Sequential.
Import Order OrderRoutes.
Implicit Types (ps : gmap string Product.doc) (s : State) (r : request).

Lemma alter_totalSold_nonneg ps id n :
  stocksNonNegative ps ->
  stocksNonNegative (alter (Product.inc_totalSold n) id ps).
Proof.
  intros Inv j q. destruct (decide (id = j)) as [->|Hne].
  - rewrite lookup_alter_eq. destruct (ps !! j) as [p|] eqn:Hp; [|done].
    simpl. intros [= <-]. simpl. by apply (Inv j).
  - rewrite lookup_alter_ne by done. apply Inv.
Qed.

Lemma decrementStock_nonneg ps ois ps' :
  decrementStock ps ois = inr ps' ->
  stocksNonNegative ps -> stocksNonNegative ps'.
Proof.
  revert ps. induction ois as [|it rest IH]; intros ps; simpl.
  - by intros [= <-].
  - destruct (Product.updateStockSafe ps (productId it) (- quantity it))
      as [e|[ps1 p1]] eqn:U; [discriminate|].
    intros H Inv. apply (IH _ H). apply alter_totalSold_nonneg.
    by destruct (updateStockSafe_invariant _ _ _ _ _ U Inv).
Qed.

Lemma restoreStock_nonneg ps its :
  stocksNonNegative ps -> stocksNonNegative (restoreStock ps its).1.
Proof.
  revert ps. induction its as [|it rest IH]; intros ps Inv; simpl; [done|].
  destruct (Product.updateStockSafe ps (productId it) (quantity it))
    as [e|[ps1 p1]] eqn:U; [done|].
  apply IH. by destruct (updateStockSafe_invariant _ _ _ _ _ U Inv).
Qed.

Lemma placeOrder_nonneg s u r now :
  stocksNonNegative (products s) ->
  stocksNonNegative (products (placeOrder s u r now).1).
Proof.
  intros Inv. unfold placeOrder, withTransaction, transactionBody.
  destruct (negb (validationOk r)); [done|].
  destruct (length (req_items r) =? 0)%nat; [done|].
  destruct (collectItems _ _ _ _) as [e|[ois tot]]; [done|].
  destruct (createOrderWithTransaction _ _ _) as [e|[os o]]; [done|].
  destruct (decrementStock (products s) ois) as [e|ps'] eqn:D; [done|].
  simpl. by apply (decrementStock_nonneg _ _ _ D).
Qed.

Lemma request_step_nonneg s s' :
  request_step s s' ->
  stocksNonNegative (products s) -> stocksNonNegative (products s').
Proof.
  intros Hstep Inv. destruct Hstep; simpl; try done.
  - by apply placeOrder_nonneg.
  - unfold cancelOrder. destruct (orders s !! id) as [o|]; [|done].
    destruct (negb _); [done|]. destruct (negb _); [done|].
    pose proof (restoreStock_nonneg _ (items (set_status cancelled o)) Inv).
    by destruct (restoreStock _ _).
  - unfold updateOrderStatus. destruct (orders s !! id) as [o|]; [|done].
    destruct (_ && _); [|done].
    pose proof (restoreStock_nonneg _ (items (set_status st o)) Inv).
    by destruct (restoreStock _ _).
  - unfold ProductRoutes.createProduct.
    destruct (ProductRoutes.createValid isURL body) eqn:V; simpl; [|done].
    destruct (products s !! newId) eqn:Hn; simpl; [done|].
    intros j q. destruct (decide (newId = j)) as [->|Hne].
    + rewrite lookup_insert_eq. intros [= <-]. simpl.
      unfold ProductRoutes.createValid in V.
      apply andb_prop in V as [V _]. apply andb_prop in V as [_ V]. lia.
    + rewrite lookup_insert_ne by done. apply Inv.
  - by apply updateProduct_stocksNonNegative.
  - by apply updateProduct_stocksNonNegative.
  - unfold ProductRoutes.patchStock.
    destruct (ProductRoutes.cb_truthy d); [|done].
    destruct (ProductRoutes.cb_parseInt d) as [n|]; [|done].
    destruct (Product.updateStockSafe _ _ _) as [e|[ps' p']] eqn:U; [done|].
    simpl. by destruct (updateStockSafe_invariant _ _ _ _ _ U Inv).
Qed.

(** X13. When requests run one at a time, no sequence of them, whatever the
    routes and their inputs, makes a stock negative. *)
Theorem sequential_stock_invariant s s' :
  stocksNonNegative (products s) -> rtc request_step s s' ->
  stocksNonNegative (products s').
Proof.
  intros Inv Hsteps. induction Hsteps as [|s s1 s2 Hstep _ IH]; [done|].
  apply IH. by apply (request_step_nonneg s).
Qed.

Lemma sequential_stock_invariant_witness :
  stocksNonNegative
    (products (placeOrder Examples.start "alice"
                 (Examples.request [Examples.line "P" 10]) 1000).1).
Proof.
  apply (sequential_stock_invariant Examples.start).
  - intros j p. destruct (decide (j = "P")) as [->|Hne].
    + intros H. vm_compute in H. injection H as <-. simpl. lia.
    + unfold Examples.start, Examples.shop. simpl.
      rewrite lookup_singleton_ne by done. discriminate.
  - apply rtc_once. apply req_placeOrder.
Defined.

Lemma set_status_same (o : doc) : set_status (status_ o) o = o.
Proof. by destruct o. Qed.

Lemma placeOrder_orders s u r now :
  orders (placeOrder s u r now).1 = orders s \/
  exists o,
    orders (placeOrder s u r now).1 = orders s ++ [o] /\
    _id o = length (orders s) /\
    orderNumber o = (now, Z.of_nat (length (orders s)) + 1) /\
    transactionId o = (now, slice_last 6 u) /\
    userId o = u /\ status_ o = pending.
Proof.
  unfold placeOrder, withTransaction, transactionBody.
  destruct (negb (validationOk r)); [by left|].
  destruct (length (req_items r) =? 0)%nat; [by left|].
  destruct (collectItems _ _ _ _) as [e|[ois tot]]; [by left|].
  unfold createOrderWithTransaction.
  destruct (negb (validData _)); [by left|].
  destruct (existsb _ (orders s)); [by left|].
  destruct (decrementStock (products s) ois) as [e|ps']; [by left|].
  right. simpl. eexists. split; [reflexivity|]. simpl. auto 10.
Qed.

Lemma request_step_orders s s' :
  request_step s s' ->
  (forall i o, orders s !! i = Some o ->
     exists st, orders s' !! i = Some (set_status st o)) /\
  (ordersNumbered (orders s) -> ordersNumbered (orders s')).
Proof.
  assert (Same : forall os : list doc,
    forall i o, os !! i = Some o ->
      exists st, os !! i = Some (set_status st o)).
  { intros os i o Hi. exists (status_ o). by rewrite set_status_same. }
  assert (Ins : forall (os : list doc) id x st,
    os !! id = Some x ->
    (forall i o, os !! i = Some o ->
       exists st', <[id := set_status st x]> os !! i = Some (set_status st' o))
    /\ (ordersNumbered os -> ordersNumbered (<[id := set_status st x]> os))).
  { intros os id x st Hx. split.
    - intros i o Hi. destruct (decide (i = id)) as [->|Hne].
      + rewrite Hx in Hi. injection Hi as <-. exists st.
        apply list_lookup_insert_eq. eapply lookup_lt_Some; eauto.
      + rewrite list_lookup_insert_ne by done. by apply Same.
    - intros N i o. destruct (decide (i = id)) as [->|Hne].
      + rewrite list_lookup_insert_eq by (eapply lookup_lt_Some; eauto).
        intros [= <-]. simpl. by apply N.
      + rewrite list_lookup_insert_ne by done. apply N. }
  intros Hstep. destruct Hstep; simpl; try (split; [by apply Same|done]).
  - destruct (placeOrder_orders s u r now)
      as [->|(o & -> & Hid & Hnum & _)]; [split; [by apply Same|done]|].
    split.
    + intros i x Hi. exists (status_ x). rewrite set_status_same.
      by apply lookup_app_l_Some.
    + intros N i x Hi. apply lookup_app_Some in Hi as [Hi|[Hge Hi]].
      * by apply N.
      * apply list_lookup_singleton_Some in Hi as [Hz <-].
        assert (i = length (orders s)) as -> by lia.
        rewrite Hid, Hnum. done.
  - unfold cancelOrder. destruct (orders s !! id) as [o|] eqn:Ho;
      [|split; [by apply Same|done]].
    destruct (negb _); [split; [by apply Same|done]|].
    destruct (negb _); [split; [by apply Same|done]|].
    destruct (restoreStock _ _). simpl. by apply Ins.
  - unfold updateOrderStatus. destruct (orders s !! id) as [o|] eqn:Ho;
      [|split; [by apply Same|done]].
    destruct (_ && _); [destruct (restoreStock _ _)|]; simpl; by apply Ins.
Qed.

(** X14. Orders are permanent.  Over any sequence of requests run one at a
    time, an order stays at its position and only its status can change:
    owner, lines, total amount, order number, transaction id, address and
    payment data stay as created.  When every order sits at the position
    its id names and carries that position's number, this stays so, and
    then no two stored orders share an order number. *)
Theorem orders_permanent s s' :
  rtc request_step s s' ->
  (forall i o, orders s !! i = Some o ->
     exists st, orders s' !! i = Some (set_status st o)) /\
  (ordersNumbered (orders s) ->
     ordersNumbered (orders s') /\
     forall i j oi oj,
       orders s' !! i = Some oi -> orders s' !! j = Some oj ->
       orderNumber oi = orderNumber oj -> i = j).
Proof.
  intros Hsteps. induction Hsteps as [s|s s1 s2 Hstep _ [IH1 IH2]].
  - split.
    + intros i o Hi. exists (status_ o). by rewrite set_status_same.
    + intros N. split; [done|]. intros i j oi oj Hi Hj E.
      destruct (N _ _ Hi) as [_ Ni]. destruct (N _ _ Hj) as [_ Nj].
      rewrite E in Ni. lia.
  - destruct (request_step_orders _ _ Hstep) as [S1 S2]. split.
    + intros i o Hi. destruct (S1 _ _ Hi) as [st Hst].
      destruct (IH1 _ _ Hst) as [st' Hst']. exists st'.
      by rewrite Hst'.
    + intros N. apply IH2. by apply S2.
Qed.

Lemma orders_permanent_witness :
  exists st,
    orders (updateOrderStatus
              (cancelOrder Examples.withOrders "alice" 2).1.1 2 shipped).1.1
      !! 2%nat
    = Some (set_status st (Examples.orderOf 2 pending)).
Proof.
  apply (proj1 (orders_permanent Examples.withOrders _
    (rtc_l _ _ _ _ (req_cancelOrder Examples.withOrders "alice" 2)
       (rtc_once _ _ (req_updateOrderStatus _ 2 shipped))))).
  reflexivity.
Defined.

Lemma collectItems_inl ps its acc tot e :
  collectItems ps its acc tot = inl e -> placeErrorResponse e = Conflict e.
Proof.
  revert acc tot. induction its as [|it rest IH]; intros acc tot; simpl;
    [discriminate|].
  destruct (ps !! r_productId it) as [p|]; [|by intros [= <-]].
  destruct (negb (Product.isActive p)); [by intros [= <-]|].
  destruct (Product.stock p <? r_quantity it); [by intros [= <-]|].
  apply IH.
Qed.

(** X15. Two orders cannot be created at the same instant by users whose ids
    end in the same six characters, in particular by the same user: the
    transaction id of the first is taken, the second attempt is answered
    with an error and leaves the state as it is. *)
Theorem same_instant_orders_collide s u u2 r now s1 o :
  placeOrder s u r now = (s1, Created o) ->
  slice_last 6 u2 = slice_last 6 u ->
  forall r2, exists resp,
    placeOrder s1 u2 r2 now = (s1, resp) /\
    (forall o2, resp <> Created o2) /\
    (resp = ValidationFailed \/ resp = NoItems \/
     (exists e, resp = Conflict e) \/ resp = ServerError ValidationError \/
     resp = ServerError DuplicateKey).
Proof.
  intros H Hu r2.
  destruct (placeOrder_orders s u r now) as [Hsame|(x & Hos & _ & _ & Htx & _)].
  { exfalso. rewrite H in Hsame. simpl in Hsame.
    destruct (placeOrder_created _ _ _ _ _ _ H)
      as (? & ? & ? & ? & _ & _ & _ & _ & _ & _ & -> & ->).
    simpl in Hsame.
    apply (f_equal length) in Hsame. rewrite length_app in Hsame.
    simpl in Hsame. lia. }
  rewrite H in Hos. simpl in Hos.
  assert (Hdup : forall d,
    transactionId d = (now, slice_last 6 u2) ->
    existsb (fun o0 => bool_decide (orderNumber o0 = orderNumber d)
                       || bool_decide (transactionId o0 = transactionId d))
            (orders s1) = true).
  { intros d Hd. apply existsb_exists. exists x. split.
    - rewrite Hos. apply in_or_app. right. by left.
    - rewrite Hd, Htx, Hu. rewrite (bool_decide_eq_true_2 _ eq_refl).
      apply orb_true_r. }
  unfold placeOrder, withTransaction, transactionBody.
  destruct (negb (validationOk r2)); [by eexists; auto 10|].
  destruct (length (req_items r2) =? 0)%nat; [by eexists; auto 10|].
  destruct (collectItems _ _ _ _) as [e|[ois tot]] eqn:C.
  { exists (placeErrorResponse e). split; [done|].
    rewrite (collectItems_inl _ _ _ _ _ C). split; [done|]. eauto 10. }
  unfold createOrderWithTransaction.
  destruct (negb (validData _)); [by eexists; auto 10|].
  rewrite Hdup by done. eexists; auto 10.
Qed.

End Sequential.

Section SameInstant.
Import Order OrderRoutes.

Lemma same_instant_orders_collide_witness :
  exists s1 o,
    placeOrder Examples.start "shop-alice"
      (Examples.request [Examples.line "P" 3]) 1000 = (s1, Created o) /\
    placeOrder s1 "shop-alice" (Examples.request [Examples.line "P" 1]) 1000
    = (s1, ServerError DuplicateKey) /\
    exists resp,
      placeOrder s1 "mall-alice" (Examples.request [Examples.line "P" 1]) 1000
      = (s1, resp) /\ forall o2, resp <> Created o2.
Proof.
  eexists _, _. split; [reflexivity|]. split; [reflexivity|].
  destruct (same_instant_orders_collide Examples.start "shop-alice"
              "mall-alice"
              (Examples.request [Examples.line "P" 3]) 1000 _ _
              eq_refl eq_refl (Examples.request [Examples.line "P" 1]))
    as (resp & H1 & H2 & _).
  exists resp. split; [exact H1|exact H2].
Defined.

End SameInstant.

(** ** Soft delete *)

Section SoftDelete.
Import Product ProductRoutes.
Implicit Types (ps : gmap string doc) (p : doc) (id : string).

(** X7. Deleting a product keeps it in the store with only its active flag
    turned off.  From then on it cannot be added to a cart (404) and an
    order that names it is refused with the state unchanged; its stock
    can still be adjusted, since the conditional adjustment does not look
    at the flag; and deleting it again changes nothing. *)
Theorem deleteProduct_spec ps id p :
  ps !! id = Some p ->
  exists p',
    deleteProduct ps id = (<[id := p']> ps, Ok 200 p') /\
    isActive p' = false /\
    stock p' = stock p /\ version p' = version p /\ price p' = price p /\
    name p' = name p /\ totalSold p' = totalSold p /\
    isLocked p' = isLocked p /\
    (forall carts u pid q now, castObjectId pid = id -> isInt 1 50 q = true ->
       Cart.add (<[id := p']> ps) carts u pid q now = (carts, Cart.NotFound)) /\
    (forall s u r now it,
       products s = <[id := p']> ps ->
       In it (OrderRoutes.req_items r) -> OrderRoutes.r_productId it = id ->
       exists resp, OrderRoutes.placeOrder s u r now = (s, resp) /\
                    forall o, resp <> OrderRoutes.Created o) /\
    (forall d, isLocked p = false -> 0 <= stock p + d ->
       exists ps2 p2, updateStockSafe (<[id := p']> ps) id d = inr (ps2, p2) /\
                      stock p2 = stock p + d /\ isActive p2 = false) /\
    (deleteProduct (<[id := p']> ps) id).1 = <[id := p']> ps.
Proof.
  intros Hp. unfold deleteProduct, updateProduct. simpl. rewrite Hp.
  eexists. split; [reflexivity|]. simpl.
  repeat (split; [reflexivity|]). split; [|split; [|split]].
  - intros carts u pid q now Hid Hq. apply add_not_found; [done|]. right.
    eexists. by rewrite Hid, lookup_insert_eq.
  - intros s u r now it Hs Hin Hid.
    assert (Hfail : lineFails (products s) (OrderRoutes.req_items r) it = true).
    { unfold lineFails. by rewrite Hs, Hid, lookup_insert_eq. }
    destruct (transactionBody_fails s u r now it Hin Hfail) as [e He].
    unfold OrderRoutes.placeOrder, OrderRoutes.withTransaction. rewrite He.
    destruct (negb (OrderRoutes.validationOk r)); [by eexists|].
    destruct (length (OrderRoutes.req_items r) =? 0)%nat; [by eexists|].
    exists (OrderRoutes.placeErrorResponse e). split; [done|].
    intros o. by destruct e.
  - intros d Hl Hd. eexists _, _. split.
    + unfold updateStockSafe. apply updateStockSafe_at_inr.
      eexists _, _. rewrite lookup_insert_eq.
      split; [reflexivity|]. split; [simpl; lia|]. split; [reflexivity|].
      split; [reflexivity|]. split; [exact Hl|]. split; reflexivity.
    + split; reflexivity.
  - rewrite lookup_insert_eq. simpl. rewrite insert_insert_eq. reflexivity.
Qed.

Lemma deleteProduct_spec_witness :
  Examples.shop !! "P" = Some Examples.widget /\
  exists p',
    deleteProduct Examples.shop "P" = (<["P" := p']> Examples.shop, Ok 200 p') /\
    isActive p' = false /\ stock p' = 10 /\
    Cart.add (<["P" := p']> Examples.shop) Examples.carts "bob" "P" (Num 1)
             2000
    = (Examples.carts, Cart.NotFound).
Proof.
  split; [reflexivity|].
  destruct (deleteProduct_spec Examples.shop "P" Examples.widget eq_refl)
    as (p' & H & Ha & Hs & _ & _ & _ & _ & _ & Hadd & _).
  exists p'. split; [exact H|]. split; [exact Ha|]. split; [exact Hs|].
  apply Hadd; reflexivity.
Defined.

End SoftDelete.

(** ** The carts *)

Section CartFacts.
Import Cart.
Implicit Types (ps : gmap string Product.doc) (carts : gmap string cart)
  (l : list item).

Lemma findIndex_Some {A} (f : A -> bool) (xs : list A) i :
  findIndex f xs = Some i ->
  exists x, xs !! i = Some x /\ f x = true /\
    forall j y, (j < i)%nat -> xs !! j = Some y -> f y = false.
Proof.
  revert i. induction xs as [|a xs IH]; intros i; simpl; [discriminate|].
  destruct (f a) eqn:Fa.
  - intros [= <-]. exists a. split; [done|]. split; [done|]. intros j y Hj. lia.
  - destruct (findIndex f xs) as [k|]; simpl; [|discriminate].
    intros [= <-]. destruct (IH k eq_refl) as (x & Hx & Fx & Hbefore).
    exists x. split; [done|]. split; [done|].
    intros [|j] y Hj; simpl.
    + by intros [= <-].
    + apply Hbefore. lia.
Qed.

Lemma findIndex_None {A} (f : A -> bool) (xs : list A) :
  findIndex f xs = None -> Forall (fun x => f x = false) xs.
Proof.
  induction xs as [|a xs IH]; simpl; [constructor|].
  destruct (f a) eqn:Fa; [discriminate|].
  destruct (findIndex f xs); simpl; [discriminate|].
  intros _. constructor; auto.
Qed.

(** X16. [findIndex] answers the position of the first element that satisfies
    the test, and nothing exactly when no element does. *)
Theorem findIndex_spec {A} (f : A -> bool) (xs : list A) :
  (forall i, findIndex f xs = Some i <->
     exists x, xs !! i = Some x /\ f x = true /\
       forall j y, (j < i)%nat -> xs !! j = Some y -> f y = false) /\
  (findIndex f xs = None <-> Forall (fun x => f x = false) xs).
Proof.
  split.
  - intros i. split; [apply findIndex_Some|].
    revert i. induction xs as [|a xs IH]; intros i (x & Hx & Fx & Hb).
    + discriminate.
    + destruct i as [|i]; simpl in *.
      * injection Hx as <-. by rewrite Fx.
      * rewrite (Hb 0%nat a) by (try lia; done).
        rewrite (IH i); [done|]. exists x. split; [done|]. split; [done|].
        intros j y Hj Hy. apply (Hb (S j)); [lia|done].
  - split; [apply findIndex_None|].
    induction 1 as [|a xs Fa _ IH]; simpl; [done|]. by rewrite Fa, IH.
Qed.

Lemma findIndex_spec_witness :
  findIndex (fun n => 2 <? n) [1; 5; 7] = Some 1%nat.
Proof.
  apply (proj1 (findIndex_spec (fun n => 2 <? n) [1; 5; 7])).
  exists 5. split; [reflexivity|]. split; [reflexivity|].
  intros [|j] y Hj; [|lia]. by intros [= <-].
Defined.

Lemma find_insert_first {A} (f : A -> bool) (xs : list A) i y :
  findIndex f xs = Some i -> f y = true -> find f (<[i := y]> xs) = Some y.
Proof.
  revert i. induction xs as [|a xs IH]; intros i; simpl; [discriminate|].
  destruct (f a) eqn:Fa.
  - intros [= <-] Fy. simpl. by rewrite Fy.
  - destruct (findIndex f xs) as [k|]; simpl; [|discriminate].
    intros [= <-] Fy. simpl. rewrite Fa. by apply IH.
Qed.

Lemma find_app_new {A} (f : A -> bool) (xs : list A) y :
  findIndex f xs = None -> f y = true -> find f (xs ++ [y]) = Some y.
Proof.
  induction xs as [|a xs IH]; simpl.
  - intros _ ->. done.
  - destruct (f a) eqn:Fa; [discriminate|].
    destruct (findIndex f xs); simpl; [discriminate|]. auto.
Qed.

(** Once the running count is a string it stays one. *)
Lemma count_from_Str l s :
  exists s',
    fold_left (fun sum it => js_add sum (quantity it)) l (Str s) = Str s'.
Proof.
  revert s. induction l as [|x l IH]; intros s; [by eexists|].
  cbn [fold_left js_add]. apply IH.
Qed.

(** A count that is a number comes from quantities that are all numbers,
    and is their sum. *)
Lemma count_from_Num l a c :
  fold_left (fun sum it => js_add sum (quantity it)) l (Num a) = Num c ->
  Forall (fun it => isNum (quantity it) = true) l /\ c = a + sumQty l.
Proof.
  revert a. induction l as [|x l IH]; intros a; cbn [fold_left sumQty].
  - intros [= <-]. split; [constructor|lia].
  - destruct (quantity x) as [z|s] eqn:Q; cbn [js_add].
    + intros H. apply IH in H as [Hall ->]. split.
      * constructor; [by rewrite Q|done].
      * simpl. lia.
    + intros H.
      destruct (count_from_Str l (String.append (ToString (Num a)) (ToString (Str s))))
        as [s' Hs'].
      rewrite Hs' in H. discriminate.
Qed.

Lemma count_numeric l a :
  Forall (fun it => isNum (quantity it) = true) l ->
  fold_left (fun sum it => js_add sum (quantity it)) l (Num a)
  = Num (a + sumQty l).
Proof.
  intros H. revert a.
  induction H as [|x l Hx _ IH]; intros a; cbn [fold_left sumQty].
  - f_equal. lia.
  - destruct (quantity x) as [z|s]; [|discriminate].
    cbn [js_add numQty]. rewrite IH. f_equal. lia.
Qed.

Lemma sumQty_app l k : sumQty (l ++ k) = sumQty l + sumQty k.
Proof.
  induction l as [|x l IH]; [done|].
  simpl. rewrite IH. lia.
Qed.

Lemma sumQty_insert l i x y :
  l !! i = Some x ->
  sumQty (<[i := y]> l)
  = sumQty l - numQty (quantity x) + numQty (quantity y).
Proof.
  revert i. induction l as [|a l IH]; intros i; [discriminate|].
  destruct i as [|i]; simpl.
  - intros [= <-]. lia.
  - intros Hi. rewrite (IH i Hi). lia.
Qed.

Lemma sumQty_delete l i x :
  l !! i = Some x -> sumQty (delete i l) = sumQty l - numQty (quantity x).
Proof.
  revert i. induction l as [|a l IH]; intros i; [discriminate|].
  destruct i as [|i]; simpl.
  - intros [= <-]. lia.
  - intros Hi. rewrite (IH i Hi). lia.
Qed.

Lemma itemCount_insert l i x y c z :
  itemCount l = Num c -> l !! i = Some x -> quantity y = Num z ->
  itemCount (<[i := y]> l) = Num (c - numQty (quantity x) + z).
Proof.
  intros Hc Hx Hy. apply count_from_Num in Hc as [Hall ->].
  unfold itemCount. rewrite count_numeric.
  - rewrite (sumQty_insert _ _ x) by done. rewrite Hy. simpl. f_equal; lia.
  - apply Forall_insert; [done|]. by rewrite Hy.
Qed.

Lemma itemCount_delete l i x c :
  itemCount l = Num c -> l !! i = Some x ->
  itemCount (delete i l) = Num (c - numQty (quantity x)).
Proof.
  intros Hc Hx. apply count_from_Num in Hc as [Hall ->].
  unfold itemCount. rewrite count_numeric.
  - rewrite (sumQty_delete _ _ x) by done. f_equal; lia.
  - by apply Forall_delete.
Qed.

Lemma itemCount_app_one l y c z :
  itemCount l = Num c -> quantity y = Num z ->
  itemCount (l ++ [y]) = Num (c + z).
Proof.
  intros Hc Hy. apply count_from_Num in Hc as [Hall ->].
  unfold itemCount. rewrite count_numeric.
  - rewrite sumQty_app. simpl. rewrite Hy. simpl. f_equal; lia.
  - apply Forall_app. split; [done|]. constructor; [by rewrite Hy|done].
Qed.

Lemma itemCount_line_Num l i x c :
  itemCount l = Num c -> l !! i = Some x -> exists k, quantity x = Num k.
Proof.
  intros Hc Hx. apply count_from_Num in Hc as [Hall _].
  rewrite Forall_lookup in Hall. specialize (Hall i x Hx).
  destruct (quantity x) as [k|]; [by exists k|discriminate].
Qed.

(** X17. Adding to a cart never answers 500 and never touches the cart of
    another user; any answer other than 200 leaves all carts as they
    were.  On a 200 the body's quantity passed [isInt] from 1 to 50, the
    product found under the cast id is stored and active, and the line
    answered is the line now stored under the body's [productId] string.
    For a string not yet in the cart that is a new line at the end, with
    the body's quantity as it came and the product's price; otherwise
    the first line with that string keeps its price and gets
    [existing.quantity + quantity]: the sum of two numbers, and the
    concatenation of the two texts as soon as one of them is a string.
    The line's total is its quantity, as a number, times the product's
    price, and the product's stock is not below the line's quantity.
    When the item count before and the body's quantity are numbers, the
    item count answered is the count before plus that quantity, and the
    line's quantity is a number within the stock. *)
Theorem add_spec ps carts u pid q now :
  (add ps carts u pid q now).2 <> ServerError /\
  (forall u', u' <> u -> (add ps carts u pid q now).1 !! u' = carts !! u') /\
  (http_status (add ps carts u pid q now).2 <> 200 ->
     (add ps carts u pid q now).1 = carts) /\
  (forall found n t, (add ps carts u pid q now).2 = Added found n t ->
     exists p line its,
       ps !! castObjectId pid = Some p /\ Product.isActive p = true /\
       isInt 1 50 q = true /\
       found = Some line /\ productId line = pid /\
       (add ps carts u pid q now).1 !! u
       = Some {| items := its; updatedAt := now |} /\
       In line its /\ n = itemCount its /\
       (findIndex (fun it => String.eqb (productId it) pid)
                  (items (getCartForUser carts u now)) = None ->
          its = items (getCartForUser carts u now) ++ [line] /\
          quantity line = q /\ price line = Product.price p) /\
       (forall i x,
          findIndex (fun it => String.eqb (productId it) pid)
                    (items (getCartForUser carts u now)) = Some i ->
          items (getCartForUser carts u now) !! i = Some x ->
          its = <[i := line]> (items (getCartForUser carts u now)) /\
          quantity line = js_add (quantity x) q /\ price line = price x) /\
       total line = PrimFloat.mul (ToNumber (quantity line)) (Product.price p) /\
       lt_number (Product.stock p) (quantity line) = false /\
       (forall c z,
          itemCount (items (getCartForUser carts u now)) = Num c ->
          q = Num z ->
          n = Num (c + z) /\
          exists k, quantity line = Num k /\ k <= Product.stock p)).
Proof.
  unfold add.
  destruct (isInt 1 50 q) eqn:Hq; simpl;
    [|repeat split; try done; intros; discriminate].
  destruct (ps !! castObjectId pid) as [p|] eqn:Hp;
    [|repeat split; try done; intros; discriminate].
  destruct (Product.isActive p) eqn:Ha; simpl;
    [|repeat split; try done; intros; discriminate].
  destruct (lt_number (Product.stock p) q) eqn:Hs;
    [repeat split; try done; intros; discriminate|].
  set (l := items (getCartForUser carts u now)).
  set (same := fun it : item => String.eqb (productId it) pid).
  destruct (findIndex same l) as [i|] eqn:Hi.
  - destruct (findIndex_Some _ _ _ Hi) as (x & Hx & Fx & _). rewrite Hx.
    destruct (lt_number (Product.stock p) (js_add (quantity x) q)) eqn:Hs2;
      [repeat split; try done; intros; discriminate|].
    simpl. split; [done|]. split; [intros u' Hne; by rewrite lookup_insert_ne|].
    split; [done|]. intros found n t [= <- <- <-].
    set (y := setQuantityTotal (js_add (quantity x) q)
                (PrimFloat.mul (ToNumber (js_add (quantity x) q))
                               (Product.price p)) x).
    assert (Fy : same y = true) by exact Fx.
    exists p, y, (<[i := y]> l). rewrite lookup_insert_eq.
    split; [done|]. split; [done|]. split; [done|].
    split; [by apply find_insert_first|].
    split; [by apply String.eqb_eq in Fx|].
    split; [done|]. split.
    { apply list_elem_of_In, list_elem_of_lookup. exists i.
      apply list_lookup_insert_eq. eapply lookup_lt_Some; eauto. }
    split; [done|]. split; [discriminate|]. split.
    { intros i' x' [= <-] Hx'. rewrite Hx in Hx'. injection Hx' as <-. done. }
    split; [done|]. split; [exact Hs2|].
    intros c z Hc ->.
    destruct (itemCount_line_Num _ _ _ _ Hc Hx) as [k Hk].
    assert (Hy : quantity y = Num (k + z)) by (simpl; by rewrite Hk).
    split.
    + rewrite (itemCount_insert l i x y c (k + z)) by done.
      rewrite Hk. simpl. f_equal. lia.
    + exists (k + z). split; [done|].
      rewrite Hk in Hs2. unfold lt_number in Hs2. simpl in Hs2.
      by apply Z.ltb_ge in Hs2.
  - simpl. split; [done|]. split; [intros u' Hne; by rewrite lookup_insert_ne|].
    split; [done|]. intros found n t [= <- <- <-].
    eexists p, _, _. rewrite lookup_insert_eq.
    split; [done|]. split; [done|]. split; [done|].
    split; [apply find_app_new; [done|apply String.eqb_refl]|].
    split; [done|]. split; [done|].
    split; [apply in_or_app; right; by left|].
    split; [done|]. split; [done|]. split; [discriminate|].
    split; [done|]. split; [exact Hs|].
    intros c z Hc ->. split.
    + by apply itemCount_app_one.
    + exists z. split; [done|].
      unfold lt_number in Hs. simpl in Hs. by apply Z.ltb_ge in Hs.
Qed.

(** Three more widgets for "bob", who holds two: the line answered has
    quantity 5, the count is 5, and the cart of "alice" stays as it is. *)
Lemma add_spec_witness :
  exists line,
    (add Examples.shop Examples.carts "bob" "P" (Num 3) 2000).2
    = Added (Some line) (Num 5) (round2 50) /\
    quantity line = Num 5 /\
    (add Examples.shop Examples.carts "bob" "P" (Num 3) 2000).1 !! "alice"
    = Examples.carts !! "alice".
Proof.
  eexists. split; [reflexivity|]. split; [reflexivity|].
  apply (proj1 (proj2 (add_spec Examples.shop Examples.carts "bob" "P"
                         (Num 3) 2000))).
  discriminate.
Defined.

(** A quantity sent as the string ['2'] passes [isInt] and is stored as
    that string, and the item count answered is the text ['02'].  Adding
    the number 1 to that line makes its quantity the text ['21'], with a
    total of 21 times the price. *)
Lemma add_string_quantity :
  exists carts1 line1 t1 carts2 line2 n2 t2,
    add (products Examples.kettleShop) ∅ "alice" Examples.kettleId
        (Str "2") 100
    = (carts1, Added (Some line1) (Str "02") t1) /\
    quantity line1 = Str "2" /\
    add (products Examples.kettleShop) carts1 "alice" Examples.kettleId
        (Num 1) 200
    = (carts2, Added (Some line2) n2 t2) /\
    quantity line2 = Str "21" /\ n2 = Str "021" /\
    total line2 = 525%float.
Proof.
  eexists _, _, _, _, _, _, _.
  split; [reflexivity|]. split; [reflexivity|].
  split; [vm_compute; reflexivity|]. split; [reflexivity|].
  split; reflexivity.
Qed.

(** The product is found by its id in either spelling, but the line of
    the cart is found by the string itself: the same product sent under
    another spelling of its id gets a second line. *)
Lemma add_other_spelling :
  castObjectId Examples.kettleIdCaps = Examples.kettleId /\
  exists carts1 r1 carts2 r2 x1 x2,
    add (products Examples.kettleShop) ∅ "alice" Examples.kettleId
        (Num 30) 100 = (carts1, r1) /\
    add (products Examples.kettleShop) carts1 "alice" Examples.kettleIdCaps
        (Num 30) 200 = (carts2, r2) /\
    http_status r2 = 200 /\
    items <$> carts2 !! "alice" = Some [x1; x2] /\
    productId x1 = Examples.kettleId /\
    productId x2 = Examples.kettleIdCaps /\
    quantity x1 = Num 30 /\ quantity x2 = Num 30 /\
    Product.stock <$> products Examples.kettleShop !! Examples.kettleId
    = Some 40.
Proof.
  split; [reflexivity|].
  eexists _, _, _, _, _, _.
  split; [reflexivity|]. split; [vm_compute; reflexivity|].
  repeat split.
Qed.

End CartFacts.

(** ** The other cart routes *)

Section CartRouteFacts.
Import Cart CartRoutes.
Implicit Types (ps : gmap string Product.doc) (carts : gmap string cart)
  (l : list item).

Lemma map_fmap {A B} (f : A -> B) (xs : list A) : map f xs = f <$> xs.
Proof. induction xs as [|x xs IH]; simpl; [done|]. by rewrite IH. Qed.



(** X19. Removing a line through [DELETE /api/cart/item/:productId]: a
    [productId] string that has no line is answered 404 and nothing
    changes; otherwise the first line with that string is taken out and
    answered, and the stored cart is the one that setting the quantity to
    the number 0 leaves.  The item count answered is that of the lines
    that remain: when the count before is a number (every quantity in the
    cart is one), it is the count before less the quantity of the line
    removed. *)
Theorem removeItem_spec ps carts u pid now :
  (findIndex (sameProduct pid) (items (getCartForUser carts u now)) = None ->
   removeItem carts u pid now = (carts, ItemNotFound)) /\
  (forall i,
     findIndex (sameProduct pid) (items (getCartForUser carts u now)) = Some i ->
     exists x its,
       items (getCartForUser carts u now) !! i = Some x /\
       productId x = pid /\
       its = delete i (items (getCartForUser carts u now)) /\
       removeItem carts u pid now
       = (<[u := {| items := its; updatedAt := now |}]> carts,
          ItemRemoved (Some x) its (itemCount its) (round2 (cartTotal its))) /\
       (forall c, itemCount (items (getCartForUser carts u now)) = Num c ->
          itemCount its = Num (c - numQty (quantity x))) /\
       (updateItem ps carts u pid (Num 0) now).1
       = (removeItem carts u pid now).1).
Proof.
  unfold removeItem, updateItem. simpl.
  set (l := items (getCartForUser carts u now)).
  split.
  - by intros ->.
  - intros i Hi. rewrite Hi.
    destruct (findIndex_Some _ _ _ Hi) as (x & Hx & Fx & _).
    exists x, (delete i l). rewrite Hx. split; [done|].
    split; [by apply String.eqb_eq in Fx|]. split; [done|]. split; [done|].
    split; [|done]. intros c Hc. by apply itemCount_delete.
Qed.

Lemma removeItem_spec_witness :
  exists x its,
    removeItem Examples.carts "alice" "Z" 2000
    = (<["alice" := {| items := its; updatedAt := 2000 |}]> Examples.carts,
       ItemRemoved (Some x) its (itemCount its) (round2 (cartTotal its))) /\
    its = [Examples.cartLine "P" 10 1] /\ quantity x = Num 2 /\
    itemCount its = Num 1.
Proof.
  destruct (proj2 (removeItem_spec Examples.shop Examples.carts "alice" "Z" 2000)
              1%nat eq_refl)
    as (x & its & Hx & _ & Hits & Hres & Hcount & _).
  assert (Ex : x = Examples.cartLine "Z" 4 2).
  { vm_compute in Hx. injection Hx as <-. reflexivity. }
  exists x, its. split; [exact Hres|].
  split; [by subst its|]. split; [by subst x|].
  rewrite (Hcount 3 eq_refl). by subst x.
Defined.

(** When a quantity in the cart is a string, the item count is a text,
    and removing a line takes the text of its quantity out of it. *)
Lemma removeItem_count_of_strings :
  exists its its',
    itemCount (its ++ [Examples.cartLine "Z" 4 1]) = Str "021" /\
    map quantity its = [Str "2"] /\
    (removeItem {[ "alice" := {| items := its ++ [Examples.cartLine "Z" 4 1];
                                 updatedAt := 5 |} ]} "alice" "Z" 2000).2
    = ItemRemoved (Some (Examples.cartLine "Z" 4 1)) its' (Str "02")
        (round2 (cartTotal its')).
Proof.
  exists [setQuantityTotal (Str "2") 20 (Examples.cartLine "P" 10 1)].
  eexists. split; [reflexivity|]. split; reflexivity.
Qed.

End CartRouteFacts.

(** ** Reading the cart *)

Section CartRead.
Import Cart CartRoutes.
Implicit Types (ps : gmap string Product.doc) (carts : gmap string cart)
  (l : list item).

Lemma refresh_Some ps x v :
  refresh ps x = Some v ->
  exists p, ps !! castObjectId (productId x) = Some p /\
    Product.isActive p = true /\
    productId (v_line v) = productId x /\
    quantity (v_line v) = quantity x /\
    productName (v_line v) = Product.name p /\
    price (v_line v) = Product.price p /\
    total (v_line v)
    = PrimFloat.mul (ToNumber (quantity (v_line v))) (price (v_line v)) /\
    availableStock v = Product.stock p /\
    inStock v = ge_number (Product.stock p) (quantity x).
Proof.
  unfold refresh.
  destruct (ps !! castObjectId (productId x)) as [p|]; [|discriminate].
  destruct (Product.isActive p) eqn:Ha; [|discriminate].
  intros [= <-]. exists p. simpl. auto 10.
Qed.

Lemma refresh_again ps x v :
  refresh ps x = Some v -> refresh ps (v_line v) = Some v.
Proof.
  unfold refresh.
  destruct (ps !! castObjectId (productId x)) as [p|] eqn:Hp; [|discriminate].
  destruct (Product.isActive p) eqn:Ha; [|discriminate].
  intros [= <-]. simpl. by rewrite Hp, Ha.
Qed.

Lemma refresh_all_again ps l :
  omap (refresh ps) (map v_line (omap (refresh ps) l)) = omap (refresh ps) l.
Proof.
  induction l as [|x l IH]; [done|].
  cbn [omap list_omap].
  destruct (refresh ps x) as [v|] eqn:R; [|exact IH].
  cbn [map omap list_omap]. rewrite (refresh_again _ _ _ R).
  f_equal. exact IH.
Qed.

(** X20. Reading the cart through [GET /api/cart].  Every line answered
    belongs to a line of the cart whose product is stored and active, and
    shows that product's current name and price, a total of quantity
    times that price, the product's stock and whether the quantity is
    within it; every cart line whose product is stored and active is
    answered, the others are dropped.  The lines answered are also what
    the cart holds afterwards; no other cart changes; and reading again
    while the products stay the same answers the same and changes
    nothing. *)
Theorem getCart_spec ps carts u now carts' view n t at_ :
  getCart ps carts u now = (carts', (view, n, t, at_)) ->
  (forall v, In v view ->
     exists x p, In x (items (getCartForUser carts u now)) /\
       ps !! castObjectId (productId x) = Some p /\
       Product.isActive p = true /\
       productId (v_line v) = productId x /\
       quantity (v_line v) = quantity x /\
       productName (v_line v) = Product.name p /\
       price (v_line v) = Product.price p /\
       total (v_line v)
       = PrimFloat.mul (ToNumber (quantity (v_line v))) (price (v_line v)) /\
       availableStock v = Product.stock p /\
       inStock v = ge_number (Product.stock p) (quantity x)) /\
  (forall x p, In x (items (getCartForUser carts u now)) ->
     ps !! castObjectId (productId x) = Some p -> Product.isActive p = true ->
     exists v, In v view /\ refresh ps x = Some v) /\
  carts' !! u = Some {| items := map v_line view; updatedAt := at_ |} /\
  n = itemCount (map v_line view) /\
  (forall u', u' <> u -> carts' !! u' = carts !! u') /\
  (forall now', getCart ps carts' u now' = (carts', (view, n, t, at_))).
Proof.
  unfold getCart. intros [= <- <- <- <- <-].
  set (l := items (getCartForUser carts u now)).
  split; [|split; [|split; [|split; [|split]]]].
  - intros v Hv. apply list_elem_of_In, list_elem_of_omap in Hv
      as (x & Hx & R).
    destruct (refresh_Some _ _ _ R) as (p & Hp).
    exists x, p. split; [by apply list_elem_of_In|]. exact Hp.
  - intros x p Hx Hp Ha.
    assert (R : is_Some (refresh ps x)).
    { unfold refresh. rewrite Hp, Ha. by eexists. }
    destruct R as [v R]. exists v. split; [|done].
    apply list_elem_of_In, list_elem_of_omap. exists x.
    split; [by apply list_elem_of_In|done].
  - apply lookup_insert_eq.
  - done.
  - intros u' Hne. by apply lookup_insert_ne.
  - intros now'.
    set (c := {| items := map v_line (omap (refresh ps) l);
                 updatedAt := updatedAt (getCartForUser carts u now) |}).
    assert (E : getCartForUser (<[u := c]> carts) u now' = c).
    { unfold getCartForUser. by rewrite lookup_insert_eq. }
    rewrite !E. subst c. simpl.
    rewrite refresh_all_again, insert_insert_eq. reflexivity.
Qed.

Lemma getCart_spec_witness :
  exists carts' view n t at_,
    getCart Examples.shopRepriced Examples.carts "alice" 2000
    = (carts', (view, n, t, at_)) /\
    map v_line view = [Examples.cartLine "P" 12 1] /\
    getCart Examples.shopRepriced carts' "alice" 3000
    = (carts', (view, n, t, at_)).
Proof.
  eexists _, _, _, _, _. split; [reflexivity|]. split; [reflexivity|].
  destruct (getCart_spec Examples.shopRepriced Examples.carts "alice" 2000
              _ _ _ _ _ eq_refl) as (_ & _ & _ & _ & _ & Hagain).
  apply Hagain.
Defined.

End CartRead.

(** ** One line per [productId] string, no line with a number below one *)

Section CartInvariant.
Import Cart CartRoutes.
Implicit Types (ps : gmap string Product.doc) (carts : gmap string cart)
  (l : list item).

Lemma cartsOk_insert carts u l t :
  cartsOk carts -> cartOk {| items := l; updatedAt := t |} ->
  cartsOk (<[u := {| items := l; updatedAt := t |}]> carts).
Proof.
  intros Hall Hc u' c. destruct (decide (u = u')) as [->|Hne].
  - rewrite lookup_insert_eq. by intros [= <-].
  - rewrite lookup_insert_ne by done. apply Hall.
Qed.

Lemma cartOk_default carts u now :
  cartsOk carts -> cartOk (getCartForUser carts u now).
Proof.
  intros Hall. unfold getCartForUser.
  destruct (carts !! u) as [c|] eqn:Hc; simpl; [by apply (Hall u)|].
  split; constructor.
Qed.

Lemma cartOk_insert_line l t t' i x y :
  cartOk {| items := l; updatedAt := t |} ->
  l !! i = Some x -> productId y = productId x ->
  (forall z, quantity y = Num z -> 1 <= z) ->
  cartOk {| items := <[i := y]> l; updatedAt := t' |}.
Proof.
  intros [Hnd Hq] Hx Hid Hy. split; simpl in *.
  - rewrite map_fmap, list_fmap_insert, Hid, list_insert_id.
    + by rewrite <- map_fmap.
    + by rewrite list_lookup_fmap, Hx.
  - by apply Forall_insert.
Qed.

Lemma cartOk_delete_line l t t' i :
  cartOk {| items := l; updatedAt := t |} ->
  cartOk {| items := delete i l; updatedAt := t' |}.
Proof.
  intros [Hnd Hq]. split; simpl in *.
  - rewrite map_fmap, list_fmap_delete.
    eapply sublist_NoDup; [|apply sublist_delete]. by rewrite <- map_fmap.
  - by apply Forall_delete.
Qed.

Lemma cartOk_new_line l t t' y :
  cartOk {| items := l; updatedAt := t |} ->
  findIndex (fun it => String.eqb (productId it) (productId y)) l = None ->
  (forall z, quantity y = Num z -> 1 <= z) ->
  cartOk {| items := l ++ [y]; updatedAt := t' |}.
Proof.
  intros [Hnd Hq] Hi Hy. split; simpl in *.
  - rewrite map_app. simpl. apply NoDup_app. split; [done|].
    split; [|apply NoDup_singleton].
    intros k Hk Hk'. apply list_elem_of_singleton in Hk'. subst k.
    apply findIndex_None in Hi. rewrite map_fmap in Hk.
    apply list_elem_of_fmap in Hk as (x & Hx & Hin).
    rewrite Forall_forall in Hi. specialize (Hi x Hin). simpl in Hi.
    rewrite Hx, String.eqb_refl in Hi. discriminate.
  - apply Forall_app. split; [done|]. by constructor.
Qed.

Lemma cartOk_refreshed ps l t t' :
  cartOk {| items := l; updatedAt := t |} ->
  cartOk {| items := map v_line (omap (refresh ps) l); updatedAt := t' |}.
Proof.
  intros [Hnd Hq]. simpl in *.
  assert (Hin : forall l k,
    k ∈ map productId (map v_line (omap (refresh ps) l)) ->
    k ∈ map productId l).
  { clear. intros l k. induction l as [|x l IH]; [done|].
    cbn [omap list_omap]. destruct (refresh ps x) as [v|] eqn:R.
    - cbn [map]. destruct (refresh_Some _ _ _ R) as (p & _ & _ & Hid & _).
      rewrite Hid. intros [->|Hk]%elem_of_cons.
      + apply elem_of_cons. by left.
      + apply elem_of_cons. right. by apply IH.
    - intros Hk. cbn [map]. apply elem_of_cons. right. by apply IH. }
  split; simpl.
  - induction l as [|x l IH]; [constructor|].
    cbn [map] in Hnd. apply NoDup_cons in Hnd as [Hx Hnd].
    apply Forall_cons in Hq as [_ Hq].
    cbn [omap list_omap]. destruct (refresh ps x) as [v|] eqn:R; [|by apply IH].
    cbn [map]. destruct (refresh_Some _ _ _ R) as (p & _ & _ & Hid & _).
    rewrite Hid. apply NoDup_cons. split; [|by apply IH].
    intros Hk. apply Hx. by apply Hin.
  - induction l as [|x l IH]; [constructor|].
    apply Forall_cons in Hq as [Hx Hq].
    cbn [map] in Hnd. apply NoDup_cons in Hnd as [_ Hnd].
    cbn [omap list_omap]. destruct (refresh ps x) as [v|] eqn:R; [|by apply IH].
    cbn [map]. destruct (refresh_Some _ _ _ R) as (p & _ & _ & _ & Hqv & _).
    constructor; [by rewrite Hqv|by apply IH].
Qed.

(** A number that passes [isInt] from [lo] on is at least [lo]. *)
Lemma isInt_Num lo hi z : isInt lo hi (Num z) = true -> lo <= z <= hi.
Proof. simpl. intros [H1 H2]%andb_prop. lia. Qed.

Lemma add_cartsOk ps carts u pid q now :
  cartsOk carts -> cartsOk (add ps carts u pid q now).1.
Proof.
  intros Hall. pose proof (cartOk_default _ u now Hall) as Hc.
  unfold add.
  destruct (isInt 1 50 q) eqn:Hq; simpl; [|done].
  destruct (ps !! castObjectId pid) as [p|]; [|done].
  destruct (negb (Product.isActive p)); [done|].
  destruct (lt_number (Product.stock p) q); [done|].
  destruct (getCartForUser carts u now) as [l t] eqn:G. simpl.
  destruct (findIndex _ l) as [i|] eqn:Hi.
  - destruct (findIndex_Some _ _ _ Hi) as (x & Hx & _ & _). rewrite Hx.
    destruct (lt_number (Product.stock p) (js_add (quantity x) q)); [done|].
    simpl. apply cartsOk_insert; [done|].
    apply (cartOk_insert_line l t now i x); try done.
    destruct Hc as [_ Hqs]. simpl in Hqs. rewrite Forall_lookup in Hqs.
    specialize (Hqs i x Hx). simpl.
    intros z Hz. destruct (quantity x) as [k|]; [|discriminate].
    destruct q as [m|]; [|discriminate]. injection Hz as <-.
    apply isInt_Num in Hq. specialize (Hqs k eq_refl). lia.
  - simpl. apply cartsOk_insert; [done|].
    apply (cartOk_new_line l t now); try done. simpl.
    intros z ->. apply isInt_Num in Hq. lia.
Qed.

Lemma updateItem_cartsOk ps carts u pid q now :
  cartsOk carts -> cartsOk (updateItem ps carts u pid q now).1.
Proof.
  intros Hall. pose proof (cartOk_default _ u now Hall) as Hc.
  unfold updateItem.
  destruct (isInt 0 50 q) eqn:Hq; simpl; [|done].
  destruct (getCartForUser carts u now) as [l t] eqn:G. simpl.
  destruct (findIndex _ l) as [i|] eqn:Hi; [|done].
  destruct (is_zero q) eqn:Hz.
  - simpl. apply cartsOk_insert; [done|]. by apply (cartOk_delete_line l t).
  - destruct (ps !! castObjectId pid) as [p|]; [|done].
    destruct (negb (Product.isActive p)); [done|].
    destruct (lt_number (Product.stock p) q); [done|].
    destruct (l !! i) as [x|] eqn:Hx; [|done]. simpl.
    apply cartsOk_insert; [done|].
    apply (cartOk_insert_line l t now i x); try done. simpl.
    intros z ->. apply isInt_Num in Hq.
    destruct z; try done; lia.
Qed.

Lemma removeItem_cartsOk carts u pid now :
  cartsOk carts -> cartsOk (removeItem carts u pid now).1.
Proof.
  intros Hall. pose proof (cartOk_default _ u now Hall) as Hc.
  unfold removeItem.
  destruct (getCartForUser carts u now) as [l t] eqn:G. simpl.
  destruct (findIndex _ l) as [i|]; [|done]. simpl.
  apply cartsOk_insert; [done|]. by apply (cartOk_delete_line l t).
Qed.

Lemma cartOk_empty t : cartOk {| items := []; updatedAt := t |}.
Proof. split; constructor. Qed.

Lemma request_step_cartsOk s s' :
  request_step s s' -> cartsOk (userCarts s) -> cartsOk (userCarts s').
Proof.
  intros Hstep Hall. destruct Hstep; simpl; try done.
  - unfold OrderRoutes.placeOrder, OrderRoutes.withTransaction,
      OrderRoutes.transactionBody.
    destruct (negb _); [done|]. destruct (_ =? _)%nat; [done|].
    destruct (OrderRoutes.collectItems _ _ _ _) as [e|[ois tot]]; [done|].
    destruct (Order.createOrderWithTransaction _ _ _) as [e|[os o]]; [done|].
    destruct (OrderRoutes.decrementStock _ _) as [e|ps']; [done|]. simpl.
    apply cartsOk_insert; [done|apply cartOk_empty].
  - unfold OrderRoutes.cancelOrder. destruct (orders s !! id); [|done].
    destruct (negb _); [done|]. destruct (negb _); [done|].
    by destruct (OrderRoutes.restoreStock _ _).
  - unfold OrderRoutes.updateOrderStatus. destruct (orders s !! id); [|done].
    destruct (_ && _); [|done]. by destruct (OrderRoutes.restoreStock _ _).
  - by apply add_cartsOk.
  - unfold getCart. simpl.
    pose proof (cartOk_default _ u now Hall) as Hc.
    destruct (getCartForUser (userCarts s) u now) as [l t]. simpl.
    apply cartsOk_insert; [done|]. by apply (cartOk_refreshed _ l t).
  - by apply updateItem_cartsOk.
  - by apply removeItem_cartsOk.
  - apply cartsOk_insert; [done|apply cartOk_empty].
Qed.

(** X21. Over any sequence of requests run one at a time, whatever their
    bodies, no cart comes to hold two lines with the same [productId]
    string, nor a line whose quantity is a number below one: adding under
    a string that is already in the cart merges into its line, and the
    number 0 removes the line instead of being stored.  Neither says
    that a product has one line, nor that no line is empty: the same
    product sent under another spelling of its id has a line of its own,
    and a quantity sent as the string ['0'] is stored. *)
Theorem carts_invariant s s' :
  cartsOk (userCarts s) -> rtc request_step s s' -> cartsOk (userCarts s').
Proof.
  intros Inv Hsteps. induction Hsteps as [|s s1 s2 Hstep _ IH]; [done|].
  apply IH. by apply (request_step_cartsOk s).
Qed.

(** Three requests of "alice" on an empty cart: 30 kettles, 30 more under
    the id in capitals, and the string ['0'] for the first line.  The
    cart then holds two lines of the one product, the first with the
    quantity ['0'], and the invariant holds of it. *)
Lemma carts_invariant_witness :
  exists s3 x1 x2,
    rtc request_step Examples.kettleShop s3 /\
    items <$> userCarts s3 !! "alice" = Some [x1; x2] /\
    productId x1 = Examples.kettleId /\ quantity x1 = Str "0" /\
    productId x2 = Examples.kettleIdCaps /\ quantity x2 = Num 30 /\
    cartsOk (userCarts s3).
Proof.
  set (s1 := with_carts Examples.kettleShop
               (add (products Examples.kettleShop)
                    (userCarts Examples.kettleShop)
                    "alice" Examples.kettleId (Num 30) 100).1).
  set (s2 := with_carts s1
               (add (products s1) (userCarts s1)
                    "alice" Examples.kettleIdCaps (Num 30) 200).1).
  set (s3 := with_carts s2
               (updateItem (products s2) (userCarts s2)
                    "alice" Examples.kettleId (Str "0") 300).1).
  assert (Hsteps : rtc request_step Examples.kettleShop s3).
  { eapply rtc_l;
      [apply (req_cartAdd _ "alice" Examples.kettleId (Num 30) 100)|].
    eapply rtc_l;
      [apply (req_cartAdd s1 "alice" Examples.kettleIdCaps (Num 30) 200)|].
    apply rtc_once.
    apply (req_cartUpdate s2 "alice" Examples.kettleId (Str "0") 300). }
  eexists s3, _, _. split; [exact Hsteps|].
  split; [vm_compute; reflexivity|].
  split; [reflexivity|]. split; [reflexivity|].
  split; [reflexivity|]. split; [reflexivity|].
  apply (carts_invariant Examples.kettleShop); [|exact Hsteps].
  intros u c H. vm_compute in H. discriminate.
Defined.

End CartInvariant.

(** ** The cart summary *)

Section CartSummary.
Import Cart CartRoutes.
Implicit Types (ps : gmap string Product.doc) (carts : gmap string cart).

(** X23. The summary read right after a change agrees with what the change
    answered: after a 200 from the add route it is the item count and
    rounded total of that answer, after clearing the cart it is zero items
    and the rounding of zero; and a user who never had a cart reads the
    same as after clearing. *)
Theorem summary_agrees ps carts u now :
  (forall pid q found n t now',
     (add ps carts u pid q now).2 = Added found n t ->
     summary (add ps carts u pid q now).1 u now' = (n, t)) /\
  (forall now', summary (clearCart carts u now).1 u now'
                = (Num 0, round2 0)) /\
  (carts !! u = None -> summary carts u now = (Num 0, round2 0)).
Proof.
  split; [|split].
  - intros pid q found n t now'. unfold add.
    destruct (negb _); [discriminate|].
    destruct (ps !! castObjectId pid) as [p|]; [|discriminate].
    destruct (negb (Product.isActive p)); [discriminate|].
    destruct (lt_number (Product.stock p) q); [discriminate|].
    destruct (findIndex _ _) as [i|].
    + destruct (items (getCartForUser carts u now) !! i) as [x|];
        [|discriminate].
      destruct (lt_number (Product.stock p) (js_add (quantity x) q));
        [discriminate|].
      simpl. intros [= _ <- <-]. unfold summary, getCartForUser.
      by rewrite lookup_insert_eq.
    + simpl. intros [= _ <- <-]. unfold summary, getCartForUser.
      by rewrite lookup_insert_eq.
  - intros now'. unfold summary, clearCart, getCartForUser. simpl.
    by rewrite lookup_insert_eq.
  - intros Hn. unfold summary, getCartForUser. by rewrite Hn.
Qed.

Lemma summary_agrees_witness :
  summary (add Examples.shop Examples.carts "bob" "P" (Num 3) 2000).1
          "bob" 2500
  = (Num 5, round2 50).
Proof.
  apply (proj1 (summary_agrees Examples.shop Examples.carts "bob" 2000)
           "P" (Num 3) (Some (Examples.cartLine "P" 10 5))).
  reflexivity.
Defined.

End CartSummary.
